(** * BMS: ownership-filtered record store with remote synchronisation

    A shallow embedding of [src/script.js] (classes [BMS_Cloud] and
    [BMS_Core]), with the table of keys of [src/google_apps_script.js].

    Conventions of the embedding.
    - [localStorage] holds one entry per key of [DB_KEYS].  An entry is either
      absent ([getItem] returns [null], here [None]) or holds the JSON text of
      a value, which is represented by what [JSON.parse] gives back for it.
      [setItem] always succeeds.
    - The records of a table are well formed: every field is there, a string
      field holds a string and a number field holds what JSON can hold for a
      number, that is a finite binary64 number or [null] (here [None]):
      [JSON.stringify] writes [null] for NaN and for the infinities, and [0]
      for negative zero ([JS.json]).  Arithmetic and [<] read [null] as [0]
      ([JS.num]).
    - Strings are compared with [===] and joined with [+]; these are equality
      and concatenation.  [toLowerCase] and [trim] are the engine's: they are
      parameters of the embedding ([JS.Engine]), with the three laws the
      proofs use.
    - A quantity, price, cost or amount reaches the code as the caller passes
      it, a number or a string ([JS.value]).  The code compares it with [<]
      and applies [parseInt] and [parseFloat] to it; these conversions are the
      engine's as well.
    - [Date.now()] and [new Date().toISOString()] are inputs of the operation
      that reads them.
    - [fetch] is an effect: every request issued is appended to the
      [requests] log of the world; the response to the one awaited request
      ([syncDown]) is an input of the operation. *)

From Stdlib Require Import ZArith String Ascii List Floats DecimalString Zpower.
From stdpp Require Import base list strings.

Local Open Scope string_scope.
Local Open Scope list_scope.
Local Open Scope Z_scope.

(** ** JavaScript built-ins used by the source *)

Module JS.

(** The built-ins whose definition lies outside the source.

    [toLowerCase] and [trim] are [String.prototype.toLowerCase] and
    [String.prototype.trim].  The laws: trimming twice is trimming once;
    lower-casing changes no white space, so it commutes with trimming; and a
    string whose lower-cased form has no white space around it has none
    either.

    [value] is what a caller passes for a quantity, a price, a cost or an
    amount; [toNumber] is the number [<] compares it as, [parseInt] and
    [parseFloat] are the global functions of these names, applied to it. *)
Class Engine := {
  toLowerCase : string -> string;
  trim : string -> string;
  value : Type;
  toNumber : value -> float;
  parseInt : value -> float;
  parseFloat : value -> float;
  trim_idempotent : forall s, trim (trim s) = trim s;
  trim_toLowerCase : forall s, trim (toLowerCase s) = toLowerCase (trim s);
  trimmed_toLowerCase : forall s, trim (toLowerCase s) = toLowerCase s -> trim s = s
}.

(** ['prefix' + n] for an integer [n]: its decimal digits. *)
Definition toString (n : Z) : string := NilZero.string_of_int (Z.to_int n).

(** Truthiness of a string: the empty string is falsy. *)
Definition truthy (s : string) : bool := negb (String.eqb s "").

(** [v || d] where [v] is [null] or an object. *)
Definition or_else {A : Type} (v : option A) (d : A) : A :=
  match v with Some a => a | None => d end.

(** [Array.prototype.find]: the first element satisfying the callback.  The
    element is returned by reference, so its position comes with it: a
    later assignment to one of its fields is a write at that position.
    [findIndex] followed by [users[userIndex]] is the same pair, with [None]
    for [-1]. *)
Fixpoint find {A : Type} (p : A -> bool) (l : list A) : option (nat * A) :=
  match l with
  | [] => None
  | x :: l' => if p x then Some (O, x)
               else match find p l' with
                    | Some (i, y) => Some (S i, y)
                    | None => None
                    end
  end.

(** [Array.prototype.reduce((sum, x) => sum + f(x), 0)]. *)
Definition reduce_sum {A : Type} (f : A -> float) (l : list A) : float :=
  fold_left (fun sum x => (sum + f x)%float) l 0%float.

(** A function call either returns or throws. *)
Inductive completion (A : Type) : Type :=
| Return (a : A)
| Throw (error : string).
Arguments Return {A} a.
Arguments Throw {A} error.

(** A number once it has been through [JSON.stringify] and [JSON.parse], as
    every number written to the store or pushed to the remote is: NaN and
    the infinities come back as [null], negative zero as [0], any other
    number as itself. *)
Definition json (x : float) : option float :=
  if is_finite x then Some (x + 0)%float else None.

(** A number field as an operand of [+], [-] or [<]: [null] counts as [0]. *)
Definition num (v : option float) : float :=
  match v with Some x => x | None => 0%float end.

End JS.

(** ** Constants *)

Module DB_KEYS.
Definition USERS := "ims_users".
Definition INVENTORY := "ims_inventory".
Definition SALES := "ims_sales".
Definition PURCHASES := "ims_purchases".
Definition CURRENT_USER := "ims_current_user".
Definition EXPENSES := "ims_expenses".
Definition BANNER := "ims_banner".
Definition VERTICAL_BANNER := "ims_vertical_banner".
Definition CLOUD_URL := "ims_cloud_url".
End DB_KEYS.

Module ROLES.
Definition ADMIN := "Admin".
Definition USER := "User".
End ROLES.

(** ** Records *)

Record User := mkUser {
  u_id : string;
  u_companyName : string;
  u_username : string;
  u_contactPerson : string;
  u_password : string;
  u_role : string;
  u_status : string
}.

Record InventoryItem := mkItem {
  i_id : string;
  i_owner : string;
  i_itemName : string;
  i_quantity : option float;
  i_avgCost : option float
}.

Record Sale := mkSale {
  s_id : string;
  s_owner : string;
  s_date : string;
  s_itemName : string;
  s_quantity : option float;
  s_price : option float;
  s_total : option float
}.

Record Purchase := mkPurchase {
  p_id : string;
  p_owner : string;
  p_date : string;
  p_vendor : string;
  p_category : string;
  p_brand : string;
  p_model : string;
  p_itemName : string;
  p_quantity : option float;
  p_cost : option float;
  p_paymentType : string
}.

Record Expense := mkExpense {
  e_id : string;
  e_owner : string;
  e_name : string;
  e_amount : option float;
  e_date : string
}.

Definition INITIAL_ADMIN : User :=
  {| u_id := "admin_001";
     u_companyName := "Admin";
     u_username := "Admin";
     u_contactPerson := "Admin";
     u_password := "admin123";
     u_role := ROLES.ADMIN;
     u_status := "Approved" |}.

(** [item.quantity = q]: the same item with one field assigned. *)
Definition set_quantity (q : option float) (i : InventoryItem) : InventoryItem :=
  {| i_id := i_id i; i_owner := i_owner i; i_itemName := i_itemName i;
     i_quantity := q; i_avgCost := i_avgCost i |}.

Definition set_password (pw : string) (u : User) : User :=
  {| u_id := u_id u; u_companyName := u_companyName u;
     u_username := u_username u; u_contactPerson := u_contactPerson u;
     u_password := pw; u_role := u_role u; u_status := u_status u |}.

Definition set_status (st : string) (u : User) : User :=
  {| u_id := u_id u; u_companyName := u_companyName u;
     u_username := u_username u; u_contactPerson := u_contactPerson u;
     u_password := u_password u; u_role := u_role u; u_status := st |}.

(** ** The local store *)

Record LocalStorage := mkStorage {
  ims_users : option (list User);
  ims_inventory : option (list InventoryItem);
  ims_sales : option (list Sale);
  ims_purchases : option (list Purchase);
  ims_expenses : option (list Expense);
  ims_current_user : option User;
  ims_banner : option string;
  ims_vertical_banner : option string;
  ims_cloud_url : option string
}.

(** [localStorage.setItem(key, ...)], one setter per key. *)
Definition setUsers (v : option (list User)) (s : LocalStorage) :=
  mkStorage v (ims_inventory s) (ims_sales s) (ims_purchases s)
    (ims_expenses s) (ims_current_user s) (ims_banner s)
    (ims_vertical_banner s) (ims_cloud_url s).
Definition setInventory (v : option (list InventoryItem)) (s : LocalStorage) :=
  mkStorage (ims_users s) v (ims_sales s) (ims_purchases s)
    (ims_expenses s) (ims_current_user s) (ims_banner s)
    (ims_vertical_banner s) (ims_cloud_url s).
Definition setSales (v : option (list Sale)) (s : LocalStorage) :=
  mkStorage (ims_users s) (ims_inventory s) v (ims_purchases s)
    (ims_expenses s) (ims_current_user s) (ims_banner s)
    (ims_vertical_banner s) (ims_cloud_url s).
Definition setPurchases (v : option (list Purchase)) (s : LocalStorage) :=
  mkStorage (ims_users s) (ims_inventory s) (ims_sales s) v
    (ims_expenses s) (ims_current_user s) (ims_banner s)
    (ims_vertical_banner s) (ims_cloud_url s).
Definition setExpenses (v : option (list Expense)) (s : LocalStorage) :=
  mkStorage (ims_users s) (ims_inventory s) (ims_sales s) (ims_purchases s)
    v (ims_current_user s) (ims_banner s)
    (ims_vertical_banner s) (ims_cloud_url s).
Definition setCurrentUser (v : option User) (s : LocalStorage) :=
  mkStorage (ims_users s) (ims_inventory s) (ims_sales s) (ims_purchases s)
    (ims_expenses s) v (ims_banner s)
    (ims_vertical_banner s) (ims_cloud_url s).
Definition setBannerEntry (v : option string) (s : LocalStorage) :=
  mkStorage (ims_users s) (ims_inventory s) (ims_sales s) (ims_purchases s)
    (ims_expenses s) (ims_current_user s) v
    (ims_vertical_banner s) (ims_cloud_url s).
Definition setVerticalBannerEntry (v : option string) (s : LocalStorage) :=
  mkStorage (ims_users s) (ims_inventory s) (ims_sales s) (ims_purchases s)
    (ims_expenses s) (ims_current_user s) (ims_banner s)
    v (ims_cloud_url s).
Definition setCloudUrl (v : option string) (s : LocalStorage) :=
  mkStorage (ims_users s) (ims_inventory s) (ims_sales s) (ims_purchases s)
    (ims_expenses s) (ims_current_user s) (ims_banner s)
    (ims_vertical_banner s) v.

(** ** The remote side as the client sees it *)

(** The [data] field of a pushed payload, as [JSON.stringify] writes it. *)
Inductive RecordData : Type :=
| DUser (u : User)
| DItem (i : InventoryItem)
| DSale (s : Sale)
| DPurchase (p : Purchase)
| DExpense (e : Expense)
| DSetting (key value : string).

Record PushPayload := mkPayload {
  pl_action : string;
  pl_key : string;
  pl_data : RecordData
}.

Inductive Request : Type :=
| GET (url : string)
| POST (url : string) (body : PushPayload).

(** What the snapshot carries under a table key: nothing, a value that is not
    an array (truthy or not), or an array of records. *)
Inductive TablePayload (A : Type) : Type :=
| Missing
| NotArray (is_truthy : bool)
| Array (records : list A).
Arguments Missing {A}.
Arguments NotArray {A} is_truthy.
Arguments Array {A} records.

(** What the snapshot carries under a banner key: nothing, a string, or a
    value of another kind, given by its truthiness and by the string
    [setItem] stores for it.  The backend sends the empty array for a banner
    whose sheet is missing ([getAllData]): it is truthy and is stored as the
    empty string. *)
Inductive SettingPayload : Type :=
| NoSetting
| Text (s : string)
| Other (is_truthy : bool) (as_string : string).

Record Snapshot := mkSnapshot {
  d_users : TablePayload User;
  d_inventory : TablePayload InventoryItem;
  d_sales : TablePayload Sale;
  d_purchases : TablePayload Purchase;
  d_expenses : TablePayload Expense;
  d_banner : SettingPayload;
  d_vertical_banner : SettingPayload
}.

(** Outcome of [await fetch(url)] followed by [await res.json()]: a rejection
    (network or parse error, or a body that is not an object) with the text
    of the error; a JSON object with its [result], [data] and [error] fields;
    or a JSON object whose [data] is undefined or [null], for which reading
    [data.ims_users] throws the TypeError whose text is [typeError]. *)
Inductive Response : Type :=
| Rejected (e : string)
| Json (result : string) (data : Snapshot) (error : string)
| JsonWithoutData (result : string) (error : string) (typeError : string).

(** ** The world: the store, the gateway's [url] field and the request log *)

Record World := mkWorld {
  localStorage : LocalStorage;
  cloud_url : string;
  requests : list Request
}.

Definition with_storage (f : LocalStorage -> LocalStorage) (w : World) : World :=
  mkWorld (f (localStorage w)) (cloud_url w) (requests w).

Definition issue (r : Request) (w : World) : World :=
  mkWorld (localStorage w) (cloud_url w) (requests w ++ [r]).

(** Result objects [{ success, message }]; [processSale] omits [message] on
    success. *)
Record Result := mkResult {
  r_success : bool;
  r_message : option string
}.

(** ** class BMS_Cloud *)

Module BMS_Cloud.

(** [constructor]: [this.url = localStorage.getItem(CLOUD_URL) || '']. *)
Definition constructor (s : LocalStorage) : string :=
  match ims_cloud_url s with
  | Some u => if JS.truthy u then u else ""
  | None => ""
  end.

Definition setUrl (url : string) (w : World) : World :=
  mkWorld (setCloudUrl (Some url) (localStorage w)) url (requests w).

Definition getUrl (w : World) : string := cloud_url w.

(** [val && Array.isArray(val) && val.length > 0] *)
Definition is_valid {A : Type} (val : TablePayload A) : bool :=
  match val with
  | Missing => false
  | NotArray t => t && false
  | Array l => (0 <? length l)%nat
  end.

(** The helper of [syncDown]; [setItem] stands for
    [localStorage.setItem(key, ...)] at the key passed. *)
Definition saveIfValid {A : Type}
    (setItem : option (list A) -> LocalStorage -> LocalStorage)
    (val : TablePayload A) (s : LocalStorage) : LocalStorage :=
  match val with
  | Array l => if is_valid val then setItem (Some l) s else s
  | _ => s
  end.

(** [if (data.k) localStorage.setItem(k, data.k)] for the two banners. *)
Definition saveIfTruthy
    (setItem : option string -> LocalStorage -> LocalStorage)
    (val : SettingPayload) (s : LocalStorage) : LocalStorage :=
  match val with
  | NoSetting => s
  | Text b => if JS.truthy b then setItem (Some b) s else s
  | Other is_truthy as_string =>
      if is_truthy then setItem (Some as_string) s else s
  end.

(** The writes of a successful pull, in source order. *)
Definition applySnapshot (data : Snapshot) (s : LocalStorage) : LocalStorage :=
  let s := saveIfValid setUsers (d_users data) s in
  let s := saveIfValid setInventory (d_inventory data) s in
  let s := saveIfValid setSales (d_sales data) s in
  let s := saveIfValid setPurchases (d_purchases data) s in
  let s := saveIfValid setExpenses (d_expenses data) s in
  let s := saveIfTruthy setBannerEntry (d_banner data) s in
  let s := saveIfTruthy setVerticalBannerEntry (d_vertical_banner data) s in
  s.

(** [syncDown]; [resp] is what the awaited [fetch] resolves to.  An error
    thrown inside [try] is caught and reported. *)
Definition syncDown (resp : Response) (w : World) : Result * World :=
  if negb (JS.truthy (cloud_url w)) then
    (mkResult false (Some "No Cloud URL configured"), w)
  else
    let w := issue (GET (cloud_url w)) w in
    match resp with
    | Json result data error =>
        if String.eqb result "success" then
          (mkResult true (Some "Data synced from Cloud"),
           with_storage (applySnapshot data) w)
        else
          (mkResult false (Some ("Cloud Error: " +:+ error)), w)
    | JsonWithoutData result error typeError =>
        if String.eqb result "success" then
          (mkResult false (Some ("Network/Sync Error: " +:+ typeError)), w)
        else
          (mkResult false (Some ("Cloud Error: " +:+ error)), w)
    | Rejected e =>
        (mkResult false (Some ("Network/Sync Error: " +:+ e)), w)
    end.

(** [pushRecord]: fire and forget. *)
Definition pushRecord (key : string) (data : RecordData) (w : World) : World :=
  if negb (JS.truthy (cloud_url w)) then w
  else
    let payload := {| pl_action := "save_record"; pl_key := key; pl_data := data |} in
    issue (POST (cloud_url w) payload) w.

End BMS_Cloud.

(** ** class BMS_Core *)

Module BMS_Core.

Section WithEngine.
Context `{E : JS.Engine}.

Definition initStorage (s : LocalStorage) : LocalStorage :=
  let users := JS.or_else (ims_users s) [] in
  let users := List.filter (fun u => negb (String.eqb (u_id u) "admin_001")) users in
  let users := INITIAL_ADMIN :: users in
  let s := setUsers (Some users) s in
  let s := match ims_inventory s with Some _ => s | None => setInventory (Some []) s end in
  let s := match ims_sales s with Some _ => s | None => setSales (Some []) s end in
  let s := match ims_purchases s with Some _ => s | None => setPurchases (Some []) s end in
  let s := match ims_expenses s with Some _ => s | None => setExpenses (Some []) s end in
  let s := match ims_banner s with
           | Some b => if JS.truthy b then s else setBannerEntry (Some "") s
           | None => setBannerEntry (Some "") s
           end in
  s.

(** The synchronous part of [constructor]. *)
Definition constructor (s : LocalStorage) : World :=
  mkWorld (initStorage s) (BMS_Cloud.constructor s) [].

(** The constructor followed by the background pull it schedules when an
    endpoint is configured. *)
Definition startup (resp : Response) (s : LocalStorage) : World :=
  let w := constructor s in
  if JS.truthy (BMS_Cloud.getUrl w) then snd (BMS_Cloud.syncDown resp w)
  else w.

Definition getCurrentUser (w : World) : option User :=
  ims_current_user (localStorage w).

Definition getUsers (w : World) : list User :=
  JS.or_else (ims_users (localStorage w)) [].

(** The raw tables: [JSON.parse(localStorage.getItem(key)) || []]. *)
Definition allInventory (w : World) : list InventoryItem :=
  JS.or_else (ims_inventory (localStorage w)) [].
Definition allSales (w : World) : list Sale :=
  JS.or_else (ims_sales (localStorage w)) [].
Definition allPurchases (w : World) : list Purchase :=
  JS.or_else (ims_purchases (localStorage w)) [].
Definition allExpenses (w : World) : list Expense :=
  JS.or_else (ims_expenses (localStorage w)) [].

Definition getInventory (w : World) : list InventoryItem :=
  let allInventory := allInventory w in
  match getCurrentUser w with
  | None => []
  | Some user =>
      if String.eqb (u_role user) ROLES.ADMIN then []
      else List.filter (fun i => String.eqb (i_owner i) (u_username user)) allInventory
  end.

Definition getSales (w : World) : list Sale :=
  let allSales := allSales w in
  match getCurrentUser w with
  | None => []
  | Some user =>
      if String.eqb (u_role user) ROLES.ADMIN then []
      else List.filter (fun s => String.eqb (s_owner s) (u_username user)) allSales
  end.

Definition getPurchases (w : World) : list Purchase :=
  let allPurchases := allPurchases w in
  match getCurrentUser w with
  | None => []
  | Some user =>
      if String.eqb (u_role user) ROLES.ADMIN then []
      else List.filter (fun p => String.eqb (p_owner p) (u_username user)) allPurchases
  end.

Definition getExpenses (w : World) : list Expense :=
  let allExpenses := allExpenses w in
  match getCurrentUser w with
  | None => []
  | Some user =>
      if String.eqb (u_role user) ROLES.ADMIN then []
      else List.filter (fun e => String.eqb (e_owner e) (u_username user)) allExpenses
  end.

Record FinancialSummary := mkSummary {
  totalSales : float;
  totalExpenses : float;
  netProfit : float
}.

(** [sum + s.total] and [sum + e.amount] add [0] for a field that holds
    [null]. *)
Definition getFinancialSummary (w : World) : FinancialSummary :=
  let sales := getSales w in
  let expenses := getExpenses w in
  let totalSales := JS.reduce_sum (fun s => JS.num (s_total s)) sales in
  let totalExpenses := JS.reduce_sum (fun e => JS.num (e_amount e)) expenses in
  let netProfit := (totalSales - totalExpenses)%float in
  mkSummary totalSales totalExpenses netProfit.

(** The callback of [find] in [addStock] and [processSale]:
    [i.owner === user.username &&
     i.itemName.toLowerCase() === itemName.toLowerCase()]. *)
Definition same_item (user : User) (itemName : string) (i : InventoryItem) : bool :=
  String.eqb (i_owner i) (u_username user)
  && String.eqb (JS.toLowerCase (i_itemName i)) (JS.toLowerCase itemName).

(** [addStock]; [t_pur], [iso] and [t_inv] are the three clock readings, in
    the order the source takes them.  The new purchase and the stock record
    are written with [JSON.stringify], to the store and to the remote. *)
Definition addStock (t_pur : Z) (iso : string) (t_inv : Z)
    (vendor category brand model : string) (quantity cost : JS.value)
    (paymentType : string) (w : World) : bool * World :=
  match getCurrentUser w with
  | None => (false, w)
  | Some user =>
      let allInventory := allInventory w in
      let allPurchases := allPurchases w in
      let itemName := brand +:+ " " +:+ model in
      let newPurchase :=
        {| p_id := "pur_" +:+ JS.toString t_pur;
           p_owner := u_username user;
           p_date := iso;
           p_vendor := vendor;
           p_category := category;
           p_brand := brand;
           p_model := model;
           p_itemName := itemName;
           p_quantity := JS.json (JS.parseInt quantity);
           p_cost := JS.json (JS.parseFloat cost);
           p_paymentType := paymentType |} in
      let allPurchases := allPurchases ++ [newPurchase] in
      let w := with_storage (setPurchases (Some allPurchases)) w in
      let w := BMS_Cloud.pushRecord DB_KEYS.PURCHASES (DPurchase newPurchase) w in
      let '(allInventory, stockRecord) :=
        match JS.find (same_item user itemName) allInventory with
        | Some (ix, item) =>
            let item :=
              set_quantity
                (JS.json (JS.num (i_quantity item) + JS.parseInt quantity)) item in
            (<[ix := item]> allInventory, item)
        | None =>
            let stockRecord :=
              {| i_id := "inv_" +:+ JS.toString t_inv;
                 i_owner := u_username user;
                 i_itemName := itemName;
                 i_quantity := JS.json (JS.parseInt quantity);
                 i_avgCost := JS.json (JS.parseFloat cost) |} in
            (allInventory ++ [stockRecord], stockRecord)
        end in
      let w := with_storage (setInventory (Some allInventory)) w in
      let w := BMS_Cloud.pushRecord DB_KEYS.INVENTORY (DItem stockRecord) w in
      (true, w)
  end.

(** [processSale]; [now] and [iso] are its two clock readings.  The check
    compares the item's quantity with [quantity] as it is passed; what is
    taken off and recorded is [parseInt(quantity)]. *)
Definition processSale (now : Z) (iso : string)
    (itemName : string) (quantity price : JS.value) (w : World)
    : Result * World :=
  match getCurrentUser w with
  | None => (mkResult false (Some "Not logged in"), w)
  | Some user =>
      let allInventory := allInventory w in
      match JS.find (same_item user itemName) allInventory with
      | None => (mkResult false (Some "Insufficient Stock"), w)
      | Some (ix, item) =>
          if (JS.num (i_quantity item) <? JS.toNumber quantity)%float then
            (mkResult false (Some "Insufficient Stock"), w)
          else
            let item :=
              set_quantity
                (JS.json (JS.num (i_quantity item) - JS.parseInt quantity)) item in
            let allInventory := <[ix := item]> allInventory in
            let w := with_storage (setInventory (Some allInventory)) w in
            let w := BMS_Cloud.pushRecord DB_KEYS.INVENTORY (DItem item) w in
            let allSales := allSales w in
            let newSale :=
              {| s_id := "sale_" +:+ JS.toString now;
                 s_owner := u_username user;
                 s_date := iso;
                 s_itemName := itemName;
                 s_quantity := JS.json (JS.parseInt quantity);
                 s_price := JS.json (JS.parseFloat price);
                 s_total := JS.json (JS.parseInt quantity * JS.parseFloat price) |} in
            let allSales := allSales ++ [newSale] in
            let w := with_storage (setSales (Some allSales)) w in
            let w := BMS_Cloud.pushRecord DB_KEYS.SALES (DSale newSale) w in
            (mkResult true None, w)
      end
  end.

(** [addExpense]; [date || today], where [today] is the date part of the
    clock reading. *)
Definition addExpense (now : Z) (today : string)
    (name : string) (amount : JS.value) (date : string) (w : World)
    : bool * World :=
  match getCurrentUser w with
  | None => (false, w)
  | Some user =>
      let allExpenses := allExpenses w in
      let newExpense :=
        {| e_id := "exp_" +:+ JS.toString now;
           e_owner := u_username user;
           e_name := name;
           e_amount := JS.json (JS.parseFloat amount);
           e_date := if JS.truthy date then date else today |} in
      let allExpenses := allExpenses ++ [newExpense] in
      let w := with_storage (setExpenses (Some allExpenses)) w in
      let w := BMS_Cloud.pushRecord DB_KEYS.EXPENSES (DExpense newExpense) w in
      (true, w)
  end.

(** [register]; [users] is read without a default, so the call throws when
    the entry is absent ([null.find]). *)
Definition register (now : Z) (companyName contactPerson password : string)
    (w : World) : JS.completion (Result * World) :=
  match ims_users (localStorage w) with
  | None => JS.Throw "TypeError"
  | Some users =>
      let username := companyName in
      match JS.find (fun u => String.eqb (JS.toLowerCase (u_username u))
                                         (JS.toLowerCase username)) users with
      | Some _ =>
          JS.Return (mkResult false (Some "Company Name already registered"), w)
      | None =>
          let newUser :=
            {| u_id := "user_" +:+ JS.toString now;
               u_companyName := companyName;
               u_username := username;
               u_contactPerson := contactPerson;
               u_password := password;
               u_role := ROLES.USER;
               u_status := "Pending" |} in
          let users := users ++ [newUser] in
          let w := with_storage (setUsers (Some users)) w in
          let w := BMS_Cloud.pushRecord DB_KEYS.USERS (DUser newUser) w in
          JS.Return (mkResult true (Some "Registration successful! Wait for Admin approval."), w)
      end
  end.

(** [resetPassword]; [users.findIndex(...)] and [users[userIndex]]. *)
Definition resetPassword (userId newPassword : string) (w : World)
    : bool * World :=
  let users := getUsers w in
  match JS.find (fun u => String.eqb (u_id u) userId) users with
  | Some (userIndex, user) =>
      let user := set_password newPassword user in
      let users := <[userIndex := user]> users in
      let w := with_storage (setUsers (Some users)) w in
      let w := BMS_Cloud.pushRecord DB_KEYS.USERS (DUser user) w in
      (true, w)
  | None => (false, w)
  end.

(** [updateUserStatus]; ['Delete'] splices the record out, any other status
    is assigned and pushed. *)
Definition updateUserStatus (userId newStatus : string) (w : World)
    : bool * World :=
  let users := getUsers w in
  match JS.find (fun u => String.eqb (u_id u) userId) users with
  | Some (userIndex, user) =>
      if negb (String.eqb (u_role user) ROLES.ADMIN) then
        if String.eqb newStatus "Delete" then
          let users := delete userIndex users in
          (true, with_storage (setUsers (Some users)) w)
        else
          let user := set_status newStatus user in
          let users := <[userIndex := user]> users in
          let w := BMS_Cloud.pushRecord DB_KEYS.USERS (DUser user) w in
          (true, with_storage (setUsers (Some users)) w)
      else (false, w)
  | None => (false, w)
  end.

(** The result object of [login]: [{ success, message }] on failure,
    [{ success, user }] on success. *)
Record LoginResult := mkLoginResult {
  l_success : bool;
  l_message : option string;
  l_user : option User
}.

(** [login]; like [register] it reads [users] without a default. *)
Definition login (username customerName password : string) (w : World)
    : JS.completion (LoginResult * World) :=
  let username := JS.trim username in
  let customerName := JS.trim customerName in
  let password := JS.trim password in
  match ims_users (localStorage w) with
  | None => JS.Throw "TypeError"
  | Some users =>
      match JS.find (fun u => String.eqb (JS.toLowerCase (u_username u))
                                         (JS.toLowerCase username)) users with
      | None =>
          JS.Return (mkLoginResult false
                       (Some ("Company '" +:+ username +:+ "' not found.")) None, w)
      | Some (_, companyMatch) =>
          if negb (String.eqb
                     (JS.toLowerCase (if JS.truthy (u_contactPerson companyMatch)
                                      then u_contactPerson companyMatch else ""))
                     (JS.toLowerCase customerName)) then
            JS.Return (mkLoginResult false
                         (Some ("Incorrect Customer Name for '" +:+ username +:+ "'."))
                         None, w)
          else if negb (String.eqb (u_password companyMatch) password) then
            JS.Return (mkLoginResult false (Some "Incorrect Password.") None, w)
          else
            let user := companyMatch in
            if negb (String.eqb (u_status user) "Approved") then
              JS.Return (mkLoginResult false (Some "Account not approved yet") None, w)
            else
              let w := with_storage (setCurrentUser (Some user)) w in
              JS.Return (mkLoginResult true None (Some user), w)
      end
  end.

(** [logout]: the entry of the current user is removed; the string is the
    page [window.location.href] is set to. *)
Definition logout (w : World) : string * World :=
  let w := with_storage (setCurrentUser None) w in
  ("index.html", w).

(** [getBanner]: [localStorage.getItem(DB_KEYS.BANNER) || '']. *)
Definition getBanner (w : World) : string :=
  match ims_banner (localStorage w) with
  | Some b => if JS.truthy b then b else ""
  | None => ""
  end.

Definition setBanner (url : string) (w : World) : bool * World :=
  let w := with_storage (setBannerEntry (Some url)) w in
  let w := BMS_Cloud.pushRecord DB_KEYS.BANNER (DSetting DB_KEYS.BANNER url) w in
  (true, w).

Definition setVerticalBanner (url : string) (w : World) : bool * World :=
  let w := with_storage (setVerticalBannerEntry (Some url)) w in
  let w := BMS_Cloud.pushRecord DB_KEYS.VERTICAL_BANNER
             (DSetting DB_KEYS.VERTICAL_BANNER url) w in
  (true, w).

End WithEngine.

End BMS_Core.

(** ** The backend's table of keys ([src/google_apps_script.js]) *)

Module Backend.

(** The own properties of the object literal [KEY_MAP], in source order. *)
Definition KEY_MAP : list (string * string) :=
  [ ("ims_users", "Users");
    ("ims_inventory", "Inventory");
    ("ims_sales", "Sales");
    ("ims_purchases", "Purchases");
    ("ims_expenses", "Expenses");
    ("ims_banner", "Banner");
    ("ims_vertical_banner", "Banner") ].

End Backend.

(** * Vocabulary of the properties *)

Import BMS_Core.

(** ** Binary64 numbers as the specification of the primitive floats has them *)

(** The numbers below zero. *)
Definition below_zero (x : spec_float) : bool :=
  match x with
  | S754_infinity true | S754_finite true _ _ => true
  | _ => false
  end.

(** Not NaN. *)
Definition is_number (x : spec_float) : Prop :=
  match x with S754_nan => False | _ => True end.

(** The order of the numbers is the lexicographic order of these triples:
    the sign and kind, then the exponent, then the mantissa. *)
Definition rank (x : spec_float) : Z * Z * Z :=
  match x with
  | S754_nan => (0, 0, 0)
  | S754_zero _ => (0, 0, 0)
  | S754_infinity true => (-2, 0, 0)
  | S754_infinity false => (2, 0, 0)
  | S754_finite true m e => (-1, - e, - Z.pos m)
  | S754_finite false m e => (1, e, Z.pos m)
  end.

Definition lex_lt (r s : Z * Z * Z) : Prop :=
  let '(c1, e1, m1) := r in
  let '(c2, e2, m2) := s in
  c1 < c2 \/ (c1 = c2 /\ (e1 < e2 \/ (e1 = e2 /\ m1 < m2))).

Section Vocabulary.
Context `{E : JS.Engine}.

(** The raw table under a key: the stored array, or no record when the entry
    is absent. *)
Definition raw_table {A : Type} (entry : option (list A)) : list A :=
  match entry with
  | Some records => records
  | None => []
  end.

(** The active tenant sees nothing: nobody is logged in, or the privileged
    tenant is. *)
Definition absent_or_privileged (w : World) : Prop :=
  ims_current_user (localStorage w) = None \/
  exists T, ims_current_user (localStorage w) = Some T /\ u_role T = ROLES.ADMIN.

(** A non-privileged tenant [T] is active. *)
Definition active_tenant (w : World) (T : User) : Prop :=
  ims_current_user (localStorage w) = Some T /\ u_role T <> ROLES.ADMIN.

(** The sum of a sequence of numbers, added left to right from [0]. *)
Definition float_sum (l : list float) : float :=
  fold_left PrimFloat.add l 0%float.

(** [i] is an item of tenant [T] named [itemName] up to letter case. *)
Definition matches (T : User) (itemName : string) (i : InventoryItem) : Prop :=
  i_owner i = u_username T /\
  JS.toLowerCase (i_itemName i) = JS.toLowerCase itemName.

(** The tenant's matching item: the first such item of the table, at
    position [ix]. *)
Definition matching_item (T : User) (itemName : string)
    (inv : list InventoryItem) (ix : nat) (item : InventoryItem) : Prop :=
  inv !! ix = Some item /\ matches T itemName item /\
  forall j y, inv !! j = Some y -> (j < ix)%nat -> ~ matches T itemName y.

Definition no_matching_item (T : User) (itemName : string)
    (inv : list InventoryItem) : Prop :=
  forall y, y ∈ inv -> ~ matches T itemName y.

(** Two names are equal up to letter case. *)
Definition same_up_to_case (a b : string) : Prop :=
  JS.toLowerCase a = JS.toLowerCase b.

(** A remote payload that is absent, not an array, or an empty array. *)
Definition absent_or_empty {A : Type} (val : TablePayload A) : Prop :=
  match val with
  | Missing => True
  | NotArray _ => True
  | Array l => l = []
  end.

(** The table stored under a key after a payload for it has been handled. *)
Definition reconciled {A : Type} (val : TablePayload A)
    (local : option (list A)) : option (list A) :=
  match val with
  | Array (x :: l) => Some (x :: l)
  | _ => local
  end.

(** The records of the users table carrying the reserved id. *)
Definition reserved (users : list User) : list User :=
  filter (fun u => u_id u = "admin_001") users.

(** Exactly one record carries the reserved id, and it is privileged. *)
Definition one_privileged (users : list User) : Prop :=
  exists a, reserved users = [a] /\ u_role a = ROLES.ADMIN.

(** ** What a sale within the stock does, as the data model has it

    The item's quantity goes down by the quantity asked for, and the sale
    records that quantity and [total = quantity * price]. *)
Definition sold_as_requested (quantity price : JS.value)
    (item item' : InventoryItem) (sale : Sale) : Prop :=
  i_quantity item' = JS.json (JS.num (i_quantity item) - JS.toNumber quantity) /\
  s_quantity sale = JS.json (JS.toNumber quantity) /\
  s_total sale = JS.json (JS.toNumber quantity * JS.toNumber price).

(** ** Sequences of stock operations *)

Inductive StockOp : Type :=
| AddStock (t_pur : Z) (iso : string) (t_inv : Z)
    (vendor category brand model : string) (quantity cost : JS.value)
    (paymentType : string)
| ProcessSale (now : Z) (iso : string) (itemName : string)
    (quantity price : JS.value).

Definition step (op : StockOp) (w : World) : World :=
  match op with
  | AddStock t_pur iso t_inv vendor category brand model quantity cost paymentType =>
      snd (addStock t_pur iso t_inv vendor category brand model quantity cost paymentType w)
  | ProcessSale now iso itemName quantity price =>
      snd (processSale now iso itemName quantity price w)
  end.

Definition run (ops : list StockOp) (w : World) : World :=
  fold_left (fun w op => step op w) ops w.

(** No item of the raw inventory has a quantity below zero; a quantity that
    is [null] counts as [0], as it does for the code. *)
Definition stock_non_negative (w : World) : Prop :=
  Forall (fun i => (0 <=? JS.num (i_quantity i))%float = true)
    (raw_table (ims_inventory (localStorage w))).

(** The quantities the stock check is made for: [addStock] of a quantity
    whose [parseInt] is not negative, and [processSale] of a quantity whose
    [parseInt], which is what the sale takes off, does not exceed the
    quantity as the check compares it. *)
Definition checked_quantity (op : StockOp) : Prop :=
  match op with
  | AddStock _ _ _ _ _ _ _ quantity _ _ =>
      (JS.parseInt quantity <? 0)%float = false
  | ProcessSale _ _ _ quantity _ =>
      (JS.parseInt quantity <=? JS.toNumber quantity)%float = true
  end.

(** ** What [addStock] followed by [getInventory] shows

    For tenant [T] active in [w]: when the tenant already has a matching
    item, the inventory read afterwards is the one read before with that
    item's quantity replaced by the sum of the quantity and
    [parseInt(quantity)]; otherwise it is the one read before followed by a
    new item with [parseInt(quantity)] as quantity and [parseFloat(cost)] as
    [avgCost].  In both cases one purchase record is appended. *)
Definition addStock_shown (t_pur : Z) (iso : string) (t_inv : Z)
    (vendor category brand model : string) (quantity cost : JS.value)
    (paymentType : string) (w : World) (T : User) : Prop :=
  let itemName := brand +:+ " " +:+ model in
  let inv := raw_table (ims_inventory (localStorage w)) in
  let w' := snd (addStock t_pur iso t_inv vendor category brand model
                   quantity cost paymentType w) in
  (forall ix item, matching_item T itemName inv ix item ->
     exists k, getInventory w !! k = Some item /\
       getInventory w'
         = <[k := mkItem (i_id item) (i_owner item) (i_itemName item)
                    (JS.json (JS.num (i_quantity item) + JS.parseInt quantity))
                    (i_avgCost item)]> (getInventory w)) /\
  (no_matching_item T itemName inv ->
     getInventory w'
       = getInventory w ++
         [mkItem ("inv_" +:+ JS.toString t_inv) (u_username T) itemName
            (JS.json (JS.parseInt quantity)) (JS.json (JS.parseFloat cost))]) /\
  ims_purchases (localStorage w')
    = Some (raw_table (ims_purchases (localStorage w)) ++
            [mkPurchase ("pur_" +:+ JS.toString t_pur) (u_username T) iso
               vendor category brand model itemName
               (JS.json (JS.parseInt quantity)) (JS.json (JS.parseFloat cost))
               paymentType]).

(** The sheet a pushed record belongs to, by its shape. *)
Definition sheet_of (d : RecordData) : string :=
  match d with
  | DUser _ => "Users"
  | DItem _ => "Inventory"
  | DSale _ => "Sales"
  | DPurchase _ => "Purchases"
  | DExpense _ => "Expenses"
  | DSetting _ _ => "Banner"
  end.

(** A request the backend has a place for: a pull, or a [save_record] whose
    key is a key of [KEY_MAP] naming the sheet of the record's shape; a
    setting carries its own key as [key] field. *)
Definition accepted (r : Request) : Prop :=
  match r with
  | GET _ => True
  | POST _ body =>
      pl_action body = "save_record" /\
      (pl_key body, sheet_of (pl_data body)) ∈ Backend.KEY_MAP /\
      match pl_data body with
      | DSetting key _ => key = pl_key body
      | _ => True
      end
  end.

(** ** Sequences of client operations *)

Inductive ClientOp : Type :=
| Login (username customerName password : string)
| Logout
| Register (now : Z) (companyName contactPerson password : string)
| ResetPassword (userId newPassword : string)
| UpdateUserStatus (userId newStatus : string)
| SetBanner (url : string)
| SetVerticalBanner (url : string)
| SetUrl (url : string)
| Stock (op : StockOp)
| AddExpense (now : Z) (today name : string) (amount : JS.value) (date : string)
| SyncDown (resp : Response)
| Reload.

(** The world after an operation.  A call that throws leaves the world as
    it was.  A reload runs the constructor on the stored entries, with a
    fresh request log; the pull the constructor schedules is a later
    [SyncDown]. *)
Definition exec (op : ClientOp) (w : World) : World :=
  match op with
  | Login username customerName password =>
      match login username customerName password w with
      | JS.Return (_, w') => w'
      | JS.Throw _ => w
      end
  | Logout => snd (logout w)
  | Register now companyName contactPerson password =>
      match register now companyName contactPerson password w with
      | JS.Return (_, w') => w'
      | JS.Throw _ => w
      end
  | ResetPassword userId newPassword => snd (resetPassword userId newPassword w)
  | UpdateUserStatus userId newStatus => snd (updateUserStatus userId newStatus w)
  | SetBanner url => snd (setBanner url w)
  | SetVerticalBanner url => snd (setVerticalBanner url w)
  | SetUrl url => BMS_Cloud.setUrl url w
  | Stock op => step op w
  | AddExpense now today name amount date =>
      snd (addExpense now today name amount date w)
  | SyncDown resp => snd (BMS_Cloud.syncDown resp w)
  | Reload => constructor (localStorage w)
  end.

Definition execs (ops : list ClientOp) (w : World) : World :=
  fold_left (fun w op => exec op w) ops w.

(** The operations that write business records for the active tenant. *)
Definition domain_write (op : ClientOp) : Prop :=
  match op with
  | Stock _ | AddExpense _ _ _ _ _ => True
  | _ => False
  end.

(** The operations that neither pull nor reload. *)
Definition stays_local (op : ClientOp) : Prop :=
  match op with
  | SyncDown _ | Reload => False
  | _ => True
  end.

(** The key an inventory item is found by: owner and lower-cased name. *)
Definition item_key (i : InventoryItem) : string * string :=
  (i_owner i, JS.toLowerCase (i_itemName i)).

(** The key a tenant is found by at login and registration. *)
Definition user_key (u : User) : string :=
  JS.toLowerCase (u_username u).

End Vocabulary.

(** ** Sample data *)

Module Sample.

(** *** An engine for the examples

    The examples need an engine to run on.  This one lower-cases and trims
    the ASCII characters, which is what the engine does on the ASCII strings
    of the examples, and it knows the arguments of the examples by what the
    engine makes of each of them. *)

Definition lower_ascii (c : ascii) : ascii :=
  let n := N_of_ascii c in
  if ((65 <=? n) && (n <=? 90))%N then ascii_of_N (n + 32) else c.

Fixpoint toLowerCase (s : string) : string :=
  match s with
  | EmptyString => EmptyString
  | String c s' => String (lower_ascii c) (toLowerCase s')
  end.

(** Tab, line feed, vertical tab, form feed, carriage return, space. *)
Definition is_space (c : ascii) : bool :=
  let n := N_of_ascii c in
  (((9 <=? n) && (n <=? 13)) || (n =? 32))%N.

Fixpoint trimStart (s : string) : string :=
  match s with
  | EmptyString => EmptyString
  | String c s' => if is_space c then trimStart s' else s
  end.

Fixpoint trimEnd (s : string) : string :=
  match s with
  | EmptyString => EmptyString
  | String c s' =>
      match trimEnd s' with
      | EmptyString => if is_space c then EmptyString else String c EmptyString
      | t => String c t
      end
  end.

Definition trim (s : string) : string := trimEnd (trimStart s).

(** A string that is empty or begins with a character that is not white
    space. *)
Definition clean_start (s : string) : Prop :=
  match s with
  | EmptyString => True
  | String c _ => is_space c = false
  end.

Lemma ascii_trimEnd_idempotent (s : string) : trimEnd (trimEnd s) = trimEnd s.
Proof.
  induction s as [| c s IH]; simpl; [reflexivity |].
  destruct (trimEnd s) as [| d t] eqn:Ht.
  - destruct (is_space c) eqn:Hc; simpl; [reflexivity |]. now rewrite Hc.
  - simpl in *. now rewrite IH.
Qed.

Lemma ascii_trimStart_clean (s : string) : clean_start (trimStart s).
Proof.
  induction s as [| c s IH]; simpl; [exact I |].
  destruct (is_space c) eqn:Hc; [exact IH | exact Hc].
Qed.

Lemma ascii_trimStart_of_clean (s : string) : clean_start s -> trimStart s = s.
Proof. destruct s as [| c s]; simpl; [reflexivity |]. now intros ->. Qed.

Lemma ascii_trimEnd_clean (s : string) : clean_start s -> clean_start (trimEnd s).
Proof.
  destruct s as [| c s]; simpl; [auto |]. intros Hc.
  destruct (trimEnd s); [rewrite Hc |]; exact Hc.
Qed.

Lemma ascii_trim_idempotent (s : string) : trim (trim s) = trim s.
Proof.
  unfold trim.
  rewrite (ascii_trimStart_of_clean (trimEnd (trimStart s))).
  - apply ascii_trimEnd_idempotent.
  - apply ascii_trimEnd_clean, ascii_trimStart_clean.
Qed.

Lemma ascii_is_space_lower (c : ascii) : is_space (lower_ascii c) = is_space c.
Proof. destruct c as [[] [] [] [] [] [] [] []]; reflexivity. Qed.

Lemma ascii_trimStart_lower (s : string) :
  trimStart (toLowerCase s) = toLowerCase (trimStart s).
Proof.
  induction s as [| c s IH]; simpl; [reflexivity |].
  rewrite ascii_is_space_lower. destruct (is_space c); [exact IH | reflexivity].
Qed.

Lemma ascii_trimEnd_lower (s : string) :
  trimEnd (toLowerCase s) = toLowerCase (trimEnd s).
Proof.
  induction s as [| c s IH]; simpl; [reflexivity |].
  rewrite IH, ascii_is_space_lower.
  destruct (trimEnd s); simpl; [destruct (is_space c) |]; reflexivity.
Qed.

Lemma ascii_trim_lower (s : string) :
  trim (toLowerCase s) = toLowerCase (trim s).
Proof. unfold trim. now rewrite ascii_trimStart_lower, ascii_trimEnd_lower. Qed.

Lemma ascii_length_lower (s : string) :
  String.length (toLowerCase s) = String.length s.
Proof. induction s as [| c s IH]; simpl; [reflexivity | now rewrite IH]. Qed.

Lemma ascii_trimStart_length (s : string) :
  (String.length (trimStart s) <= String.length s)%nat /\
  (String.length (trimStart s) = String.length s -> trimStart s = s).
Proof.
  induction s as [| c s [IHle IHeq]]; simpl; [auto |].
  destruct (is_space c); simpl; [| auto].
  split; [lia | intros Heq; lia].
Qed.

Lemma ascii_trimEnd_length (s : string) :
  (String.length (trimEnd s) <= String.length s)%nat /\
  (String.length (trimEnd s) = String.length s -> trimEnd s = s).
Proof.
  induction s as [| c s [IHle IHeq]]; simpl; [auto |].
  destruct (trimEnd s) as [| d t] eqn:Ht; simpl in *.
  - destruct (is_space c); simpl.
    + split; [lia | intros Heq; lia].
    + split; [lia |]. intros [= Heq]. now rewrite IHeq.
  - split; [lia |]. intros [= Heq]. now rewrite IHeq.
Qed.

Lemma ascii_trimmed_lower (s : string) :
  trim (toLowerCase s) = toLowerCase s -> trim s = s.
Proof.
  intros Hs.
  assert (String.length (trim s) = String.length s) as Hlen.
  { rewrite <- (ascii_length_lower (trim s)), <- ascii_trim_lower, Hs.
    apply ascii_length_lower. }
  unfold trim in *.
  destruct (ascii_trimStart_length s) as [Hs_le Hs_eq].
  destruct (ascii_trimEnd_length (trimStart s)) as [He_le He_eq].
  rewrite He_eq by lia. apply Hs_eq. lia.
Qed.

(** An argument of the examples: how it is written in JavaScript, and what
    [ToNumber], [parseInt] and [parseFloat] make of it. *)
Record Arg := mkArg {
  written : string;
  as_number : float;
  as_parseInt : float;
  as_parseFloat : float
}.

(** A whole number below [1e21] written in decimal, such as [12]: each of
    the three conversions gives the number itself. *)
Definition whole (written : string) (n : float) : Arg := mkArg written n n n.

#[global] Instance engine : JS.Engine :=
  {| JS.toLowerCase := toLowerCase;
     JS.trim := trim;
     JS.value := Arg;
     JS.toNumber := as_number;
     JS.parseInt := as_parseInt;
     JS.parseFloat := as_parseFloat;
     JS.trim_idempotent := ascii_trim_idempotent;
     JS.trim_toLowerCase := ascii_trim_lower;
     JS.trimmed_toLowerCase := ascii_trimmed_lower |}.

(** The arguments of the examples. *)

Definition two : JS.value := whole "2" 2.
Definition three : JS.value := whole "3" 3.
Definition four : JS.value := whole "4" 4.
Definition five : JS.value := whole "5" 5.
Definition ten : JS.value := whole "10" 10.
Definition twelve : JS.value := whole "12" 12.
Definition minus_five : JS.value := whole "-5" (-5).

(** [1e21] is written ["1e+21"] as a string, of which [parseInt] reads the
    leading [1]. *)
Definition sextillion : JS.value := mkArg "1e21" 1e21 1 1e21.

(** [5e-7] is written ["5e-7"] as a string, of which [parseInt] reads the
    leading [5]. *)
#[warnings="-inexact-float"]
Definition half_a_millionth : JS.value := mkArg "5e-7" 5e-7 5 5e-7.

(** The string ['12abc'] is not a number for [<], and [parseInt] and
    [parseFloat] read its leading [12]. *)
Definition twelve_abc : JS.value := mkArg "'12abc'" nan 12 12.

(** The empty string, as an empty form field gives it: [0] for [<], and NaN
    for [parseInt] and [parseFloat]. *)
Definition blank : JS.value := mkArg "''" 0 nan nan.

(** *** Records and stores *)

Definition acme : User :=
  {| u_id := "user_1700000000000"; u_companyName := "Acme";
     u_username := "Acme"; u_contactPerson := "Ann"; u_password := "secret";
     u_role := ROLES.USER; u_status := "Approved" |}.

Definition globex : User :=
  {| u_id := "user_1700000000500"; u_companyName := "Globex";
     u_username := "Globex"; u_contactPerson := "Bob"; u_password := "hunter2";
     u_role := ROLES.USER; u_status := "Pending" |}.

Definition widget : InventoryItem :=
  {| i_id := "inv_1700000001000"; i_owner := "Acme";
     i_itemName := "Widget A"; i_quantity := Some 10%float;
     i_avgCost := Some 2.5%float |}.

Definition gadget : InventoryItem :=
  {| i_id := "inv_1700000002000"; i_owner := "Globex";
     i_itemName := "Gadget B"; i_quantity := Some 3%float;
     i_avgCost := Some 7%float |}.

Definition sale1 : Sale :=
  {| s_id := "sale_1700000003000"; s_owner := "Acme";
     s_date := "2023-11-14T22:13:23.000Z"; s_itemName := "Widget A";
     s_quantity := Some 2%float; s_price := Some 5%float;
     s_total := Some 10%float |}.

Definition sale2 : Sale :=
  {| s_id := "sale_1700000003500"; s_owner := "Globex";
     s_date := "2023-11-14T22:21:43.000Z"; s_itemName := "Gadget B";
     s_quantity := Some 1%float; s_price := Some 9%float;
     s_total := Some 9%float |}.

Definition purchase1 : Purchase :=
  {| p_id := "pur_1700000000900"; p_owner := "Acme";
     p_date := "2023-11-14T22:15:00.900Z"; p_vendor := "Vendor";
     p_category := "Tools"; p_brand := "Widget"; p_model := "A";
     p_itemName := "Widget A"; p_quantity := Some 12%float;
     p_cost := Some 2.5%float; p_paymentType := "Cash" |}.

Definition purchase2 : Purchase :=
  {| p_id := "pur_1700000001900"; p_owner := "Globex";
     p_date := "2023-11-14T22:31:40.900Z"; p_vendor := "Maker";
     p_category := "Parts"; p_brand := "Gadget"; p_model := "B";
     p_itemName := "Gadget B"; p_quantity := Some 4%float;
     p_cost := Some 7%float; p_paymentType := "Card" |}.

Definition rent : Expense :=
  {| e_id := "exp_1700000004000"; e_owner := "Acme"; e_name := "Rent";
     e_amount := Some 4%float; e_date := "2023-11-15" |}.

Definition fee : Expense :=
  {| e_id := "exp_1700000004500"; e_owner := "Globex"; e_name := "Fee";
     e_amount := Some 1%float; e_date := "2023-11-15" |}.

(** A store with two tenants; [user] is the active one. *)
Definition store (user : option User) : LocalStorage :=
  {| ims_users := Some [INITIAL_ADMIN; acme; globex];
     ims_inventory := Some [gadget; widget];
     ims_sales := Some [sale1];
     ims_purchases := Some [];
     ims_expenses := Some [rent];
     ims_current_user := user;
     ims_banner := Some "";
     ims_vertical_banner := None;
     ims_cloud_url := None |}.

(** No endpoint configured. *)
Definition offline (user : option User) : World :=
  {| localStorage := store user; cloud_url := ""; requests := [] |}.

(** An endpoint is configured. *)
Definition online (user : option User) : World :=
  {| localStorage := store user; cloud_url := "https://sheet.example/exec";
     requests := [] |}.

(** The same store with an endpoint saved in it. *)
Definition configured (user : option User) : LocalStorage :=
  setCloudUrl (Some "https://sheet.example/exec") (store user).

(** A store in which both tenants have records in each of the four tables. *)
Definition books (user : option User) : World :=
  {| localStorage :=
       {| ims_users := Some [INITIAL_ADMIN; acme; globex];
          ims_inventory := Some [gadget; widget];
          ims_sales := Some [sale1; sale2];
          ims_purchases := Some [purchase2; purchase1];
          ims_expenses := Some [fee; rent];
          ims_current_user := user;
          ims_banner := Some "";
          ims_vertical_banner := None;
          ims_cloud_url := None |};
     cloud_url := ""; requests := [] |}.

(** A tenant holding [2e21] of one item. *)
Definition bulk : InventoryItem :=
  {| i_id := "inv_1700000002500"; i_owner := "Acme";
     i_itemName := "Grain"; i_quantity := Some 2e21%float;
     i_avgCost := Some 1%float |}.

Definition silo : World :=
  {| localStorage :=
       {| ims_users := Some [INITIAL_ADMIN; acme];
          ims_inventory := Some [bulk];
          ims_sales := Some [];
          ims_purchases := Some [];
          ims_expenses := Some [];
          ims_current_user := Some acme;
          ims_banner := Some "";
          ims_vertical_banner := None;
          ims_cloud_url := None |};
     cloud_url := ""; requests := [] |}.

(** What the remote holds once a tenant has registered: the pushed tenant
    record alone. *)
Definition remote_users_only : Snapshot :=
  {| d_users := Array [acme]; d_inventory := Array [];
     d_sales := Array []; d_purchases := Array []; d_expenses := Array [];
     d_banner := NoSetting; d_vertical_banner := NoSetting |}.

(** A snapshot whose users and expenses tables are empty, whose sales table
    is absent, whose purchases entry is not an array, and whose inventory has
    one item. *)
Definition partial_snapshot : Snapshot :=
  {| d_users := Array []; d_inventory := Array [widget]; d_sales := Missing;
     d_purchases := NotArray true; d_expenses := Array [];
     d_banner := NoSetting; d_vertical_banner := NoSetting |}.

(** What the backend sends when its sheets are missing: an empty array under
    every key, the banner keys included. *)
Definition empty_sheets : Snapshot :=
  {| d_users := Array []; d_inventory := Array []; d_sales := Array [];
     d_purchases := Array []; d_expenses := Array [];
     d_banner := Other true ""; d_vertical_banner := Other true "" |}.

(** A freshly initialised store with an empty inventory. *)
Definition fresh (user : option User) : World :=
  {| localStorage := setCurrentUser user (initStorage (mkStorage None None None None None None None None None));
     cloud_url := ""; requests := [] |}.

(** Ten widgets bought, twelve asked for, four sold. *)
Definition trading_day : list StockOp :=
  [AddStock 1700000007000 "2023-11-14T22:50:00.000Z" 1700000007001
     "Vendor" "Tools" "Widget" "A" ten three "Cash";
   ProcessSale 1700000008000 "2023-11-14T23:06:40.000Z" "widget a" twelve five;
   ProcessSale 1700000009000 "2023-11-14T23:23:20.000Z" "widget a" four five].

(** A purchase entered with a negative quantity. *)
Definition negative_purchase : list StockOp :=
  [AddStock 1700000007000 "2023-11-14T22:50:00.000Z" 1700000007001
     "Vendor" "Tools" "Widget" "A" minus_five three "Cash"].

End Sample.

(** * Properties *)

(** ** Facts about the built-ins *)

Section Builtins.
Context {A : Type}.

Lemma find_Some (p : A -> bool) (l : list A) (i : nat) (x : A) :
  JS.find p l = Some (i, x) <->
  l !! i = Some x /\ p x = true /\
  (forall j y, l !! j = Some y -> (j < i)%nat -> p y = false).
Proof.
  revert i. induction l as [|a l IH]; intros i; simpl.
  - split; [discriminate | intros [H _]; discriminate].
  - destruct (p a) eqn:Hpa.
    + split.
      * intros [= <- <-]. repeat split; auto. intros j y _ Hj. lia.
      * intros (Hl & Hx & Hmin). destruct i as [|i].
        -- simpl in Hl. congruence.
        -- specialize (Hmin O a eq_refl ltac:(lia)). congruence.
    + destruct (JS.find p l) as [[k y]|].
      * split.
        -- intros [= <- <-].
           destruct (proj1 (IH k) eq_refl) as (Hl & Hx & Hmin).
           repeat split; auto. intros [|j] z Hz Hj.
           ++ simpl in Hz. congruence.
           ++ apply (Hmin j); [exact Hz | lia].
        -- intros (Hl & Hx & Hmin). destruct i as [|i].
           ++ simpl in Hl. congruence.
           ++ assert (Some (k, y) = Some (i, x)) as [= -> ->]; [| reflexivity].
              apply IH. repeat split; auto.
              intros j z Hz Hj. apply (Hmin (S j)); [exact Hz | lia].
      * split; [discriminate |].
        intros (Hl & Hx & Hmin). destruct i as [|i].
        -- simpl in Hl. congruence.
        -- assert (@None (nat * A) = Some (i, x)) as Hix; [| discriminate].
           apply IH. repeat split; auto.
           intros j z Hz Hj. apply (Hmin (S j)); [exact Hz | lia].
Qed.

Lemma find_None (p : A -> bool) (l : list A) :
  JS.find p l = None <-> (forall x, x ∈ l -> p x = false).
Proof.
  induction l as [|a l IH]; simpl.
  - split; [intros _ x Hx; inversion Hx | reflexivity].
  - destruct (p a) eqn:Hpa.
    + split; [discriminate |]. intros H.
      specialize (H a ltac:(left)). congruence.
    + destruct (JS.find p l) as [[k y]|].
      * split; [discriminate |]. intros H.
        assert (Some (k, y) = None) as Hn; [| discriminate].
        apply IH. intros x Hx. apply H. now right.
      * split; [| reflexivity]. intros _ x Hx.
        apply elem_of_cons in Hx as [-> | Hx]; [exact Hpa |].
        destruct IH as [IH _]. now apply IH.
Qed.

(** A callback comparing a string field with [===] selects exactly the
    records whose field equals the string. *)
Lemma filter_by_field (f : A -> string) (s : string) (l : list A) :
  List.filter (fun x => String.eqb (f x) s) l = filter (fun x => f x = s) l.
Proof.
  induction l as [|a l IH]; simpl; [reflexivity |].
  rewrite filter_cons. destruct (String.eqb_spec (f a) s) as [He | Hne].
  - rewrite decide_True by exact He. now rewrite IH.
  - rewrite decide_False by exact Hne. exact IH.
Qed.

Lemma reduce_sum_map (f : A -> float) (l : list A) :
  JS.reduce_sum f l = fold_left PrimFloat.add (f <$> l) 0%float.
Proof.
  unfold JS.reduce_sum. generalize 0%float.
  induction l as [|a l IH]; intros acc; simpl; [reflexivity | apply IH].
Qed.

End Builtins.

Lemma truthy_empty : JS.truthy "" = false.
Proof. reflexivity. Qed.

Lemma truthy_iff (s : string) : JS.truthy s = true <-> s <> "".
Proof.
  unfold JS.truthy. destruct (String.eqb_spec s ""); simpl; split; congruence.
Qed.

(** ** Facts about binary64 numbers

    The sign of a sum and of a difference, and the order of the numbers, read
    off the specification of the primitive operations. *)

Lemma ltb_zero (x : float) : (x <? 0)%float = below_zero (Prim2SF x).
Proof.
  rewrite ltb_spec. change (Prim2SF 0) with (S754_zero false).
  destruct (Prim2SF x) as [[] | [] | | [] m e]; reflexivity.
Qed.

Lemma binary_round_aux_sign (m e : Z) (l : location) :
  below_zero (binary_round_aux prec emax false m e l) = false.
Proof.
  unfold binary_round_aux.
  destruct (shr_fexp prec emax m e l) as [mrs' e'].
  destruct (shr_fexp prec emax _ e' loc_Exact) as [mrs'' e''].
  destruct (shr_m mrs'') as [| p | p]; [reflexivity | | reflexivity].
  destruct (e'' <=? emax - prec); reflexivity.
Qed.

Lemma binary_normalize_sign (m e : Z) :
  0 <= m -> below_zero (binary_normalize prec emax m e false) = false.
Proof.
  intros Hm. destruct m as [| p | p]; simpl; [reflexivity | | lia].
  unfold binary_round.
  destruct (shl_align p e _) as [mz ez]. apply binary_round_aux_sign.
Qed.

Lemma add_not_below_zero (a b : float) :
  (a <? 0)%float = false -> (b <? 0)%float = false -> (a + b <? 0)%float = false.
Proof.
  rewrite !ltb_zero, add_spec.
  destruct (Prim2SF a) as [[] | [] | | [] ma ea];
    destruct (Prim2SF b) as [[] | [] | | [] mb eb];
    try reflexivity; try discriminate.
  intros _ _. unfold SF64add, SFadd. apply binary_normalize_sign.
  unfold cond_Zopp. lia.
Qed.

(** The digits of a mantissa. *)
Lemma digits2_size (m : positive) : digits2_pos m = Pos.size m.
Proof. induction m; simpl; congruence. Qed.

Lemma mantissa_bounds (m : positive) (e : Z) :
  bounded prec emax m e = true ->
  Z.pos m < 2 ^ 53 /\ emin <= e /\ (emin < e -> 2 ^ 52 <= Z.pos m).
Proof.
  unfold bounded, canonical_mantissa, fexp. rewrite andb_true_iff, Z.eqb_eq.
  rewrite digits2_size. intros [Hc _].
  pose proof (Pos.size_gt m) as Hgt. pose proof (Pos.size_le m) as Hle.
  assert (Z.pos m < 2 ^ Z.pos (Pos.size m)) as Hgt'.
  { rewrite <- Pos2Z.inj_pow. lia. }
  assert (2 ^ Z.pos (Pos.size m) <= 2 * Z.pos m) as Hle'.
  { rewrite <- Pos2Z.inj_pow. lia. }
  change prec with 53 in *. change (SpecFloat.emin 53 emax) with (-1074) in *.
  assert (Z.pos (Pos.size m) <= 53) as Hsize by lia.
  split; [| split].
  - eapply Z.lt_le_trans; [exact Hgt' |]. apply Z.pow_le_mono_r; lia.
  - lia.
  - intros He. assert (Z.pos (Pos.size m) = 53) as Hs by lia.
    rewrite Hs in Hle'. change (2 ^ 53) with (2 * 2 ^ 52) in Hle'. lia.
Qed.

Lemma shl_align_value (m : positive) (e e' : Z) :
  e' <= e -> Z.pos (fst (shl_align m e e')) = Z.pos m * 2 ^ (e - e').
Proof.
  intros Hle. unfold shl_align.
  destruct (e' - e) as [| d | d] eqn:Hd; simpl.
  - replace (e - e') with 0 by lia. lia.
  - lia.
  - change (Pos.iter xO m d) with (shift_pos d m).
    rewrite shift_pos_correct, Zpower_pos_nat, Zpower_nat_Z, positive_nat_Z.
    replace (e - e') with (Z.pos d) by lia. lia.
Qed.

(** Aligned mantissas are ordered as the comparison of the numbers says. *)
Lemma aligned_order (mx : positive) (ex : Z) (my : positive) (ey : Z) :
  bounded prec emax mx ex = true -> bounded prec emax my ey = true ->
  match ex ?= ey with
  | Lt => Lt
  | Gt => Gt
  | Eq => Pos.compare_cont Eq mx my
  end <> Lt ->
  Z.pos (fst (shl_align my ey (Z.min ex ey)))
    <= Z.pos (fst (shl_align mx ex (Z.min ex ey))).
Proof.
  intros Hx Hy Hcmp.
  rewrite !shl_align_value by lia.
  destruct (mantissa_bounds mx ex Hx) as (Hx53 & Hxe & Hx52).
  destruct (mantissa_bounds my ey Hy) as (Hy53 & Hye & Hy52).
  destruct (Z.compare_spec ex ey) as [-> | Hlt | Hgt]; [| congruence |].
  - rewrite Z.min_id, Z.sub_diag. change (2 ^ 0) with 1.
    change (Pos.compare_cont Eq mx my) with (mx ?= my)%positive in Hcmp.
    rewrite Pos.compare_lt_iff in Hcmp. lia.
  - rewrite Z.min_r by lia. rewrite Z.sub_diag. change (2 ^ 0) with 1.
    assert (2 ^ 1 <= 2 ^ (ex - ey)) as Hpow by (apply Z.pow_le_mono_r; lia).
    change (2 ^ 1) with 2 in Hpow.
    specialize (Hx52 ltac:(lia)). nia.
Qed.

Lemma SFsub_sign (X Y : spec_float) :
  valid_binary X = true -> valid_binary Y = true ->
  SFltb X Y = false -> below_zero (SFsub prec emax X Y) = false.
Proof.
  intros HX HY.
  destruct X as [[] | [] | | [] mx ex]; destruct Y as [[] | [] | | [] my ey];
    try reflexivity; try discriminate; unfold SFltb, SFcompare, SFsub;
    simpl in HX, HY.
  - (* both negative *)
    intros Hcmp. apply binary_normalize_sign. unfold cond_Zopp.
    assert (Z.pos (fst (shl_align mx ex (Z.min ey ex)))
            <= Z.pos (fst (shl_align my ey (Z.min ey ex)))) as Hle.
    { apply aligned_order; [exact HY | exact HX |].
      rewrite (Z.compare_antisym ex ey).
      destruct (ex ?= ey) eqn:He; simpl in *; try congruence.
      change (Pos.compare_cont Eq my mx) with (my ?= mx)%positive.
      rewrite (Pos.compare_antisym mx my).
      change (mx ?= my)%positive with (Pos.compare_cont Eq mx my).
      destruct (Pos.compare_cont Eq mx my); simpl in *; congruence. }
    rewrite (Z.min_comm ex ey). lia.
  - intros _. apply binary_normalize_sign. unfold cond_Zopp. lia.
  - intros Hcmp. apply binary_normalize_sign. unfold cond_Zopp.
    assert (Z.pos (fst (shl_align my ey (Z.min ex ey)))
            <= Z.pos (fst (shl_align mx ex (Z.min ex ey)))) as Hle.
    { apply aligned_order; [exact HX | exact HY |].
      destruct (ex ?= ey); [| discriminate | discriminate].
      destruct (Pos.compare_cont Eq mx my); congruence. }
    lia.
Qed.

Lemma sub_not_below_zero (a b : float) :
  (a <? b)%float = false -> (a - b <? 0)%float = false.
Proof.
  rewrite ltb_zero, sub_spec, ltb_spec.
  apply SFsub_sign; apply Prim2SF_valid.
Qed.

Lemma SFcompare_rank (X Y : spec_float) :
  is_number X -> is_number Y ->
  exists c, SFcompare X Y = Some c /\
    match c with
    | Lt => lex_lt (rank X) (rank Y)
    | Eq => rank X = rank Y
    | Gt => lex_lt (rank Y) (rank X)
    end.
Proof.
  destruct X as [[] | [] | | [] mx ex]; destruct Y as [[] | [] | | [] my ey];
    simpl; intros HX HY; try contradiction;
    try (eexists; split; [reflexivity |]; simpl; first [reflexivity | lia]).
  - destruct (Z.compare_spec ex ey) as [-> | Hlt | Hgt].
    + change (Pos.compare_cont Eq mx my) with (mx ?= my)%positive.
      destruct (Pos.compare_spec mx my) as [-> | Hm | Hm];
        eexists; (split; [reflexivity |]); simpl; first [reflexivity | lia].
    + eexists; split; [reflexivity |]; simpl; lia.
    + eexists; split; [reflexivity |]; simpl; lia.
  - destruct (Z.compare_spec ex ey) as [-> | Hlt | Hgt].
    + change (Pos.compare_cont Eq mx my) with (mx ?= my)%positive.
      destruct (Pos.compare_spec mx my) as [-> | Hm | Hm];
        eexists; (split; [reflexivity |]); simpl; first [reflexivity | lia].
    + eexists; split; [reflexivity |]; simpl; lia.
    + eexists; split; [reflexivity |]; simpl; lia.
Qed.

Lemma SFltb_trans (A T P : spec_float) :
  SFltb A T = false -> SFleb P T = true -> SFltb A P = false.
Proof.
  intros HAT HPT.
  assert (is_number P /\ is_number T) as [HP HT].
  { destruct P as [[] | [] | | [] mp ep], T as [[] | [] | | [] mt et];
      try discriminate; split; exact I. }
  assert (is_number A \/ A = S754_nan) as [HA | ->]
    by (destruct A; simpl; auto); [| reflexivity].
  unfold SFltb, SFleb in *.
  destruct (SFcompare_rank A T HA HT) as (c1 & E1 & H1). rewrite E1 in HAT.
  destruct (SFcompare_rank P T HP HT) as (c2 & E2 & H2). rewrite E2 in HPT.
  destruct (SFcompare_rank A P HA HP) as (c3 & E3 & H3). rewrite E3.
  destruct c3; try reflexivity. exfalso.
  destruct (rank A) as [[a1 a2] a3], (rank T) as [[t1 t2] t3],
    (rank P) as [[p1 p2] p3].
  destruct c1; try discriminate; destruct c2; try discriminate; simpl in *;
    try (injection H1 as ? ? ?); try (injection H2 as ? ? ?); lia.
Qed.

Lemma not_below_trans (a t p : float) :
  (a <? t)%float = false -> (p <=? t)%float = true -> (a <? p)%float = false.
Proof. rewrite !ltb_spec, leb_spec. apply SFltb_trans. Qed.

Lemma leb_not_below (a b : float) :
  (a <=? b)%float = true -> (b <? a)%float = false.
Proof.
  intros Hle. apply not_below_trans with b; [| exact Hle].
  rewrite ltb_spec. unfold SFltb.
  destruct (Prim2SF b) as [[] | [] | | [] m e]; try reflexivity; simpl;
    rewrite Z.compare_refl;
    change (Pos.compare_cont Eq m m) with (m ?= m)%positive;
    rewrite Pos.compare_refl; reflexivity.
Qed.

Lemma is_finite_number (x : float) :
  is_finite x = true -> is_number (Prim2SF x).
Proof.
  unfold is_finite, is_nan. rewrite FloatAxioms.eqb_spec. unfold SFeqb.
  destruct (Prim2SF x); simpl; try discriminate; auto.
Qed.

(** What JSON holds for a number that is not below zero is not below zero
    either. *)
Lemma json_not_below (x : float) :
  (x <? 0)%float = false -> (0 <=? JS.num (JS.json x))%float = true.
Proof.
  unfold JS.json. destruct (is_finite x) eqn:Hfin; [| reflexivity].
  apply is_finite_number in Hfin.
  rewrite ltb_zero. simpl. rewrite leb_spec, add_spec.
  change (Prim2SF 0) with (S754_zero false).
  destruct (Prim2SF x) as [[] | [] | | [] m e]; try discriminate;
    try contradiction; reflexivity.
Qed.

(** ** Ownership filter *)

Lemma reads_of_active_tenant (w : World) (T : User) :
  active_tenant w T ->
  getInventory w = filter (fun i => i_owner i = u_username T) (allInventory w) /\
  getSales w = filter (fun s => s_owner s = u_username T) (allSales w) /\
  getPurchases w = filter (fun p => p_owner p = u_username T) (allPurchases w) /\
  getExpenses w = filter (fun e => e_owner e = u_username T) (allExpenses w).
Proof.
  unfold getInventory, getSales, getPurchases, getExpenses, getCurrentUser.
  intros [HT Hrole]. rewrite HT.
  apply String.eqb_neq in Hrole. rewrite Hrole.
  now rewrite !filter_by_field.
Qed.

Lemma reads_of_absent_or_privileged (w : World) :
  absent_or_privileged w ->
  getInventory w = [] /\ getSales w = [] /\
  getPurchases w = [] /\ getExpenses w = [].
Proof.
  unfold getInventory, getSales, getPurchases, getExpenses, getCurrentUser.
  intros [Hnone | (T & HT & Hrole)].
  - now rewrite Hnone.
  - rewrite HT. apply String.eqb_eq in Hrole. now rewrite Hrole.
Qed.

(** C1: for an active non-privileged tenant [T] each of [getInventory],
    [getSales], [getPurchases], [getExpenses] is exactly the subsequence of
    the raw table, as it is stored under the table's key, whose records have
    [owner] equal to [T]'s username; each is empty when no tenant is active
    or the active one has the Admin role. *)
Theorem owned_reads_are_ownership_filtered (w : World) :
  (forall T, active_tenant w T ->
     getInventory w
       = filter (fun i => i_owner i = u_username T)
           (raw_table (ims_inventory (localStorage w))) /\
     getSales w
       = filter (fun s => s_owner s = u_username T)
           (raw_table (ims_sales (localStorage w))) /\
     getPurchases w
       = filter (fun p => p_owner p = u_username T)
           (raw_table (ims_purchases (localStorage w))) /\
     getExpenses w
       = filter (fun e => e_owner e = u_username T)
           (raw_table (ims_expenses (localStorage w)))) /\
  (absent_or_privileged w ->
     getInventory w = [] /\ getSales w = [] /\
     getPurchases w = [] /\ getExpenses w = []).
Proof.
  split.
  - intros T HT. exact (reads_of_active_tenant w T HT).
  - apply reads_of_absent_or_privileged.
Qed.

Lemma owned_reads_witness :
  (getInventory (Sample.books (Some Sample.acme)) = [Sample.widget] /\
   getSales (Sample.books (Some Sample.acme)) = [Sample.sale1] /\
   getPurchases (Sample.books (Some Sample.acme)) = [Sample.purchase1] /\
   getExpenses (Sample.books (Some Sample.acme)) = [Sample.rent]) /\
  (getInventory (Sample.books (Some INITIAL_ADMIN)) = [] /\
   getSales (Sample.books (Some INITIAL_ADMIN)) = [] /\
   getPurchases (Sample.books (Some INITIAL_ADMIN)) = [] /\
   getExpenses (Sample.books (Some INITIAL_ADMIN)) = []) /\
  (getInventory (Sample.books None) = [] /\
   getSales (Sample.books None) = [] /\
   getPurchases (Sample.books None) = [] /\
   getExpenses (Sample.books None) = []).
Proof.
  split; [| split].
  - destruct (owned_reads_are_ownership_filtered
                (Sample.books (Some Sample.acme))) as [H _].
    destruct (H Sample.acme) as (Hi & Hs & Hp & He).
    + split; [reflexivity | discriminate].
    + rewrite Hi, Hs, Hp, He. repeat split; reflexivity.
  - destruct (owned_reads_are_ownership_filtered
                (Sample.books (Some INITIAL_ADMIN))) as [_ H].
    apply H. right. exists INITIAL_ADMIN. split; reflexivity.
  - destruct (owned_reads_are_ownership_filtered (Sample.books None)) as [_ H].
    apply H. left. reflexivity.
Defined.

(** The owner comparison is [===] on strings: a tenant named ["acme"] is not
    shown the records of ["Acme"]. *)
Example owner_match_is_case_sensitive :
  getInventory (Sample.offline (Some (set_status "Approved"
    (mkUser "user_1700000000900" "acme" "acme" "Al" "pw" ROLES.USER "Pending"))))
    = [].
Proof. reflexivity. Qed.

(** C10: [getFinancialSummary] sums the [total]s of the tenant's filtered
    sales and the [amount]s of the tenant's filtered expenses, and
    [netProfit] is their difference; all three are zero for an absent or
    privileged tenant.  A field that holds [null] adds [0]. *)
Theorem financial_summary_of_filtered_tables (w : World) :
  (forall T, active_tenant w T ->
     let r := getFinancialSummary w in
     totalSales r
       = float_sum (JS.num ∘ s_total
                      <$> filter (fun s => s_owner s = u_username T)
                            (raw_table (ims_sales (localStorage w)))) /\
     totalExpenses r
       = float_sum (JS.num ∘ e_amount
                      <$> filter (fun e => e_owner e = u_username T)
                            (raw_table (ims_expenses (localStorage w)))) /\
     netProfit r = (totalSales r - totalExpenses r)%float) /\
  (absent_or_privileged w ->
     let r := getFinancialSummary w in
     totalSales r = 0%float /\ totalExpenses r = 0%float /\ netProfit r = 0%float).
Proof.
  split.
  - intros T HT. destruct (reads_of_active_tenant w T HT) as (_ & Hs & _ & He).
    unfold getFinancialSummary; simpl.
    rewrite Hs, He, !reduce_sum_map. auto.
  - intros Habs.
    destruct (reads_of_absent_or_privileged w Habs) as (_ & Hs & _ & He).
    unfold getFinancialSummary; simpl.
    rewrite Hs, He. auto.
Qed.

Lemma financial_summary_witness :
  getFinancialSummary (Sample.offline (Some Sample.acme))
    = mkSummary 10%float 4%float 6%float /\
  netProfit (getFinancialSummary (Sample.offline None)) = 0%float.
Proof.
  split.
  - destruct (financial_summary_of_filtered_tables
                (Sample.offline (Some Sample.acme))) as [H _].
    destruct (H Sample.acme) as (Hs & He & Hn).
    + split; [reflexivity | discriminate].
    + destruct (getFinancialSummary _) as [ts te np]; simpl in *.
      rewrite Hn, Hs, He. reflexivity.
  - destruct (financial_summary_of_filtered_tables (Sample.offline None)) as [_ H].
    apply H. left. reflexivity.
Defined.

(** ** Remote gateway *)

(** C9: with an empty endpoint address [syncDown] returns the not-configured
    failure and [pushRecord] returns at once; neither issues a request nor
    changes the store. *)
Theorem unconfigured_endpoint_is_inert (w : World) :
  cloud_url w = "" ->
  (forall resp,
     BMS_Cloud.syncDown resp w
       = (mkResult false (Some "No Cloud URL configured"), w)) /\
  (forall key data, BMS_Cloud.pushRecord key data w = w).
Proof.
  intros Hurl. unfold BMS_Cloud.syncDown, BMS_Cloud.pushRecord.
  rewrite Hurl. simpl. split; reflexivity.
Qed.

Lemma unconfigured_endpoint_witness :
  fst (BMS_Cloud.syncDown (Rejected "offline") (Sample.offline (Some Sample.acme)))
    = mkResult false (Some "No Cloud URL configured") /\
  requests (BMS_Cloud.pushRecord DB_KEYS.SALES (DSale Sample.sale1)
              (Sample.offline (Some Sample.acme))) = [].
Proof.
  destruct (unconfigured_endpoint_is_inert (Sample.offline (Some Sample.acme)))
    as [Hpull Hpush]; [reflexivity |].
  rewrite Hpull, Hpush. split; reflexivity.
Defined.

(** ** Startup reconciliation *)

Section Snapshot.
Context {A B : Type}.
Variable proj : LocalStorage -> B.

Lemma saveIfValid_cases
    (setItem : option (list A) -> LocalStorage -> LocalStorage)
    (val : TablePayload A) (s : LocalStorage) :
  BMS_Cloud.saveIfValid setItem val s
    = match val with
      | Array (x :: l) => setItem (Some (x :: l)) s
      | _ => s
      end.
Proof. destruct val as [| t | [| x l]]; reflexivity. Qed.

(** A write under one key leaves the entries of the other keys alone. *)
Lemma saveIfValid_frame
    (setItem : option (list A) -> LocalStorage -> LocalStorage)
    (val : TablePayload A) (s : LocalStorage) :
  (forall v s, proj (setItem v s) = proj s) ->
  proj (BMS_Cloud.saveIfValid setItem val s) = proj s.
Proof.
  intros Hframe. rewrite saveIfValid_cases.
  destruct val as [| t | [| x l]]; auto.
Qed.

Lemma saveIfTruthy_frame
    (setItem : option string -> LocalStorage -> LocalStorage)
    (val : SettingPayload) (s : LocalStorage) :
  (forall v s, proj (setItem v s) = proj s) ->
  proj (BMS_Cloud.saveIfTruthy setItem val s) = proj s.
Proof.
  intros Hframe. unfold BMS_Cloud.saveIfTruthy.
  destruct val as [| b | [] text]; [| destruct (JS.truthy b) | |]; auto.
Qed.
End Snapshot.

Ltac frame_snapshot :=
  repeat first
    [ rewrite saveIfTruthy_frame by reflexivity
    | rewrite saveIfValid_frame by reflexivity ].

Lemma applySnapshot_tables (data : Snapshot) (s : LocalStorage) :
  let s' := BMS_Cloud.applySnapshot data s in
  ims_users s' = reconciled (d_users data) (ims_users s) /\
  ims_inventory s' = reconciled (d_inventory data) (ims_inventory s) /\
  ims_sales s' = reconciled (d_sales data) (ims_sales s) /\
  ims_purchases s' = reconciled (d_purchases data) (ims_purchases s) /\
  ims_expenses s' = reconciled (d_expenses data) (ims_expenses s).
Proof.
  unfold BMS_Cloud.applySnapshot; simpl.
  repeat split; frame_snapshot; rewrite saveIfValid_cases.
  - destruct (d_users data) as [| t | [| x l]]; reflexivity.
  - destruct (d_inventory data) as [| t | [| x l]]; simpl; frame_snapshot; reflexivity.
  - destruct (d_sales data) as [| t | [| x l]]; simpl; frame_snapshot; reflexivity.
  - destruct (d_purchases data) as [| t | [| x l]]; simpl; frame_snapshot; reflexivity.
  - destruct (d_expenses data) as [| t | [| x l]]; simpl; frame_snapshot; reflexivity.
Qed.

Lemma syncDown_storage (resp : Response) (w : World) :
  localStorage (snd (BMS_Cloud.syncDown resp w))
    = match resp with
      | Json result data _ =>
          if JS.truthy (cloud_url w) && String.eqb result "success"
          then BMS_Cloud.applySnapshot data (localStorage w)
          else localStorage w
      | _ => localStorage w
      end.
Proof.
  unfold BMS_Cloud.syncDown.
  destruct (JS.truthy (cloud_url w)); simpl.
  - destruct resp as [e | result data error | result error typeError];
      [reflexivity | |];
      destruct (String.eqb result "success"); reflexivity.
  - destruct resp; reflexivity.
Qed.

Lemma reconciled_absent_or_empty {A : Type} (val : TablePayload A)
    (local : option (list A)) :
  absent_or_empty val -> reconciled val local = local.
Proof. destruct val as [| t | [| x l]]; simpl; intros H; congruence. Qed.

Lemma reconciled_non_empty {A : Type} (val : TablePayload A)
    (local : option (list A)) :
  JS.or_else local [] <> [] -> JS.or_else (reconciled val local) [] <> [].
Proof. destruct val as [| t | [| x l]]; simpl; auto; discriminate. Qed.

(** C3: a successful pull never turns a non-empty local table into an empty
    one; when the payload for a table is absent, not an array, or an empty
    array, the local table is left as it was. *)
Theorem syncDown_keeps_local_table (w : World) (data : Snapshot) (error : string) :
  let w' := snd (BMS_Cloud.syncDown (Json "success" data error) w) in
  ((absent_or_empty (d_users data) ->
      ims_users (localStorage w') = ims_users (localStorage w)) /\
   (absent_or_empty (d_inventory data) ->
      ims_inventory (localStorage w') = ims_inventory (localStorage w)) /\
   (absent_or_empty (d_sales data) ->
      ims_sales (localStorage w') = ims_sales (localStorage w)) /\
   (absent_or_empty (d_purchases data) ->
      ims_purchases (localStorage w') = ims_purchases (localStorage w)) /\
   (absent_or_empty (d_expenses data) ->
      ims_expenses (localStorage w') = ims_expenses (localStorage w))) /\
  ((getUsers w <> [] -> getUsers w' <> []) /\
   (allInventory w <> [] -> allInventory w' <> []) /\
   (allSales w <> [] -> allSales w' <> []) /\
   (allPurchases w <> [] -> allPurchases w' <> []) /\
   (allExpenses w <> [] -> allExpenses w' <> [])).
Proof.
  unfold getUsers, allInventory, allSales, allPurchases, allExpenses.
  cbv zeta. rewrite syncDown_storage.
  destruct (JS.truthy (cloud_url w) && String.eqb "success" "success").
  - destruct (applySnapshot_tables data (localStorage w))
      as (-> & -> & -> & -> & ->).
    split; repeat split;
      first [ apply reconciled_absent_or_empty | apply reconciled_non_empty ].
  - split; repeat split; auto.
Qed.

Lemma syncDown_keeps_local_table_witness :
  getUsers (snd (BMS_Cloud.syncDown (Json "success" Sample.partial_snapshot "")
                   (Sample.online (Some Sample.acme))))
    = [INITIAL_ADMIN; Sample.acme; Sample.globex] /\
  allSales (snd (BMS_Cloud.syncDown (Json "success" Sample.partial_snapshot "")
                   (Sample.online (Some Sample.acme))))
    = [Sample.sale1].
Proof.
  destruct (syncDown_keeps_local_table (Sample.online (Some Sample.acme))
              Sample.partial_snapshot "")
    as [(Hu & _ & Hs & _) _].
  unfold getUsers, allSales.
  rewrite (Hu eq_refl), (Hs I). split; reflexivity.
Defined.

(** C4: when the payload for a table is a non-empty array, a successful pull
    replaces the whole local table by that array, whatever the local table
    held. *)
Theorem syncDown_replaces_by_non_empty (w : World) (data : Snapshot)
    (error : string) :
  cloud_url w <> "" ->
  let w' := snd (BMS_Cloud.syncDown (Json "success" data error) w) in
  (forall l, d_users data = Array l -> l <> [] ->
     ims_users (localStorage w') = Some l) /\
  (forall l, d_inventory data = Array l -> l <> [] ->
     ims_inventory (localStorage w') = Some l) /\
  (forall l, d_sales data = Array l -> l <> [] ->
     ims_sales (localStorage w') = Some l) /\
  (forall l, d_purchases data = Array l -> l <> [] ->
     ims_purchases (localStorage w') = Some l) /\
  (forall l, d_expenses data = Array l -> l <> [] ->
     ims_expenses (localStorage w') = Some l).
Proof.
  intros Hurl. apply truthy_iff in Hurl.
  cbv zeta. rewrite syncDown_storage, Hurl. simpl.
  destruct (applySnapshot_tables data (localStorage w))
    as (-> & -> & -> & -> & ->).
  repeat split; intros [| x l] -> Hne; try congruence; reflexivity.
Qed.

Lemma syncDown_replaces_witness :
  ims_inventory
    (localStorage (snd (BMS_Cloud.syncDown (Json "success" Sample.partial_snapshot "")
                          (Sample.online (Some Sample.acme)))))
    = Some [Sample.widget].
Proof.
  destruct (syncDown_replaces_by_non_empty (Sample.online (Some Sample.acme))
              Sample.partial_snapshot "")
    as (_ & Hi & _); [discriminate |].
  apply Hi; [reflexivity | discriminate].
Defined.

(** ** Domain operations *)

Lemma pushRecord_storage (key : string) (data : RecordData) (w : World) :
  localStorage (BMS_Cloud.pushRecord key data w) = localStorage w.
Proof.
  unfold BMS_Cloud.pushRecord. destruct (negb (JS.truthy (cloud_url w))); reflexivity.
Qed.

(** Reads the store of a world built by writes and pushes. *)
Ltac store_of_world :=
  repeat first
    [ rewrite pushRecord_storage
    | progress cbn [localStorage with_storage fst snd] ].

(** Replacing a kept element by a kept element commutes with filtering. *)
Lemma filter_insert_kept {A : Type} (P : A -> Prop) `{!forall x, Decision (P x)}
    (l : list A) (ix : nat) (x x' : A) :
  l !! ix = Some x -> P x -> P x' ->
  exists k, filter P l !! k = Some x /\
    filter P (<[ix := x']> l) = <[k := x']> (filter P l).
Proof.
  intros Hl Hx Hx'. revert ix Hl.
  induction l as [| a l IH]; intros [| ix] Hl; try discriminate; simpl in Hl.
  - injection Hl as ->. exists O. simpl.
    rewrite !filter_cons_True by assumption. split; reflexivity.
  - destruct (IH ix Hl) as (k & Hk & Heq). simpl.
    rewrite !filter_cons. destruct (decide (P a)).
    + exists (S k). simpl. split; [exact Hk | now rewrite Heq].
    + exists k. split; [exact Hk | exact Heq].
Qed.

Section StockWrites.
Context `{E : JS.Engine}.

Lemma same_item_matches (T : User) (itemName : string) (i : InventoryItem) :
  same_item T itemName i = true <-> matches T itemName i.
Proof.
  unfold same_item, matches.
  rewrite andb_true_iff, !String.eqb_eq. reflexivity.
Qed.

Lemma same_item_not_matches (T : User) (itemName : string) (i : InventoryItem) :
  same_item T itemName i = false <-> ~ matches T itemName i.
Proof.
  rewrite <- same_item_matches. destruct (same_item T itemName i); split; congruence.
Qed.

Lemma find_matching_item (T : User) (itemName : string)
    (inv : list InventoryItem) (ix : nat) (item : InventoryItem) :
  JS.find (same_item T itemName) inv = Some (ix, item)
  <-> matching_item T itemName inv ix item.
Proof.
  rewrite find_Some. unfold matching_item.
  rewrite same_item_matches.
  split; intros (Hl & Hm & Hmin);
    (split; [exact Hl | split; [exact Hm |]]); intros j y Hy Hj;
    apply same_item_not_matches; eauto.
Qed.

Lemma find_no_matching_item (T : User) (itemName : string)
    (inv : list InventoryItem) :
  JS.find (same_item T itemName) inv = None
  <-> no_matching_item T itemName inv.
Proof.
  rewrite find_None. unfold no_matching_item.
  split; intros H y Hy; apply same_item_not_matches; auto.
Qed.

(** The store after [addStock] by tenant [T]: one purchase appended, and the
    tenant's matching item restocked or a new item appended. *)
Lemma addStock_store (t_pur : Z) (iso : string) (t_inv : Z)
    (vendor category brand model : string) (quantity cost : JS.value)
    (paymentType : string) (w : World) (T : User) :
  getCurrentUser w = Some T ->
  let itemName := brand +:+ " " +:+ model in
  localStorage (snd (addStock t_pur iso t_inv vendor category brand model
                       quantity cost paymentType w))
    = setInventory
        (Some match JS.find (same_item T itemName) (allInventory w) with
              | Some (ix, item) =>
                  <[ix := set_quantity
                            (JS.json (JS.num (i_quantity item) + JS.parseInt quantity))
                            item]>
                    (allInventory w)
              | None =>
                  allInventory w ++
                  [mkItem ("inv_" +:+ JS.toString t_inv) (u_username T) itemName
                     (JS.json (JS.parseInt quantity)) (JS.json (JS.parseFloat cost))]
              end)
        (setPurchases
           (Some (allPurchases w ++
                  [mkPurchase ("pur_" +:+ JS.toString t_pur) (u_username T) iso
                     vendor category brand model itemName
                     (JS.json (JS.parseInt quantity))
                     (JS.json (JS.parseFloat cost)) paymentType]))
           (localStorage w)).
Proof.
  intros HT itemName. unfold addStock. rewrite HT. fold itemName.
  destruct (JS.find (same_item T itemName) (allInventory w)) as [[ix item] |];
    store_of_world; reflexivity.
Qed.

(** The store after [processSale] by tenant [T]. *)
Lemma processSale_store (now : Z) (iso itemName : string)
    (quantity price : JS.value) (w : World) (T : User) :
  getCurrentUser w = Some T ->
  localStorage (snd (processSale now iso itemName quantity price w))
    = match JS.find (same_item T itemName) (allInventory w) with
      | Some (ix, item) =>
          if (JS.num (i_quantity item) <? JS.toNumber quantity)%float
          then localStorage w
          else setSales
                 (Some (allSales w ++
                        [mkSale ("sale_" +:+ JS.toString now) (u_username T) iso
                           itemName (JS.json (JS.parseInt quantity))
                           (JS.json (JS.parseFloat price))
                           (JS.json (JS.parseInt quantity * JS.parseFloat price))]))
                 (setInventory
                    (Some (<[ix := set_quantity
                                     (JS.json (JS.num (i_quantity item)
                                               - JS.parseInt quantity)) item]>
                             (allInventory w)))
                    (localStorage w))
      | None => localStorage w
      end.
Proof.
  intros HT. unfold processSale. rewrite HT.
  destruct (JS.find _ (allInventory w)) as [[ix item] |]; [| reflexivity].
  destruct (_ <? _)%float; [reflexivity |].
  store_of_world. unfold allSales at 1. store_of_world. reflexivity.
Qed.

(** The store after [addExpense] by tenant [T]. *)
Lemma addExpense_store (now : Z) (today name : string) (amount : JS.value)
    (date : string) (w : World) (T : User) :
  getCurrentUser w = Some T ->
  localStorage (snd (addExpense now today name amount date w))
    = setExpenses
        (Some (allExpenses w ++
               [mkExpense ("exp_" +:+ JS.toString now) (u_username T) name
                  (JS.json (JS.parseFloat amount))
                  (if JS.truthy date then date else today)]))
        (localStorage w).
Proof.
  intros HT. unfold addExpense. rewrite HT. store_of_world. reflexivity.
Qed.

(** What [processSale] returns, by the three cases of its check. *)
Lemma processSale_result (now : Z) (iso itemName : string)
    (quantity price : JS.value) (w : World) (T : User) :
  getCurrentUser w = Some T ->
  match JS.find (same_item T itemName) (allInventory w) with
  | Some (ix, item) =>
      if (JS.num (i_quantity item) <? JS.toNumber quantity)%float
      then processSale now iso itemName quantity price w
           = (mkResult false (Some "Insufficient Stock"), w)
      else fst (processSale now iso itemName quantity price w) = mkResult true None
  | None =>
      processSale now iso itemName quantity price w
        = (mkResult false (Some "Insufficient Stock"), w)
  end.
Proof.
  intros HT. unfold processSale. rewrite HT.
  destruct (JS.find _ (allInventory w)) as [[ix item] |]; [| reflexivity].
  destruct (_ <? _)%float; reflexivity.
Qed.

(** C2, for a quantity whose [parseInt] is within the stock as well: for an
    active tenant, a sale of more than the stock of the tenant's matching
    item, or of an item the tenant does not have, fails with the
    insufficient-stock message and changes nothing; a sale of at most the
    stock replaces that item's quantity by the quantity less
    [parseInt(quantity)] and appends exactly one sale record, owned by the
    tenant, with [parseInt(quantity)] as quantity, [parseFloat(price)] as
    price and their product as total; every other entry of the store is as
    it was. *)
Theorem processSale_checks_stock (now : Z) (iso itemName : string)
    (quantity price : JS.value) (w : World) (T : User) :
  let s := localStorage w in
  let inv := raw_table (ims_inventory s) in
  ims_current_user s = Some T ->
  (no_matching_item T itemName inv ->
     processSale now iso itemName quantity price w
       = (mkResult false (Some "Insufficient Stock"), w)) /\
  (forall ix item, matching_item T itemName inv ix item ->
     ((JS.num (i_quantity item) <? JS.toNumber quantity)%float = true ->
        processSale now iso itemName quantity price w
          = (mkResult false (Some "Insufficient Stock"), w)) /\
     ((JS.toNumber quantity <=? JS.num (i_quantity item))%float = true ->
      (JS.parseInt quantity <=? JS.num (i_quantity item))%float = true ->
        exists w',
          processSale now iso itemName quantity price w
            = (mkResult true None, w') /\
          localStorage w'
            = mkStorage (ims_users s)
                (Some (<[ix := mkItem (i_id item) (i_owner item) (i_itemName item)
                                 (JS.json (JS.num (i_quantity item)
                                           - JS.parseInt quantity))
                                 (i_avgCost item)]> inv))
                (Some (raw_table (ims_sales s) ++
                       [mkSale ("sale_" +:+ JS.toString now) (u_username T) iso
                          itemName (JS.json (JS.parseInt quantity))
                          (JS.json (JS.parseFloat price))
                          (JS.json (JS.parseInt quantity * JS.parseFloat price))]))
                (ims_purchases s) (ims_expenses s) (ims_current_user s)
                (ims_banner s) (ims_vertical_banner s) (ims_cloud_url s))).
Proof.
  cbv zeta. intros HT.
  change (raw_table (ims_inventory (localStorage w))) with (allInventory w).
  pose proof (processSale_result now iso itemName quantity price w T HT) as Hres.
  pose proof (processSale_store now iso itemName quantity price w T HT) as Hst.
  split.
  - intros Hno. apply find_no_matching_item in Hno. now rewrite Hno in Hres.
  - intros ix item Hm. apply find_matching_item in Hm. rewrite Hm in Hres, Hst.
    split.
    + intros Hlt. now rewrite Hlt in Hres.
    + intros Hle _. apply leb_not_below in Hle. rewrite Hle in Hres, Hst.
      exists (snd (processSale now iso itemName quantity price w)).
      split; [| exact Hst].
      rewrite <- Hres. now destruct (processSale _ _ _ _ _ _).
Qed.

End StockWrites.

Lemma processSale_checks_stock_witness :
  processSale 1700000005000 "2023-11-14T22:16:40.000Z" "Widget A"
      Sample.twelve Sample.five (Sample.offline (Some Sample.acme))
    = (mkResult false (Some "Insufficient Stock"),
       Sample.offline (Some Sample.acme)) /\
  exists w',
    processSale 1700000005000 "2023-11-14T22:16:40.000Z" "widget a"
        Sample.four Sample.five (Sample.offline (Some Sample.acme))
      = (mkResult true None, w') /\
    ims_inventory (localStorage w')
      = Some [Sample.gadget;
              mkItem "inv_1700000001000" "Acme" "Widget A" (Some 6%float)
                (Some 2.5%float)] /\
    ims_sales (localStorage w')
      = Some [Sample.sale1;
              mkSale "sale_1700000005000" "Acme" "2023-11-14T22:16:40.000Z"
                "widget a" (Some 4%float) (Some 5%float) (Some 20%float)].
Proof.
  set (w := Sample.offline (Some Sample.acme)).
  assert (forall name, same_up_to_case name "Widget A" ->
            matching_item Sample.acme name
              (raw_table (ims_inventory (localStorage w))) 1 Sample.widget)
    as Hmatch.
  { intros name Hname. repeat split.
    - symmetry. exact Hname.
    - intros [| j] y Hy Hj; [| lia].
      injection Hy as <-. intros [Ho _]. discriminate. }
  split.
  - destruct (processSale_checks_stock 1700000005000 "2023-11-14T22:16:40.000Z"
                "Widget A" Sample.twelve Sample.five w Sample.acme eq_refl)
      as [_ H].
    destruct (H 1%nat Sample.widget) as [Hfail _].
    + apply Hmatch. reflexivity.
    + apply Hfail. reflexivity.
  - destruct (processSale_checks_stock 1700000005000 "2023-11-14T22:16:40.000Z"
                "widget a" Sample.four Sample.five w Sample.acme eq_refl)
      as [_ H].
    destruct (H 1%nat Sample.widget) as [_ Hok].
    + apply Hmatch. reflexivity.
    + destruct Hok as (w' & Hrun & Hst); [reflexivity | reflexivity |].
      exists w'. split; [exact Hrun |].
      rewrite Hst. split; reflexivity.
Defined.

(** C2 as stated, with the quantity asked for taken off and recorded, fails:
    what is taken off and recorded is [parseInt] of it.  A tenant holding
    [2e21] of an item sells [1e21] of it at 5: the sale goes through, it
    records a quantity of 1 and a total of 5, and the stock is the number it
    was, [2e21 - 1] being [2e21] again in binary64. *)
Lemma processSale_sells_parseInt :
  (JS.toNumber Sample.sextillion <=? JS.num (i_quantity Sample.bulk))%float = true /\
  exists w' sale,
    processSale 1700000005000 "2023-11-14T22:16:40.000Z" "Grain"
        Sample.sextillion Sample.five Sample.silo
      = (mkResult true None, w') /\
    ims_inventory (localStorage w') = Some [Sample.bulk] /\
    ims_sales (localStorage w') = Some [sale] /\
    s_quantity sale = Some 1%float /\
    s_total sale = Some 5%float /\
    ~ sold_as_requested Sample.sextillion Sample.five Sample.bulk Sample.bulk sale.
Proof.
  split; [reflexivity |].
  eexists _, _. split; [reflexivity |].
  split; [reflexivity |]. split; [reflexivity |].
  split; [reflexivity |]. split; [reflexivity |].
  intros (_ & Hq & _).
  apply (f_equal (fun q => (JS.num q =? 1)%float)) in Hq.
  vm_compute in Hq. discriminate.
Qed.

Section Registration.
Context `{E : JS.Engine}.

(** C7: a registration whose company name equals an existing username up to
    letter case is rejected as a duplicate and leaves the store as it was;
    any other registration appends exactly one tenant, with role User and
    status Pending. *)
Theorem register_rejects_duplicates_up_to_case (now : Z)
    (companyName contactPerson password : string) (w : World)
    (users : list User) :
  ims_users (localStorage w) = Some users ->
  ((exists u, u ∈ users /\ same_up_to_case (u_username u) companyName) ->
     register now companyName contactPerson password w
       = JS.Return (mkResult false (Some "Company Name already registered"), w)) /\
  ((forall u, u ∈ users -> ~ same_up_to_case (u_username u) companyName) ->
     exists w',
       register now companyName contactPerson password w
         = JS.Return (mkResult true
                        (Some "Registration successful! Wait for Admin approval."),
                      w') /\
       localStorage w'
         = setUsers
             (Some (users ++
                    [mkUser ("user_" +:+ JS.toString now) companyName companyName
                       contactPerson password ROLES.USER "Pending"]))
             (localStorage w)).
Proof.
  intros Husers. unfold register. rewrite Husers.
  destruct (JS.find _ users) as [[i x] |] eqn:Hfind.
  - split; [reflexivity |].
    intros Hfresh. exfalso.
    apply find_Some in Hfind as (Hi & Hx & _).
    apply String.eqb_eq in Hx.
    apply (Hfresh x); [| exact Hx].
    apply list_elem_of_lookup. now exists i.
  - split.
    + intros (u & Hu & Hsame). exfalso.
      pose proof (proj1 (find_None _ _) Hfind u Hu) as Hne.
      apply String.eqb_neq in Hne. now apply Hne.
    + intros _. eexists. split; [reflexivity |].
      store_of_world. reflexivity.
Qed.

End Registration.

Lemma register_witness :
  register 1700000006000 "ACME" "Zed" "pw" (Sample.offline None)
    = JS.Return (mkResult false (Some "Company Name already registered"),
                 Sample.offline None) /\
  exists w',
    register 1700000006000 "Initech" "Zed" "pw" (Sample.offline None)
      = JS.Return (mkResult true
                     (Some "Registration successful! Wait for Admin approval."), w') /\
    ims_users (localStorage w')
      = Some [INITIAL_ADMIN; Sample.acme; Sample.globex;
              mkUser "user_1700000006000" "Initech" "Initech" "Zed" "pw"
                "User" "Pending"].
Proof.
  set (w := Sample.offline None). split.
  - destruct (register_rejects_duplicates_up_to_case 1700000006000 "ACME" "Zed"
                "pw" w _ eq_refl) as [Hdup _].
    apply Hdup. exists Sample.acme. split; [| reflexivity].
    right; left.
  - destruct (register_rejects_duplicates_up_to_case 1700000006000 "Initech"
                "Zed" "pw" w _ eq_refl) as [_ Hnew].
    destruct Hnew as (w' & Hrun & Hst).
    + intros u Hu.
      repeat (apply elem_of_cons in Hu as [-> | Hu]; [discriminate |]).
      inversion Hu.
    + exists w'. split; [exact Hrun |].
      rewrite Hst. reflexivity.
Defined.

Section Restocking.
Context `{E : JS.Engine}.

(** C8, for a tenant without the Admin role: after [addStock] the inventory
    read shows the tenant's matching item with its quantity replaced by the
    sum of the quantity and [parseInt(quantity)], or else a new item with
    [parseInt(quantity)] as quantity and [parseFloat(cost)] as [avgCost];
    one purchase record is appended in both cases. *)
Theorem addStock_shown_to_tenant (t_pur : Z) (iso : string) (t_inv : Z)
    (vendor category brand model : string) (quantity cost : JS.value)
    (paymentType : string) (w : World) (T : User) :
  active_tenant w T ->
  addStock_shown t_pur iso t_inv vendor category brand model quantity cost
    paymentType w T.
Proof.
  intros HT. pose proof HT as [Huser Hrole].
  unfold addStock_shown.
  pose proof (addStock_store t_pur iso t_inv vendor category brand model quantity
                cost paymentType w T Huser) as Hst.
  cbv zeta in Hst.
  set (w' := snd (addStock _ _ _ _ _ _ _ _ _ _ w)) in *.
  assert (active_tenant w' T) as HT'.
  { split; [| exact Hrole]. now rewrite Hst. }
  destruct (reads_of_active_tenant w T HT) as (Hr & _).
  destruct (reads_of_active_tenant w' T HT') as (Hr' & _).
  assert (allInventory w'
          = match JS.find (same_item T (brand +:+ " " +:+ model)) (allInventory w) with
            | Some (ix, item) =>
                <[ix := set_quantity
                          (JS.json (JS.num (i_quantity item) + JS.parseInt quantity))
                          item]>
                  (allInventory w)
            | None =>
                allInventory w ++
                [mkItem ("inv_" +:+ JS.toString t_inv) (u_username T)
                   (brand +:+ " " +:+ model)
                   (JS.json (JS.parseInt quantity)) (JS.json (JS.parseFloat cost))]
            end) as Hinv.
  { unfold allInventory at 1. now rewrite Hst. }
  change (raw_table (ims_inventory (localStorage w))) with (allInventory w).
  rewrite Hr, Hr', Hinv.
  split; [| split].
  - intros ix item Hm. pose proof Hm as (Hl & [Ho _] & _).
    apply find_matching_item in Hm. rewrite Hm.
    apply (filter_insert_kept _ _ ix item
             (set_quantity (JS.json (JS.num (i_quantity item) + JS.parseInt quantity))
                item)); auto.
  - intros Hno. apply find_no_matching_item in Hno. rewrite Hno.
    rewrite filter_app, filter_cons_True, filter_nil by reflexivity.
    reflexivity.
  - now rewrite Hst.
Qed.

End Restocking.

Lemma addStock_shown_witness :
  getInventory (snd (addStock 1700000007000 "2023-11-14T22:50:00.000Z"
                       1700000007001 "Vendor" "Tools" "WIDGET" "a"
                       Sample.five Sample.three "Cash"
                       (Sample.offline (Some Sample.acme))))
    = [mkItem "inv_1700000001000" "Acme" "Widget A" (Some 15%float)
         (Some 2.5%float)] /\
  getInventory (snd (addStock 1700000007000 "2023-11-14T22:50:00.000Z"
                       1700000007001 "Vendor" "Tools" "Sprocket" "C"
                       Sample.five Sample.three "Cash"
                       (Sample.offline (Some Sample.acme))))
    = [Sample.widget;
       mkItem "inv_1700000007001" "Acme" "Sprocket C" (Some 5%float)
         (Some 3%float)].
Proof.
  set (w := Sample.offline (Some Sample.acme)).
  split.
  - destruct (addStock_shown_to_tenant 1700000007000 "2023-11-14T22:50:00.000Z"
                1700000007001 "Vendor" "Tools" "WIDGET" "a" Sample.five
                Sample.three "Cash" w Sample.acme)
      as (Hold & _ & _).
    + split; [reflexivity | discriminate].
    + destruct (Hold 1%nat Sample.widget) as (k & Hk & Hshown).
      * repeat split.
        intros [| j] y Hy Hj; [| lia].
        injection Hy as <-. intros [Ho _]. discriminate.
      * destruct k as [| k]; [| destruct k; discriminate].
        rewrite Hshown. reflexivity.
  - destruct (addStock_shown_to_tenant 1700000007000 "2023-11-14T22:50:00.000Z"
                1700000007001 "Vendor" "Tools" "Sprocket" "C" Sample.five
                Sample.three "Cash" w Sample.acme)
      as (_ & Hnew & _).
    + split; [reflexivity | discriminate].
    + rewrite Hnew; [reflexivity |].
      intros y Hy [_ Hname].
      repeat (apply elem_of_cons in Hy as [-> | Hy]; [discriminate |]).
      inversion Hy.
Defined.

(** C8 as stated, for every active tenant, fails for the privileged one:
    [addStock] writes the raw inventory, but the Admin's inventory read stays
    empty. *)
Lemma addStock_not_shown_to_admin :
  ims_current_user (localStorage (Sample.fresh (Some INITIAL_ADMIN)))
    = Some INITIAL_ADMIN /\
  ims_inventory
    (localStorage
       (snd (addStock 1700000007000 "2023-11-14T22:50:00.000Z" 1700000007001
               "Vendor" "Tools" "Widget" "A" Sample.five Sample.three "Cash"
               (Sample.fresh (Some INITIAL_ADMIN)))))
    = Some [mkItem "inv_1700000007001" "Admin" "Widget A" (Some 5%float)
              (Some 3%float)] /\
  getInventory
    (snd (addStock 1700000007000 "2023-11-14T22:50:00.000Z" 1700000007001
            "Vendor" "Tools" "Widget" "A" Sample.five Sample.three "Cash"
            (Sample.fresh (Some INITIAL_ADMIN))))
    = [] /\
  ~ addStock_shown 1700000007000 "2023-11-14T22:50:00.000Z" 1700000007001
      "Vendor" "Tools" "Widget" "A" Sample.five Sample.three "Cash"
      (Sample.fresh (Some INITIAL_ADMIN)) INITIAL_ADMIN.
Proof.
  split; [reflexivity |]. split; [reflexivity |]. split; [reflexivity |].
  intros (_ & Hnew & _).
  assert ((@nil InventoryItem)
          = [mkItem "inv_1700000007001" "Admin" "Widget A" (Some 5%float)
               (Some 3%float)]) as Hshown; [| discriminate].
  apply Hnew. intros y Hy. inversion Hy.
Qed.

(** ** Stock levels *)

Section StockLevels.
Context `{E : JS.Engine}.

Lemma addStock_keeps_non_negative (t_pur : Z) (iso : string) (t_inv : Z)
    (vendor category brand model : string) (quantity cost : JS.value)
    (paymentType : string) (w : World) :
  (JS.parseInt quantity <? 0)%float = false ->
  stock_non_negative w ->
  stock_non_negative (snd (addStock t_pur iso t_inv vendor category brand model
                             quantity cost paymentType w)).
Proof.
  intros Hq Hinv.
  destruct (getCurrentUser w) as [T |] eqn:HT.
  - pose proof (addStock_store t_pur iso t_inv vendor category brand model quantity
                  cost paymentType w T HT) as Hst.
    cbv zeta in Hst. unfold stock_non_negative in *.
    rewrite Hst. cbn [ims_inventory setInventory raw_table].
    change (raw_table (ims_inventory (localStorage w))) with (allInventory w) in Hinv.
    destruct (JS.find _ (allInventory w)) as [[ix item] |] eqn:Hfind.
    + apply find_Some in Hfind as (Hix & _ & _).
      apply Forall_insert; [exact Hinv |].
      pose proof (Forall_lookup_1 _ _ _ _ Hinv Hix) as Hitem.
      cbn [i_quantity set_quantity].
      apply json_not_below, add_not_below_zero; [| exact Hq].
      now apply leb_not_below.
    + apply Forall_app. split; [exact Hinv |].
      constructor; [| constructor].
      cbn [i_quantity]. now apply json_not_below.
  - unfold addStock. now rewrite HT.
Qed.

Lemma processSale_keeps_non_negative (now : Z) (iso itemName : string)
    (quantity price : JS.value) (w : World) :
  (JS.parseInt quantity <=? JS.toNumber quantity)%float = true ->
  stock_non_negative w ->
  stock_non_negative (snd (processSale now iso itemName quantity price w)).
Proof.
  intros Hq Hinv.
  destruct (getCurrentUser w) as [T |] eqn:HT.
  - pose proof (processSale_store now iso itemName quantity price w T HT) as Hst.
    unfold stock_non_negative in *. rewrite Hst.
    change (raw_table (ims_inventory (localStorage w))) with (allInventory w) in Hinv.
    destruct (JS.find _ (allInventory w)) as [[ix item] |] eqn:Hfind;
      [| exact Hinv].
    destruct (_ <? _)%float eqn:Hcheck; [exact Hinv |].
    cbn [ims_inventory setInventory setSales raw_table].
    apply Forall_insert; [exact Hinv |].
    cbn [i_quantity set_quantity].
    apply json_not_below, sub_not_below_zero.
    now apply not_below_trans with (JS.toNumber quantity).
  - unfold processSale. now rewrite HT.
Qed.

Lemma processSale_rejects_overdraw (now : Z) (iso itemName : string)
    (quantity price : JS.value) (w : World) (T : User) (ix : nat)
    (item : InventoryItem) :
  getCurrentUser w = Some T ->
  matching_item T itemName (allInventory w) ix item ->
  (JS.parseInt quantity <=? JS.toNumber quantity)%float = true ->
  (JS.num (i_quantity item) - JS.parseInt quantity <? 0)%float = true ->
  processSale now iso itemName quantity price w
    = (mkResult false (Some "Insufficient Stock"), w).
Proof.
  intros HT Hm Hq Hneg.
  pose proof (processSale_result now iso itemName quantity price w T HT) as Hres.
  apply find_matching_item in Hm. rewrite Hm in Hres.
  destruct (JS.num (i_quantity item) <? JS.toNumber quantity)%float eqn:Hcheck;
    [exact Hres |].
  rewrite sub_not_below_zero in Hneg; [discriminate |].
  now apply not_below_trans with (JS.toNumber quantity).
Qed.

Lemma step_keeps_non_negative (op : StockOp) (w : World) :
  checked_quantity op -> stock_non_negative w -> stock_non_negative (step op w).
Proof.
  destruct op; simpl; intros Hop Hinv.
  - now apply addStock_keeps_non_negative.
  - now apply processSale_keeps_non_negative.
Qed.

Lemma run_keeps_non_negative (ops : list StockOp) (w : World) :
  Forall checked_quantity ops -> stock_non_negative w ->
  stock_non_negative (run ops w).
Proof.
  unfold run. intros Hops. revert w.
  induction Hops as [| op ops Hop Hops IH]; intros w Hinv; simpl; [exact Hinv |].
  apply IH. now apply step_keeps_non_negative.
Qed.

(** C5, for the quantities the stock check is made for, that is [addStock]
    of a quantity whose [parseInt] is not negative and [processSale] of a
    quantity whose [parseInt] does not exceed the quantity itself: no item's
    quantity is below zero in any state reached from an empty inventory by
    such operations, and [processSale] rejects any such sale that would drive
    the item's quantity below zero. *)
Theorem stock_never_negative (w : World) (ops : list StockOp) :
  raw_table (ims_inventory (localStorage w)) = [] ->
  Forall checked_quantity ops ->
  stock_non_negative (run ops w) /\
  (forall now iso itemName quantity price T ix item,
     ims_current_user (localStorage (run ops w)) = Some T ->
     matching_item T itemName
       (raw_table (ims_inventory (localStorage (run ops w)))) ix item ->
     (JS.parseInt quantity <=? JS.toNumber quantity)%float = true ->
     (JS.num (i_quantity item) - JS.parseInt quantity <? 0)%float = true ->
     processSale now iso itemName quantity price (run ops w)
       = (mkResult false (Some "Insufficient Stock"), run ops w)).
Proof.
  intros Hempty Hops. split.
  - apply run_keeps_non_negative; [exact Hops |].
    unfold stock_non_negative. rewrite Hempty. constructor.
  - intros. now apply processSale_rejects_overdraw with T ix item.
Qed.

End StockLevels.

Lemma stock_never_negative_witness :
  i_quantity <$> raw_table (ims_inventory (localStorage
                   (run Sample.trading_day (Sample.fresh (Some Sample.acme)))))
    = [Some 6%float] /\
  stock_non_negative (run Sample.trading_day (Sample.fresh (Some Sample.acme))).
Proof.
  split; [reflexivity |].
  apply (stock_never_negative (Sample.fresh (Some Sample.acme)) Sample.trading_day).
  - reflexivity.
  - repeat constructor.
Defined.

(** C5 as stated, for any sequence of operations, fails: [addStock] stores
    [parseInt] of the quantity it is given, also a negative one. *)
Lemma negative_addStock_not_rejected :
  raw_table (ims_inventory (localStorage (Sample.fresh (Some Sample.acme)))) = [] /\
  i_quantity <$> raw_table (ims_inventory (localStorage
                   (run Sample.negative_purchase (Sample.fresh (Some Sample.acme)))))
    = [Some (-5)%float] /\
  ~ stock_non_negative
      (run Sample.negative_purchase (Sample.fresh (Some Sample.acme))).
Proof.
  split; [reflexivity |]. split; [reflexivity |].
  intros Hinv. apply Forall_cons in Hinv as [Hneg _].
  vm_compute in Hneg. discriminate.
Qed.

(** ** The privileged tenant *)

Lemma filter_insert_dropped {A : Type} (P : A -> Prop) `{!forall x, Decision (P x)}
    (l : list A) (ix : nat) (x x' : A) :
  l !! ix = Some x -> ~ P x -> ~ P x' -> filter P (<[ix := x']> l) = filter P l.
Proof.
  intros Hl Hx Hx'. revert ix Hl.
  induction l as [| a l IH]; intros [| ix] Hl; try discriminate; simpl in Hl.
  - injection Hl as ->. simpl. now rewrite !filter_cons_False.
  - simpl. rewrite !filter_cons, (IH ix Hl). reflexivity.
Qed.

Lemma filter_delete_dropped {A : Type} (P : A -> Prop) `{!forall x, Decision (P x)}
    (l : list A) (ix : nat) (x : A) :
  l !! ix = Some x -> ~ P x -> filter P (delete ix l) = filter P l.
Proof.
  intros Hl Hx. revert ix Hl.
  induction l as [| a l IH]; intros [| ix] Hl; try discriminate; simpl in Hl.
  - injection Hl as ->. simpl. now rewrite filter_cons_False.
  - simpl. rewrite !filter_cons, (IH ix Hl). reflexivity.
Qed.

Lemma initStorage_users (s : LocalStorage) :
  ims_users (initStorage s)
    = Some (INITIAL_ADMIN
              :: filter (fun u => u_id u <> "admin_001") (JS.or_else (ims_users s) [])).
Proof.
  assert (forall l : list User,
            List.filter (fun u => negb (String.eqb (u_id u) "admin_001")) l
            = filter (fun u => u_id u <> "admin_001") l) as Hfilter.
  { induction l as [| a l IH]; simpl; [reflexivity |].
    rewrite filter_cons.
    destruct (String.eqb_spec (u_id a) "admin_001") as [He | Hne]; simpl.
    - rewrite decide_False by auto. exact IH.
    - rewrite decide_True by exact Hne. now rewrite IH. }
  unfold initStorage. rewrite Hfilter.
  destruct s as [us [inv |] [sa |] [pu |] [ex |] cu [b |] vb url]; simpl;
    try destruct (JS.truthy b); reflexivity.
Qed.

(** Cache initialisation: whatever was stored, afterwards exactly one record
    carries the reserved id, and it is the built-in one. *)
Lemma initStorage_reinstates_admin (s : LocalStorage) :
  exists users,
    ims_users (initStorage s) = Some users /\
    reserved users = [INITIAL_ADMIN] /\ one_privileged users.
Proof.
  eexists. split; [apply initStorage_users |].
  assert (forall l : list User,
            reserved (filter (fun u => u_id u <> "admin_001") l) = []) as Hnone.
  { intros l. unfold reserved. induction l as [| a l IH]; [reflexivity |].
    rewrite filter_cons. destruct (decide (u_id a <> "admin_001")); [| exact IH].
    now rewrite filter_cons_False. }
  assert (reserved (INITIAL_ADMIN
                      :: filter (fun u => u_id u <> "admin_001")
                           (JS.or_else (ims_users s) [])) = [INITIAL_ADMIN]) as Hone.
  { unfold reserved. rewrite filter_cons_True by reflexivity.
    f_equal. apply Hnone. }
  split; [exact Hone |]. exists INITIAL_ADMIN. split; [exact Hone | reflexivity].
Qed.

(** The operations of [BMS_Core] that write the users table keep the
    privileged tenant unique. *)
Lemma register_keeps_privileged `{E : JS.Engine} (now : Z)
    (companyName contactPerson password : string) (w w' : World) (r : Result) :
  register now companyName contactPerson password w = JS.Return (r, w') ->
  one_privileged (getUsers w) -> one_privileged (getUsers w').
Proof.
  unfold register, getUsers. intros Hrun Hone.
  destruct (ims_users (localStorage w)) as [users |] eqn:Husers; [| discriminate].
  simpl in Hone.
  destruct (JS.find _ users) as [[i x] |]; injection Hrun as <- <-.
  - now rewrite Husers.
  - store_of_world. simpl.
    unfold one_privileged, reserved in *.
    rewrite filter_app, filter_cons_False, filter_nil, app_nil_r; [exact Hone |].
    simpl. discriminate.
Qed.

Lemma resetPassword_keeps_privileged (userId newPassword : string) (w : World) :
  one_privileged (getUsers w) ->
  one_privileged (getUsers (snd (resetPassword userId newPassword w))).
Proof.
  intros (a & Ha & Hrole). unfold resetPassword.
  destruct (JS.find _ (getUsers w)) as [[i u] |] eqn:Hfind;
    [| exists a; auto].
  apply find_Some in Hfind as (Hi & _ & _).
  unfold getUsers at 1. store_of_world. simpl.
  unfold one_privileged, reserved in *.
  destruct (decide (u_id u = "admin_001")) as [Hid | Hid].
  - destruct (filter_insert_kept (fun u => u_id u = "admin_001") (getUsers w) i u
                (set_password newPassword u) Hi Hid Hid) as (k & Hk & ->).
    rewrite Ha in *. destruct k as [| k]; [| destruct k; discriminate].
    injection Hk as ->. exists (set_password newPassword u). auto.
  - rewrite (filter_insert_dropped _ _ _ _ _ Hi Hid) by exact Hid.
    exists a. auto.
Qed.

Lemma updateUserStatus_keeps_privileged (userId newStatus : string) (w : World) :
  one_privileged (getUsers w) ->
  one_privileged (getUsers (snd (updateUserStatus userId newStatus w))).
Proof.
  intros (a & Ha & Hrole). unfold updateUserStatus.
  destruct (JS.find _ (getUsers w)) as [[i u] |] eqn:Hfind;
    [| exists a; auto].
  apply find_Some in Hfind as (Hi & _ & _).
  destruct (String.eqb_spec (u_role u) ROLES.ADMIN) as [Hadmin | Huser]; simpl;
    [exists a; auto |].
  assert (u_id u <> "admin_001") as Hid.
  { intros Hid. apply Huser.
    assert (u ∈ reserved (getUsers w)) as Hin.
    { apply list_elem_of_filter. split; [exact Hid |].
      apply list_elem_of_lookup. now exists i. }
    rewrite Ha in Hin. apply list_elem_of_singleton in Hin. now subst. }
  exists a. split; [| exact Hrole]. rewrite <- Ha.
  destruct (String.eqb newStatus "Delete"); unfold getUsers at 1;
    store_of_world; simpl; unfold reserved.
  - now apply filter_delete_dropped with u.
  - now apply filter_insert_dropped with u.
Qed.

(** C6, at the input where the code departs from it: the constructor has
    reinstated the privileged tenant, the pull it schedules returns the
    remote users table, which holds the registered tenant only, and the
    users table is replaced by it: no record carries the reserved id any
    more. *)
Theorem startup_sync_drops_privileged_tenant :
  one_privileged (getUsers (constructor (Sample.configured None))) /\
  getUsers (startup (Json "success" Sample.remote_users_only "")
              (Sample.configured None)) = [Sample.acme] /\
  ~ one_privileged
      (getUsers (startup (Json "success" Sample.remote_users_only "")
                   (Sample.configured None))).
Proof.
  split; [| split].
  - exists INITIAL_ADMIN. split; reflexivity.
  - reflexivity.
  - intros (a & Ha & _). discriminate.
Qed.

(** * Further properties of the client *)

(** ** The pull *)

(** X1: [syncDown] reports success exactly when an endpoint is configured and
    the response is an object with result ['success'] that carries data;
    whenever it reports failure the store is as it was. *)
Theorem syncDown_failure_leaves_store (resp : Response) (w : World) :
  (r_success (fst (BMS_Cloud.syncDown resp w)) = true <->
     cloud_url w <> "" /\ exists data error, resp = Json "success" data error) /\
  (r_success (fst (BMS_Cloud.syncDown resp w)) = false ->
     localStorage (snd (BMS_Cloud.syncDown resp w)) = localStorage w).
Proof.
  unfold BMS_Cloud.syncDown.
  destruct (JS.truthy (cloud_url w)) eqn:Hurl; simpl.
  - apply truthy_iff in Hurl.
    destruct resp as [e | result data error | result error typeError]; simpl.
    + split; [| reflexivity].
      split; [discriminate | intros (_ & data & error & H); discriminate].
    + destruct (String.eqb_spec result "success") as [-> | Hne]; simpl.
      * split; [| discriminate]. split; eauto.
      * split; [| reflexivity].
        split; [discriminate |].
        intros (_ & data' & error' & [= H _ _]). contradiction.
    + split; [| destruct (String.eqb result "success"); reflexivity].
      split; [| intros (_ & data & error' & H); discriminate].
      destruct (String.eqb result "success"); discriminate.
  - split; [| reflexivity].
    split; [discriminate |]. intros (Hne & _).
    apply truthy_iff in Hne. congruence.
Qed.

Lemma syncDown_failure_witness :
  localStorage (snd (BMS_Cloud.syncDown
                       (Json "error" Sample.partial_snapshot "quota exceeded")
                       (Sample.online (Some Sample.acme))))
    = Sample.store (Some Sample.acme) /\
  BMS_Cloud.syncDown
    (JsonWithoutData "success" "undefined"
       "TypeError: Cannot read properties of undefined (reading 'ims_users')")
    (Sample.online (Some Sample.acme))
    = (mkResult false
         (Some "Network/Sync Error: TypeError: Cannot read properties of undefined (reading 'ims_users')"),
       issue (GET "https://sheet.example/exec") (Sample.online (Some Sample.acme))).
Proof.
  split; [| reflexivity].
  apply (syncDown_failure_leaves_store
           (Json "error" Sample.partial_snapshot "quota exceeded")
           (Sample.online (Some Sample.acme))).
  reflexivity.
Defined.

Lemma applySnapshot_frame (data : Snapshot) (s : LocalStorage) :
  ims_current_user (BMS_Cloud.applySnapshot data s) = ims_current_user s /\
  ims_cloud_url (BMS_Cloud.applySnapshot data s) = ims_cloud_url s.
Proof.
  unfold BMS_Cloud.applySnapshot. split; frame_snapshot; reflexivity.
Qed.

(** X2: whatever the response, [syncDown] leaves the session and the
    endpoint alone (the entry of the current user, the saved endpoint and
    the gateway's [url]), and the requests it issues are one [GET] to the
    endpoint when one is configured and none otherwise. *)
Theorem syncDown_footprint (resp : Response) (w : World) :
  let w' := snd (BMS_Cloud.syncDown resp w) in
  getCurrentUser w' = getCurrentUser w /\
  ims_cloud_url (localStorage w') = ims_cloud_url (localStorage w) /\
  cloud_url w' = cloud_url w /\
  requests w'
    = requests w ++ (if decide (cloud_url w = "") then [] else [GET (cloud_url w)]).
Proof.
  cbv zeta. unfold getCurrentUser.
  unfold BMS_Cloud.syncDown.
  destruct (JS.truthy (cloud_url w)) eqn:Hurl; simpl.
  - apply truthy_iff in Hurl. rewrite decide_False by exact Hurl.
    destruct resp as [e | result data error | result error typeError]; simpl;
      [auto | | destruct (String.eqb result "success"); simpl; auto].
    destruct (String.eqb result "success"); simpl; [| auto].
    destruct (applySnapshot_frame data (localStorage w)) as [-> ->]. auto.
  - assert (cloud_url w = "") as Hempty.
    { destruct (decide (cloud_url w = "")) as [H | H]; [exact H |].
      apply truthy_iff in H. congruence. }
    rewrite decide_True by exact Hempty. rewrite app_nil_r.
    destruct resp; auto.
Qed.

(** X3: what a successful pull does to a banner.  A remote value that is a
    non-empty string replaces the local banner.  So does a remote value that
    is truthy and not a string, by its string form: the empty array the
    backend sends for a banner whose sheet is missing blanks the local
    banner.  A remote value that is absent, the empty string or otherwise
    falsy leaves the local banner as it was.  The two banners are handled
    independently. *)
Theorem syncDown_banners (w : World) (data : Snapshot) (error : string) :
  cloud_url w <> "" ->
  let s' := localStorage (snd (BMS_Cloud.syncDown (Json "success" data error) w)) in
  ims_banner s'
    = match d_banner data with
      | Text b => if decide (b = "") then ims_banner (localStorage w) else Some b
      | Other true as_string => Some as_string
      | Other false _ | NoSetting => ims_banner (localStorage w)
      end /\
  ims_vertical_banner s'
    = match d_vertical_banner data with
      | Text b =>
          if decide (b = "") then ims_vertical_banner (localStorage w) else Some b
      | Other true as_string => Some as_string
      | Other false _ | NoSetting => ims_vertical_banner (localStorage w)
      end.
Proof.
  intros Hurl. apply truthy_iff in Hurl.
  cbv zeta. rewrite syncDown_storage, Hurl. simpl.
  unfold BMS_Cloud.applySnapshot.
  assert (forall b, JS.truthy b = if decide (b = "") then false else true) as Htruthy.
  { intros b. unfold JS.truthy.
    destruct (decide (b = "")) as [-> | Hne]; [reflexivity |].
    apply String.eqb_neq in Hne. now rewrite Hne. }
  split.
  - frame_snapshot.
    destruct (d_banner data) as [| b | [] text]; simpl; frame_snapshot;
      try reflexivity.
    rewrite Htruthy. destruct (decide (b = "")); simpl; frame_snapshot; reflexivity.
  - destruct (d_vertical_banner data) as [| b | [] text]; simpl; frame_snapshot;
      try reflexivity.
    rewrite Htruthy. destruct (decide (b = "")); simpl; frame_snapshot; reflexivity.
Qed.

Lemma syncDown_banners_witness :
  getBanner (snd (setBanner "https://img.example/top.png" (Sample.online None)))
    = "https://img.example/top.png" /\
  ims_banner
    (localStorage
       (snd (BMS_Cloud.syncDown (Json "success" Sample.empty_sheets "")
               (snd (setBanner "https://img.example/top.png" (Sample.online None))))))
    = Some "" /\
  ims_banner
    (localStorage
       (snd (BMS_Cloud.syncDown
               (Json "success"
                  (mkSnapshot Missing Missing Missing Missing Missing
                     (Text "https://img.example/new.png") (Text "")) "")
               (Sample.online None))))
    = Some "https://img.example/new.png".
Proof.
  split; [reflexivity |]. split.
  - destruct (syncDown_banners
                (snd (setBanner "https://img.example/top.png" (Sample.online None)))
                Sample.empty_sheets "") as [Hb _]; [discriminate |].
    rewrite Hb. reflexivity.
  - destruct (syncDown_banners (Sample.online None)
                (mkSnapshot Missing Missing Missing Missing Missing
                   (Text "https://img.example/new.png") (Text "")) "")
      as [Hb _]; [discriminate |].
    rewrite Hb. reflexivity.
Defined.

(** ** Cache initialisation *)

Lemma List_filter_idempotent {A : Type} (f : A -> bool) (l : list A) :
  List.filter f (List.filter f l) = List.filter f l.
Proof.
  induction l as [| a l IH]; simpl; [reflexivity |].
  destruct (f a) eqn:Hfa; simpl; [rewrite Hfa; f_equal |]; exact IH.
Qed.

(** The store [initStorage] produces, entry by entry. *)
Lemma initStorage_entries (s : LocalStorage) :
  initStorage s
    = mkStorage
        (Some (INITIAL_ADMIN
                 :: List.filter (fun u => negb (String.eqb (u_id u) "admin_001"))
                      (JS.or_else (ims_users s) [])))
        (Some (JS.or_else (ims_inventory s) []))
        (Some (JS.or_else (ims_sales s) []))
        (Some (JS.or_else (ims_purchases s) []))
        (Some (JS.or_else (ims_expenses s) []))
        (ims_current_user s)
        (Some match ims_banner s with
              | Some b => if JS.truthy b then b else ""
              | None => ""
              end)
        (ims_vertical_banner s)
        (ims_cloud_url s).
Proof.
  destruct s as [us [inv |] [sa |] [pu |] [ex |] cu [b |] vb url];
    try (destruct (JS.truthy b) eqn:Hb; unfold initStorage;
         cbn [ims_inventory ims_sales ims_purchases ims_expenses ims_banner
              ims_users ims_current_user ims_vertical_banner ims_cloud_url
              setUsers setInventory setSales setPurchases setExpenses
              setBannerEntry JS.or_else];
         rewrite Hb);
    reflexivity.
Qed.

(** X4: [initStorage] is idempotent: running it on a store it has produced
    changes nothing. *)
Theorem initStorage_idempotent (s : LocalStorage) :
  initStorage (initStorage s) = initStorage s.
Proof.
  rewrite (initStorage_entries (initStorage s)).
  rewrite !(initStorage_entries s).
  cbn [ims_inventory ims_sales ims_purchases ims_expenses ims_banner
       ims_users ims_current_user ims_vertical_banner ims_cloud_url JS.or_else].
  assert (List.filter (fun u => negb (String.eqb (u_id u) "admin_001"))
            (INITIAL_ADMIN
               :: List.filter (fun u => negb (String.eqb (u_id u) "admin_001"))
                    (JS.or_else (ims_users s) []))
          = List.filter (fun u => negb (String.eqb (u_id u) "admin_001"))
              (JS.or_else (ims_users s) [])) as ->.
  { change (List.filter _ (INITIAL_ADMIN :: ?l)) with (List.filter
      (fun u => negb (String.eqb (u_id u) "admin_001")) l).
    apply List_filter_idempotent. }
  f_equal. f_equal. destruct (ims_banner s) as [b |]; [| reflexivity].
  destruct (JS.truthy b) eqn:Hb; [now rewrite Hb | reflexivity].
Qed.

(** X5: [initStorage] loses no tenant data: every table already stored, the
    current user, the vertical banner and the saved endpoint are kept, and
    so are, in their order, all users that do not carry the reserved id. *)
Theorem initStorage_keeps_data (s : LocalStorage) :
  (forall l, ims_inventory s = Some l -> ims_inventory (initStorage s) = Some l) /\
  (forall l, ims_sales s = Some l -> ims_sales (initStorage s) = Some l) /\
  (forall l, ims_purchases s = Some l -> ims_purchases (initStorage s) = Some l) /\
  (forall l, ims_expenses s = Some l -> ims_expenses (initStorage s) = Some l) /\
  ims_current_user (initStorage s) = ims_current_user s /\
  ims_vertical_banner (initStorage s) = ims_vertical_banner s /\
  ims_cloud_url (initStorage s) = ims_cloud_url s /\
  filter (fun u => u_id u <> "admin_001") (JS.or_else (ims_users (initStorage s)) [])
    = filter (fun u => u_id u <> "admin_001") (JS.or_else (ims_users s) []).
Proof.
  assert (forall l : list User,
            filter (fun u => u_id u <> "admin_001")
              (filter (fun u => u_id u <> "admin_001") l)
            = filter (fun u => u_id u <> "admin_001") l) as Hidem.
  { induction l as [| a l IH]; [reflexivity |].
    rewrite filter_cons. destruct (decide (u_id a <> "admin_001")) as [Ha | Ha].
    - rewrite filter_cons_True by exact Ha. now rewrite IH.
    - exact IH. }
  split; [| split; [| split; [| split; [| split; [| split; [| split]]]]]].
  - intros l Hl. rewrite initStorage_entries, Hl. reflexivity.
  - intros l Hl. rewrite initStorage_entries, Hl. reflexivity.
  - intros l Hl. rewrite initStorage_entries, Hl. reflexivity.
  - intros l Hl. rewrite initStorage_entries, Hl. reflexivity.
  - now rewrite initStorage_entries.
  - now rewrite initStorage_entries.
  - now rewrite initStorage_entries.
  - rewrite initStorage_users. cbn [JS.or_else].
    rewrite filter_cons_False by (intros H; now apply H).
    apply Hidem.
Qed.

Lemma initStorage_keeps_data_witness :
  ims_inventory (initStorage (Sample.store None))
    = Some [Sample.gadget; Sample.widget].
Proof.
  destruct (initStorage_keeps_data (Sample.store None)) as (Hinv & _).
  apply Hinv. reflexivity.
Defined.

(** X6: a password reset of the record with the reserved id does not survive
    the next initialisation: the users table after [initStorage] is the one
    [initStorage] would have produced without the reset. *)
Theorem admin_password_reset_is_undone (newPassword : string) (w : World) :
  ims_users (initStorage (localStorage
               (snd (resetPassword "admin_001" newPassword w))))
    = ims_users (initStorage (localStorage w)).
Proof.
  rewrite !initStorage_users. do 2 f_equal.
  unfold resetPassword.
  destruct (JS.find _ (getUsers w)) as [[i u] |] eqn:Hfind; [| reflexivity].
  apply find_Some in Hfind as (Hi & Hid & _). apply String.eqb_eq in Hid.
  store_of_world. simpl.
  apply filter_insert_dropped with u; [exact Hi | |]; simpl; auto.
Qed.

(** X7: in a store that [initStorage] has produced, [updateUserStatus] on
    the reserved id is refused whatever the new status, ['Delete'] included:
    it returns [false] and changes nothing. *)
Theorem updateUserStatus_spares_admin (s : LocalStorage) (url : string)
    (log : list Request) (newStatus : string) :
  updateUserStatus "admin_001" newStatus (mkWorld (initStorage s) url log)
    = (false, mkWorld (initStorage s) url log).
Proof.
  unfold updateUserStatus, getUsers. simpl.
  rewrite initStorage_users. reflexivity.
Qed.

(** ** Authentication *)

Lemma or_empty (s : string) : (if JS.truthy s then s else "") = s.
Proof.
  unfold JS.truthy. destruct (String.eqb_spec s "") as [-> | Hne]; reflexivity.
Qed.

Lemma find_app_last {A : Type} (p : A -> bool) (l : list A) (x : A) :
  JS.find p l = None -> p x = true -> JS.find p (l ++ [x]) = Some (length l, x).
Proof.
  intros Hnone Hx. induction l as [| a l IH]; simpl in *.
  - now rewrite Hx.
  - destruct (p a); [discriminate |].
    destruct (JS.find p l) as [[i y] |]; [discriminate |].
    now rewrite IH.
Qed.

Section Authentication.
Context `{E : JS.Engine}.

(** X8: [login] looks at its three inputs only after trimming them: white
    space around the company name, the customer name or the password makes
    no difference to the result or to the store. *)
Theorem login_ignores_surrounding_space (username customerName password : string)
    (w : World) :
  login username customerName password w
    = login (JS.trim username) (JS.trim customerName) (JS.trim password) w.
Proof. unfold login. now rewrite !JS.trim_idempotent. Qed.

(** X9: [login] succeeds only on an approved record of the users table whose
    username and contact person equal the trimmed inputs up to letter case
    and whose password equals the trimmed input exactly; it then stores that
    record as the current user and touches nothing else.  A failed [login]
    changes nothing. *)
Theorem login_sound (username customerName password : string) (w w' : World)
    (r : LoginResult) :
  login username customerName password w = JS.Return (r, w') ->
  (l_success r = true ->
     exists x, x ∈ getUsers w /\
       same_up_to_case (u_username x) (JS.trim username) /\
       same_up_to_case (u_contactPerson x) (JS.trim customerName) /\
       u_password x = JS.trim password /\
       u_status x = "Approved" /\
       l_user r = Some x /\
       w' = with_storage (setCurrentUser (Some x)) w) /\
  (l_success r = false -> w' = w /\ l_user r = None).
Proof.
  unfold login, getUsers.
  destruct (ims_users (localStorage w)) as [users |]; [| discriminate].
  destruct (JS.find _ users) as [[i x] |] eqn:Hfind.
  - apply find_Some in Hfind as (Hi & Hname & _).
    apply String.eqb_eq in Hname. rewrite or_empty.
    destruct (String.eqb_spec (JS.toLowerCase (u_contactPerson x))
                (JS.toLowerCase (JS.trim customerName))) as [Hcontact | _]; simpl;
      [| intros [= <- <-]; split; [discriminate | auto]].
    destruct (String.eqb_spec (u_password x) (JS.trim password)) as [Hpw | _];
      simpl; [| intros [= <- <-]; split; [discriminate | auto]].
    destruct (String.eqb_spec (u_status x) "Approved") as [Hst | _]; simpl;
      intros [= <- <-]; (split; [| try discriminate; auto]).
    + intros _. exists x. repeat split; auto.
      apply list_elem_of_lookup. now exists i.
    + discriminate.
  - intros [= <- <-]. split; [discriminate | auto].
Qed.

(** The users table and the rest of the world after a registration that is
    not a duplicate. *)
Lemma register_fresh (now : Z) (companyName contactPerson password : string)
    (w : World) (users : list User) :
  ims_users (localStorage w) = Some users ->
  (forall u, u ∈ users -> ~ same_up_to_case (u_username u) companyName) ->
  let newUser := mkUser ("user_" +:+ JS.toString now) companyName companyName
                   contactPerson password ROLES.USER "Pending" in
  JS.find (fun u => String.eqb (JS.toLowerCase (u_username u))
                      (JS.toLowerCase companyName)) users = None /\
  localStorage (exec (Register now companyName contactPerson password) w)
    = setUsers (Some (users ++ [newUser])) (localStorage w).
Proof.
  intros Husers Hfresh newUser.
  assert (JS.find (fun u => String.eqb (JS.toLowerCase (u_username u))
                              (JS.toLowerCase companyName)) users = None) as Hnone.
  { apply find_None. intros u Hu. apply String.eqb_neq. now apply Hfresh. }
  split; [exact Hnone |].
  simpl. unfold register. rewrite Husers, Hnone.
  store_of_world. reflexivity.
Qed.

(** X10: a tenant that has just registered cannot log in yet: with the same
    company name, contact person and password (none of them with white space
    around it) [login] answers ['Account not approved yet'] and leaves the
    world as the registration left it. *)
Theorem registered_tenant_waits_for_approval (now : Z)
    (companyName contactPerson password : string) (w : World)
    (users : list User) :
  ims_users (localStorage w) = Some users ->
  (forall u, u ∈ users -> ~ same_up_to_case (u_username u) companyName) ->
  JS.trim companyName = companyName ->
  JS.trim contactPerson = contactPerson ->
  JS.trim password = password ->
  let w1 := exec (Register now companyName contactPerson password) w in
  login companyName contactPerson password w1
    = JS.Return (mkLoginResult false (Some "Account not approved yet") None, w1).
Proof.
  intros Husers Hfresh Hc Hp Hpw w1.
  destruct (register_fresh now companyName contactPerson password w users
              Husers Hfresh) as [Hnone Hst].
  fold w1 in Hst. unfold login. rewrite Hc, Hp, Hpw, Hst. simpl.
  rewrite (find_app_last _ _ _ Hnone) by (simpl; apply String.eqb_refl).
  simpl. rewrite or_empty, !String.eqb_refl. reflexivity.
Qed.


(** A string equal to a trimmed one up to letter case is itself trimmed. *)
Lemma trimmed_up_to_case (a b : string) :
  same_up_to_case a b -> JS.trim b = b -> JS.trim a = a.
Proof.
  unfold same_up_to_case. intros Hab Hb.
  apply JS.trimmed_toLowerCase.
  now rewrite Hab, JS.trim_toLowerCase, Hb.
Qed.

(** X12: [login] never lets in a record whose username, contact person or
    password begins or ends with white space, whatever is typed; [register]
    stores the three as they are given, so a registration with such a value
    can never log in. *)
Theorem login_rejects_untrimmed (username customerName password : string)
    (w w' : World) (r : LoginResult) (x : User) :
  login username customerName password w = JS.Return (r, w') ->
  l_user r = Some x ->
  JS.trim (u_username x) = u_username x /\
  JS.trim (u_contactPerson x) = u_contactPerson x /\
  JS.trim (u_password x) = u_password x.
Proof.
  unfold login.
  destruct (ims_users (localStorage w)) as [users |]; [| discriminate].
  destruct (JS.find _ users) as [[i y] |] eqn:Hfind;
    [| intros [= <- <-]; discriminate].
  apply find_Some in Hfind as (_ & Hname & _). apply String.eqb_eq in Hname.
  rewrite or_empty.
  destruct (String.eqb_spec (JS.toLowerCase (u_contactPerson y))
              (JS.toLowerCase (JS.trim customerName))) as [Hcontact | _]; simpl;
    [| intros [= <- <-]; discriminate].
  destruct (String.eqb_spec (u_password y) (JS.trim password)) as [Hpw | _];
    simpl; [| intros [= <- <-]; discriminate].
  destruct (String.eqb (u_status y) "Approved"); simpl;
    intros [= <- <-]; [| discriminate].
  intros [= <-]. repeat split.
  - apply trimmed_up_to_case with (JS.trim username);
      [exact Hname | apply JS.trim_idempotent].
  - apply trimmed_up_to_case with (JS.trim customerName);
      [exact Hcontact | apply JS.trim_idempotent].
  - rewrite Hpw. apply JS.trim_idempotent.
Qed.

(** X13: [logout] removes the current user and nothing else; afterwards the
    four reads are empty, the financial summary is zero, and [addStock],
    [processSale] and [addExpense] refuse and change nothing, until somebody
    logs in. *)
Theorem logout_closes_session (w : World) :
  let w' := snd (logout w) in
  w' = with_storage (setCurrentUser None) w /\
  getInventory w' = [] /\ getSales w' = [] /\
  getPurchases w' = [] /\ getExpenses w' = [] /\
  getFinancialSummary w' = mkSummary 0 0 0 /\
  (forall t_pur iso t_inv vendor category brand model quantity cost paymentType,
     addStock t_pur iso t_inv vendor category brand model quantity cost
       paymentType w' = (false, w')) /\
  (forall now iso itemName quantity price,
     processSale now iso itemName quantity price w'
       = (mkResult false (Some "Not logged in"), w')) /\
  (forall now today name amount date,
     addExpense now today name amount date w' = (false, w')).
Proof. cbv zeta. repeat split. Qed.

End Authentication.

Lemma login_sound_witness :
  exists w', login " acme " "ANN" "secret  " (Sample.offline None)
               = JS.Return (mkLoginResult true None (Some Sample.acme), w') /\
             getCurrentUser w' = Some Sample.acme.
Proof.
  eexists. split; [reflexivity |].
  destruct (login_sound (E := Sample.engine) " acme " "ANN" "secret  " (Sample.offline None) _ _ eq_refl)
    as [Hok _].
  destruct (Hok eq_refl) as (x & _ & _ & _ & _ & _ & [= Hx] & _).
  reflexivity.
Defined.

Lemma registered_tenant_witness :
  login "Initech" "Zed" "pw"
      (exec (Register 1700000006000 "Initech" "Zed" "pw") (Sample.offline None))
    = JS.Return (mkLoginResult false (Some "Account not approved yet") None,
                 exec (Register 1700000006000 "Initech" "Zed" "pw")
                   (Sample.offline None)).
Proof.
  apply (registered_tenant_waits_for_approval 1700000006000 "Initech" "Zed" "pw"
           (Sample.offline None) _ eq_refl); try reflexivity.
  intros u Hu.
  repeat (apply elem_of_cons in Hu as [-> | Hu]; [discriminate |]).
  inversion Hu.
Defined.


Lemma login_rejects_untrimmed_witness :
  JS.trim (u_password Sample.acme) = u_password Sample.acme.
Proof.
  apply (login_rejects_untrimmed (E := Sample.engine) " acme " "ANN" "secret  "
           (Sample.offline None) _ _ Sample.acme eq_refl eq_refl).
Defined.

(** ** What holds after any sequence of client operations *)

Lemma pushRecord_requests (key : string) (data : RecordData) (w : World) :
  requests (BMS_Cloud.pushRecord key data w)
    = requests w ++
      (if decide (cloud_url w = "") then []
       else [POST (cloud_url w) (mkPayload "save_record" key data)]).
Proof.
  unfold BMS_Cloud.pushRecord, JS.truthy.
  destruct (String.eqb_spec (cloud_url w) "") as [He | Hne]; simpl.
  - rewrite decide_True by exact He. now rewrite app_nil_r.
  - rewrite decide_False by exact Hne. reflexivity.
Qed.

Lemma pushRecord_url (key : string) (data : RecordData) (w : World) :
  cloud_url (BMS_Cloud.pushRecord key data w) = cloud_url w.
Proof.
  unfold BMS_Cloud.pushRecord. destruct (negb (JS.truthy (cloud_url w))); reflexivity.
Qed.

Lemma pushRecord_accepted (key : string) (data : RecordData) (w : World) :
  (key, sheet_of data) ∈ Backend.KEY_MAP ->
  match data with DSetting k _ => k = key | _ => True end ->
  Forall accepted (requests w) ->
  Forall accepted (requests (BMS_Cloud.pushRecord key data w)).
Proof.
  intros Hkey Hdata Hlog. rewrite pushRecord_requests.
  apply Forall_app. split; [exact Hlog |].
  destruct (decide (cloud_url w = "")); constructor; [| constructor].
  simpl. auto.
Qed.

Ltac key_in_map := apply (bool_decide_unpack _); vm_compute; exact I.

Ltac accepted_log :=
  repeat first
    [ assumption
    | apply pushRecord_accepted; [key_in_map | first [exact I | reflexivity] |]
    | progress cbn [requests with_storage fst snd] ].

Lemma syncDown_accepted (resp : Response) (w : World) :
  Forall accepted (requests w) ->
  Forall accepted (requests (snd (BMS_Cloud.syncDown resp w))).
Proof.
  intros Hlog. unfold BMS_Cloud.syncDown.
  destruct (negb (JS.truthy (cloud_url w))); [exact Hlog |].
  assert (Forall accepted (requests w ++ [GET (cloud_url w)])) as Hget.
  { apply Forall_app. split; [exact Hlog | repeat constructor]. }
  destruct resp as [e | result data error | result error typeError];
    [exact Hget | |];
    destruct (String.eqb result "success"); exact Hget.
Qed.

Lemma syncDown_users_present (resp : Response) (w : World) :
  is_Some (ims_users (localStorage w)) ->
  is_Some (ims_users (localStorage (snd (BMS_Cloud.syncDown resp w)))).
Proof.
  intros Hu. rewrite syncDown_storage.
  destruct resp as [e | result data error | result error typeError];
    [exact Hu | | exact Hu].
  destruct (_ && _); [| exact Hu].
  destruct (applySnapshot_tables data (localStorage w)) as (-> & _).
  destruct (d_users data) as [| t | [| x l]]; simpl; eauto.
Qed.

Ltac users_present :=
  repeat first
    [ rewrite pushRecord_storage
    | progress cbn [localStorage with_storage fst snd ims_users setUsers
                      setInventory setSales setPurchases setExpenses
                      setCurrentUser setBannerEntry setVerticalBannerEntry
                      setCloudUrl BMS_Cloud.setUrl] ];
  eauto.

Section ClientOperations.
Context `{E : JS.Engine}.

Lemma exec_accepted (op : ClientOp) (w : World) :
  Forall accepted (requests w) -> Forall accepted (requests (exec op w)).
Proof.
  intros Hlog. destruct op as [u c p | | now cn cp pw | uid pw | uid st | url | url
                              | url | [tp iso ti v cat b m q cost pay | now iso name q price]
                              | now today name amount date | resp | ]; simpl.
  - unfold login. destruct (ims_users (localStorage w)); [| exact Hlog].
    destruct (JS.find _ _) as [[i x] |]; [| exact Hlog].
    repeat match goal with
           | |- context [if ?b then _ else _] => destruct b
           end; accepted_log.
  - exact Hlog.
  - unfold register. destruct (ims_users (localStorage w)); [| exact Hlog].
    destruct (JS.find _ _) as [[i x] |]; accepted_log.
  - unfold resetPassword. destruct (JS.find _ _) as [[i x] |]; accepted_log.
  - unfold updateUserStatus. destruct (JS.find _ _) as [[i x] |]; [| exact Hlog].
    destruct (negb _); [| exact Hlog].
    destruct (String.eqb st "Delete"); accepted_log.
  - accepted_log.
  - accepted_log.
  - exact Hlog.
  - unfold addStock. destruct (getCurrentUser w); [| exact Hlog].
    destruct (JS.find _ _) as [[i x] |]; accepted_log.
  - unfold processSale. destruct (getCurrentUser w); [| exact Hlog].
    destruct (JS.find _ _) as [[i x] |]; [| exact Hlog].
    destruct (_ <? _)%float; accepted_log.
  - unfold addExpense. destruct (getCurrentUser w); accepted_log.
  - now apply syncDown_accepted.
  - constructor.
Qed.

(** X14: every request the client issues is one the backend has a place
    for.  After any sequence of client operations from a page load, each
    request in the log is the pull, or a [save_record] whose key is a key of
    the backend's [KEY_MAP] that names the sheet of the pushed record, a
    banner being pushed as a setting that carries its own key. *)
Theorem client_requests_are_accepted (s : LocalStorage) (ops : list ClientOp) :
  Forall accepted (requests (execs ops (constructor s))).
Proof.
  assert (forall w, Forall accepted (requests w) ->
            Forall accepted (requests (execs ops w))) as Hall.
  { unfold execs. induction ops as [| op ops IH]; intros w Hlog; simpl;
      [exact Hlog |]. now apply IH, exec_accepted. }
  apply Hall. constructor.
Qed.

Lemma exec_users_present (op : ClientOp) (w : World) :
  is_Some (ims_users (localStorage w)) ->
  is_Some (ims_users (localStorage (exec op w))).
Proof.
  intros Hu. pose proof Hu as [users Hus].
  destruct op as [u c p | | now cn cp pw | uid pw | uid st | url | url
                 | url | [tp iso ti v cat b m q cost pay | now iso name q price]
                 | now today name amount date | resp | ]; simpl.
  - unfold login. rewrite Hus.
    destruct (JS.find _ _) as [[i x] |]; [| exact Hu].
    repeat match goal with
           | |- context [if ?b then _ else _] => destruct b
           end; users_present.
  - exact Hu.
  - unfold register. rewrite Hus.
    destruct (JS.find _ _) as [[i x] |]; users_present.
  - unfold resetPassword. destruct (JS.find _ _) as [[i x] |]; users_present.
  - unfold updateUserStatus. destruct (JS.find _ _) as [[i x] |]; [| exact Hu].
    destruct (negb _); [| exact Hu].
    destruct (String.eqb st "Delete"); users_present.
  - users_present.
  - users_present.
  - exact Hu.
  - unfold addStock. destruct (getCurrentUser w); [| exact Hu].
    destruct (JS.find _ _) as [[i x] |]; users_present.
  - unfold processSale. destruct (getCurrentUser w); [| exact Hu].
    destruct (JS.find _ _) as [[i x] |]; [| exact Hu].
    destruct (_ <? _)%float; users_present.
  - unfold addExpense. destruct (getCurrentUser w); users_present.
  - now apply syncDown_users_present.
  - rewrite initStorage_users. eauto.
Qed.

(** X15: the users entry never goes missing.  [login] and [register] read
    it without a default and throw on a store that has none; once the
    constructor has run, the entry is present, and it stays present whatever
    client operations follow, pulls and reloads included. *)
Theorem users_entry_stays_present (s : LocalStorage) (ops : list ClientOp) :
  exists users,
    ims_users (localStorage (execs ops (constructor s))) = Some users.
Proof.
  assert (forall w, is_Some (ims_users (localStorage w)) ->
            is_Some (ims_users (localStorage (execs ops w)))) as Hall.
  { unfold execs. induction ops as [| op ops IH]; intros w Hu; simpl;
      [exact Hu |]. now apply IH, exec_users_present. }
  apply Hall. simpl. rewrite initStorage_users. eauto.
Qed.

(** The two calls on a store without a users entry. *)
Example login_throws_without_users :
  login "Acme" "Ann" "secret"
      (mkWorld (mkStorage None None None None None None None None None) "" [])
    = JS.Throw "TypeError" /\
  register 1700000006000 "Acme" "Ann" "secret"
      (mkWorld (mkStorage None None None None None None None None None) "" [])
    = JS.Throw "TypeError".
Proof. split; reflexivity. Qed.

End ClientOperations.

(** ** Settings *)

(** X16: settings survive a reload.  A banner set with [setBanner] is what
    [getBanner] returns, at once and after the constructor has run again on
    the stored entries; [setVerticalBanner] does not change it; and an
    endpoint set with [setUrl] is the endpoint of the gateway the next
    constructor builds. *)
Theorem settings_survive_reload (url : string) (w : World) :
  getBanner (snd (setBanner url w)) = url /\
  getBanner (constructor (localStorage (snd (setBanner url w)))) = url /\
  getBanner (snd (setVerticalBanner url w)) = getBanner w /\
  BMS_Cloud.getUrl (BMS_Cloud.setUrl url w) = url /\
  BMS_Cloud.getUrl (constructor (localStorage (BMS_Cloud.setUrl url w))) = url.
Proof.
  assert (forall s, getBanner (constructor s)
                    = match ims_banner s with
                      | Some b => if JS.truthy b then b else ""
                      | None => ""
                      end) as Hinit.
  { intros s. unfold getBanner, constructor. cbn [localStorage].
    rewrite initStorage_entries. cbn [ims_banner].
    destruct (ims_banner s) as [b |]; [| reflexivity].
    destruct (JS.truthy b) eqn:Hb; [now rewrite Hb | reflexivity]. }
  repeat split.
  - unfold getBanner, setBanner. store_of_world. simpl. apply or_empty.
  - rewrite Hinit. unfold setBanner. store_of_world. simpl. apply or_empty.
  - unfold getBanner, setVerticalBanner. store_of_world. reflexivity.
  - unfold constructor, BMS_Cloud.getUrl, BMS_Cloud.constructor. simpl.
    apply or_empty.
Qed.

(** ** Writes of business records *)

Lemma filter_other_owner {A : Type} (owner : A -> string) (mine name : string)
    (l : list A) :
  Forall (fun x => owner x = mine) l -> mine <> name ->
  filter (fun x => owner x = name) l = [].
Proof.
  intros Hall Hne. induction Hall as [| x l Hx Hall IH]; [reflexivity |].
  rewrite filter_cons_False by congruence. exact IH.
Qed.

Lemma reduce_sum_snoc {A : Type} (f : A -> float) (l : list A) (x : A) :
  JS.reduce_sum f (l ++ [x]) = (JS.reduce_sum f l + f x)%float.
Proof. unfold JS.reduce_sum. now rewrite fold_left_app. Qed.

Lemma pushRecord_online (key : string) (data : RecordData) (w : World) :
  cloud_url w <> "" ->
  BMS_Cloud.pushRecord key data w
    = issue (POST (cloud_url w) (mkPayload "save_record" key data)) w.
Proof.
  intros Hurl. apply truthy_iff in Hurl.
  unfold BMS_Cloud.pushRecord. now rewrite Hurl.
Qed.

Ltac ledger_unchanged :=
  exists []; rewrite app_nil_r; split; [reflexivity | constructor].

Ltac ledger_grown :=
  eexists [_]; split; [reflexivity | constructor; [reflexivity | constructor]].

Ltac online :=
  repeat first
    [ rewrite pushRecord_url
    | progress cbn [cloud_url with_storage issue] ];
  assumption.

Section BusinessRecords.
Context `{E : JS.Engine}.

Lemma same_item_owner (T : User) (itemName : string) (inv : list InventoryItem)
    (ix : nat) (item : InventoryItem) :
  JS.find (same_item T itemName) inv = Some (ix, item) ->
  inv !! ix = Some item /\ i_owner item = u_username T /\
  item_key item = (u_username T, JS.toLowerCase itemName).
Proof.
  intros Hfind. apply find_Some in Hfind as (Hix & Hsame & _).
  apply same_item_matches in Hsame as [Ho Hn].
  unfold item_key. rewrite Ho, Hn. auto.
Qed.

Lemma no_item_fresh_key (T : User) (itemName : string) (inv : list InventoryItem) :
  JS.find (same_item T itemName) inv = None ->
  (u_username T, JS.toLowerCase itemName) ∉ (item_key <$> inv).
Proof.
  intros Hnone Hin. apply list_elem_of_fmap in Hin as (y & Hkey & Hy).
  pose proof (proj1 (find_None _ _) Hnone y Hy) as Hsame.
  apply same_item_not_matches in Hsame. apply Hsame.
  unfold item_key in Hkey. injection Hkey as Ho Hn. split; congruence.
Qed.

(** What one write of business records by tenant [T] does to the store. *)
Lemma domain_write_summary (op : ClientOp) (w : World) (T : User) :
  domain_write op ->
  getCurrentUser w = Some T ->
  let w' := exec op w in
  getCurrentUser w' = Some T /\
  getUsers w' = getUsers w /\
  (allInventory w' = allInventory w \/
   (exists ix item q, allInventory w !! ix = Some item /\
      i_owner item = u_username T /\
      allInventory w' = <[ix := set_quantity q item]> (allInventory w)) \/
   (exists new, i_owner new = u_username T /\
      ~ (item_key new ∈ (item_key <$> allInventory w)) /\
      allInventory w' = allInventory w ++ [new])) /\
  (exists ss, allSales w' = allSales w ++ ss /\
     Forall (fun s => s_owner s = u_username T) ss) /\
  (exists ps, allPurchases w' = allPurchases w ++ ps /\
     Forall (fun p => p_owner p = u_username T) ps) /\
  (exists es, allExpenses w' = allExpenses w ++ es /\
     Forall (fun e => e_owner e = u_username T) es).
Proof.
  intros Hop HT. cbv zeta.
  destruct op as [| | | | | | | | [tp iso ti v cat b m q cost pay | now iso name q price]
                 | now today name amount date | |]; try contradiction;
    cbn [exec step].
  - pose proof (addStock_store tp iso ti v cat b m q cost pay w T HT) as Hst.
    cbv zeta in Hst. set (w' := snd (addStock _ _ _ _ _ _ _ _ _ _ w)) in *.
    unfold getCurrentUser, getUsers, allInventory, allSales, allPurchases,
      allExpenses in *.
    rewrite Hst.
    cbn [ims_current_user ims_users ims_inventory ims_sales ims_purchases
         ims_expenses setInventory setPurchases JS.or_else].
    split; [exact HT |]. split; [reflexivity |].
    split; [| split; [ledger_unchanged | split; [ledger_grown | ledger_unchanged]]].
    destruct (JS.find _ _) as [[ix item] |] eqn:Hfind.
    + apply same_item_owner in Hfind as (Hix & Ho & _).
      right; left. eexists ix, item, _. eauto.
    + apply no_item_fresh_key in Hfind.
      right; right. eexists. split; [| split; [| reflexivity]].
      * reflexivity.
      * exact Hfind.
  - pose proof (processSale_store now iso name q price w T HT) as Hst.
    set (w' := snd (processSale _ _ _ _ _ w)) in *.
    unfold getCurrentUser, getUsers, allInventory, allSales, allPurchases,
      allExpenses in *.
    rewrite Hst.
    destruct (JS.find _ _) as [[ix item] |] eqn:Hfind;
      [destruct (_ <? _)%float |];
      cbn [ims_current_user ims_users ims_inventory ims_sales ims_purchases
           ims_expenses setInventory setSales JS.or_else];
      (split; [exact HT |]); (split; [reflexivity |]);
      try (split; [left; reflexivity |];
           split; [ledger_unchanged | split; ledger_unchanged]).
    apply same_item_owner in Hfind as (Hix & Ho & _).
    split; [right; left; eexists ix, item, _; eauto |].
    split; [ledger_grown | split; ledger_unchanged].
  - pose proof (addExpense_store now today name amount date w T HT) as Hst.
    set (w' := snd (addExpense _ _ _ _ _ w)) in *.
    unfold getCurrentUser, getUsers, allInventory, allSales, allPurchases,
      allExpenses in *.
    rewrite Hst.
    cbn [ims_current_user ims_users ims_inventory ims_sales ims_purchases
         ims_expenses setExpenses JS.or_else].
    split; [exact HT |]. split; [reflexivity |].
    split; [left; reflexivity |].
    split; [ledger_unchanged | split; [ledger_unchanged | ledger_grown]].
Qed.

Lemma domain_write_logged_out (op : ClientOp) (w : World) :
  domain_write op -> getCurrentUser w = None -> exec op w = w.
Proof.
  intros Hop Hnone.
  destruct op as [| | | | | | | | [tp iso ti v cat b m q cost pay | now iso name q price]
                 | now today name amount date | |]; try contradiction; simpl.
  - unfold addStock. now rewrite Hnone.
  - unfold processSale. now rewrite Hnone.
  - unfold addExpense. now rewrite Hnone.
Qed.

Lemma domain_write_user (op : ClientOp) (w : World) :
  domain_write op -> getCurrentUser (exec op w) = getCurrentUser w.
Proof.
  intros Hop. destruct (getCurrentUser w) as [T |] eqn:HT.
  - destruct (domain_write_summary op w T Hop HT) as (Hu & _). now rewrite Hu.
  - now rewrite (domain_write_logged_out op w Hop HT).
Qed.

Lemma domain_write_isolated (op : ClientOp) (w : World) (name : string) :
  domain_write op ->
  (forall T, getCurrentUser w = Some T -> u_username T <> name) ->
  filter (fun i => i_owner i = name) (allInventory (exec op w))
    = filter (fun i => i_owner i = name) (allInventory w) /\
  filter (fun s => s_owner s = name) (allSales (exec op w))
    = filter (fun s => s_owner s = name) (allSales w) /\
  filter (fun p => p_owner p = name) (allPurchases (exec op w))
    = filter (fun p => p_owner p = name) (allPurchases w) /\
  filter (fun e => e_owner e = name) (allExpenses (exec op w))
    = filter (fun e => e_owner e = name) (allExpenses w).
Proof.
  intros Hop Hother. destruct (getCurrentUser w) as [T |] eqn:HT;
    [| now rewrite (domain_write_logged_out op w Hop HT)].
  specialize (Hother T eq_refl).
  destruct (domain_write_summary op w T Hop HT)
    as (_ & _ & Hinv & (ss & -> & Hss) & (ps & -> & Hps) & (es & -> & Hes)).
  rewrite !filter_app.
  rewrite (filter_other_owner s_owner _ _ ss Hss Hother).
  rewrite (filter_other_owner p_owner _ _ ps Hps Hother).
  rewrite (filter_other_owner e_owner _ _ es Hes Hother).
  rewrite !app_nil_r. repeat split.
  destruct Hinv as [-> | [(ix & item & q & Hix & Ho & ->) | (new & Ho & _ & ->)]].
  - reflexivity.
  - apply filter_insert_dropped with item; [exact Hix | |]; simpl; congruence.
  - rewrite filter_app, filter_cons_False, filter_nil, app_nil_r by congruence.
    reflexivity.
Qed.

(** X17: writes stay with their owner.  Whatever [addStock], [processSale]
    and [addExpense] calls the active tenant makes, the records of every
    other owner, in each of the four tables, are afterwards exactly what
    they were, and the users table is untouched. *)
Theorem writes_stay_with_owner (ops : list ClientOp) (w : World) (name : string) :
  Forall domain_write ops ->
  (forall T, getCurrentUser w = Some T -> u_username T <> name) ->
  filter (fun i => i_owner i = name) (allInventory (execs ops w))
    = filter (fun i => i_owner i = name) (allInventory w) /\
  filter (fun s => s_owner s = name) (allSales (execs ops w))
    = filter (fun s => s_owner s = name) (allSales w) /\
  filter (fun p => p_owner p = name) (allPurchases (execs ops w))
    = filter (fun p => p_owner p = name) (allPurchases w) /\
  filter (fun e => e_owner e = name) (allExpenses (execs ops w))
    = filter (fun e => e_owner e = name) (allExpenses w).
Proof.
  unfold execs. intros Hops. revert w.
  induction Hops as [| op ops Hop Hops IH]; intros w Hother; simpl; [auto |].
  destruct (domain_write_isolated op w name Hop Hother) as (<- & <- & <- & <-).
  apply IH. now rewrite domain_write_user.
Qed.

(** X18: the ledgers are append-only and stock items are never removed or
    rewritten.  After any [addStock], [processSale] and [addExpense] calls
    the old sales, purchases and expenses tables are prefixes of the new
    ones, and every inventory item is still at its position with the same
    id, owner, name and [avgCost]: only its quantity may differ. *)
Theorem ledgers_are_append_only (ops : list ClientOp) (w : World) :
  Forall domain_write ops ->
  allSales w `prefix_of` allSales (execs ops w) /\
  allPurchases w `prefix_of` allPurchases (execs ops w) /\
  allExpenses w `prefix_of` allExpenses (execs ops w) /\
  (forall ix item, allInventory w !! ix = Some item ->
     exists q, allInventory (execs ops w) !! ix = Some (set_quantity q item)).
Proof.
  unfold execs. intros Hops. revert w.
  induction Hops as [| op ops Hop Hops IH]; intros w; simpl.
  - repeat split; try reflexivity.
    intros ix [id o n q c] Hix. exists q. exact Hix.
  - destruct (IH (exec op w)) as (Hs & Hp & He & Hi).
    assert (allSales w `prefix_of` allSales (exec op w) /\
            allPurchases w `prefix_of` allPurchases (exec op w) /\
            allExpenses w `prefix_of` allExpenses (exec op w) /\
            forall ix item, allInventory w !! ix = Some item ->
              exists q, allInventory (exec op w) !! ix = Some (set_quantity q item))
      as (Hs1 & Hp1 & He1 & Hi1).
    { assert (forall ix (item : InventoryItem) (l : list InventoryItem),
                l !! ix = Some item ->
                exists q, l !! ix = Some (set_quantity q item)) as Hkeep.
      { intros ix [id o n q c] l Hix. exists q. exact Hix. }
      destruct (getCurrentUser w) as [T |] eqn:HT.
      - destruct (domain_write_summary op w T Hop HT)
          as (_ & _ & Hinv & (ss & -> & _) & (ps & -> & _) & (es & -> & _)).
        repeat split; try (apply prefix_app_r; reflexivity).
        intros ix item Hix.
        destruct Hinv as [-> | [(jx & it & q & Hjx & _ & ->) | (new & _ & _ & ->)]].
        + now apply Hkeep.
        + destruct (decide (jx = ix)) as [-> | Hne].
          * exists q. rewrite list_lookup_insert_eq by (eapply lookup_lt_Some; eauto).
            congruence.
          * rewrite list_lookup_insert_ne by exact Hne. now apply Hkeep.
        + apply Hkeep. now apply lookup_app_l_Some.
      - rewrite (domain_write_logged_out op w Hop HT).
        repeat split; try reflexivity. intros; now apply Hkeep. }
    repeat split; try (etransitivity; eassumption).
    intros ix item Hix.
    destruct (Hi1 ix item Hix) as (q1 & Hq1).
    destruct (Hi ix _ Hq1) as (q2 & Hq2). exists q2. exact Hq2.
Qed.

(** X19: no two stock items of one owner have the same name up to letter
    case, if that was so before: [addStock] and [processSale] find an item
    by that key and [addStock] appends a new item only when none is found. *)
Theorem stock_keys_stay_unique (ops : list ClientOp) (w : World) :
  Forall domain_write ops ->
  NoDup (item_key <$> allInventory w) ->
  NoDup (item_key <$> allInventory (execs ops w)).
Proof.
  unfold execs. intros Hops. revert w.
  induction Hops as [| op ops Hop Hops IH]; intros w Hnd; simpl; [exact Hnd |].
  apply IH. destruct (getCurrentUser w) as [T |] eqn:HT;
    [| now rewrite (domain_write_logged_out op w Hop HT)].
  destruct (domain_write_summary op w T Hop HT) as (_ & _ & Hinv & _).
  destruct Hinv as [-> | [(ix & item & q & Hix & _ & ->) | (new & _ & Hfresh & ->)]].
  - exact Hnd.
  - rewrite list_fmap_insert.
    rewrite list_insert_id; [exact Hnd |].
    rewrite list_lookup_fmap, Hix. reflexivity.
  - rewrite fmap_app. apply NoDup_app. split; [exact Hnd |]. split.
    + intros k Hk Hin. apply list_elem_of_singleton in Hin. subst k.
      now apply Hfresh.
    + apply NoDup_singleton.
Qed.

(** X20: for an active tenant without the Admin role, [addExpense] raises
    [totalExpenses] by [parseFloat(amount)] and a successful [processSale]
    raises [totalSales] by [parseInt(quantity) * parseFloat(price)], each as
    JSON holds it: a number that is NaN or infinite is stored as [null] and
    adds nothing.  The other total is unchanged and [netProfit] is again the
    difference of the two. *)
Theorem summary_follows_writes (w : World) (T : User) :
  active_tenant w T ->
  let ts := totalSales (getFinancialSummary w) in
  let te := totalExpenses (getFinancialSummary w) in
  (forall now today name amount date,
     let added := JS.num (JS.json (JS.parseFloat amount)) in
     getFinancialSummary (snd (addExpense now today name amount date w))
       = mkSummary ts (te + added) (ts - (te + added))) /\
  (forall now iso itemName quantity price w',
     processSale now iso itemName quantity price w = (mkResult true None, w') ->
     let added := JS.num (JS.json (JS.parseInt quantity * JS.parseFloat price)) in
     getFinancialSummary w' = mkSummary (ts + added) te (ts + added - te)).
Proof.
  intros HT ts te. pose proof HT as [Huser Hrole].
  destruct (reads_of_active_tenant w T HT) as (_ & Hs & _ & He).
  assert (ts = JS.reduce_sum (fun s => JS.num (s_total s))
                 (filter (fun s => s_owner s = u_username T) (allSales w))) as Hts
    by (unfold ts, getFinancialSummary; simpl; now rewrite Hs).
  assert (te = JS.reduce_sum (fun e => JS.num (e_amount e))
                 (filter (fun e => e_owner e = u_username T) (allExpenses w))) as Hte
    by (unfold te, getFinancialSummary; simpl; now rewrite He).
  clearbody ts te. split.
  - intros now today name amount date. cbv zeta.
    pose proof (addExpense_store now today name amount date w T Huser) as Hst.
    set (w' := snd (addExpense _ _ _ _ _ w)) in *.
    assert (active_tenant w' T) as HT'.
    { split; [| exact Hrole]. now rewrite Hst. }
    destruct (reads_of_active_tenant w' T HT') as (_ & Hs' & _ & He').
    assert (allSales w' = allSales w) as Hsales
      by (unfold allSales; now rewrite Hst).
    unfold getFinancialSummary. rewrite Hs', He', Hsales.
    unfold allExpenses at 1 2. rewrite Hst. cbn [ims_expenses setExpenses JS.or_else].
    rewrite filter_app, filter_cons_True, filter_nil by reflexivity.
    rewrite reduce_sum_snoc. cbn [e_amount]. now rewrite <- Hts, <- Hte.
  - intros now iso itemName quantity price w' Hrun. cbv zeta.
    pose proof (processSale_store now iso itemName quantity price w T Huser) as Hst.
    pose proof (processSale_result now iso itemName quantity price w T Huser) as Hres.
    rewrite Hrun in Hst, Hres. cbn [fst snd] in Hst, Hres.
    destruct (JS.find _ (allInventory w)) as [[ix item] |]; [| discriminate].
    destruct (_ <? _)%float; [discriminate |]. clear Hres Hrun.
    assert (active_tenant w' T) as HT'.
    { split; [| exact Hrole]. now rewrite Hst. }
    destruct (reads_of_active_tenant w' T HT') as (_ & Hs' & _ & He').
    assert (allExpenses w' = allExpenses w) as Hexps
      by (unfold allExpenses; now rewrite Hst).
    unfold getFinancialSummary. rewrite Hs', He', Hexps.
    unfold allSales at 1 2. rewrite Hst. cbn [ims_sales setSales JS.or_else].
    rewrite filter_app, filter_cons_True, filter_nil by reflexivity.
    rewrite reduce_sum_snoc. cbn [s_total]. now rewrite <- Hts, <- Hte.
Qed.

(** X21: stock writes are pushed record by record.  With an endpoint
    configured, [addStock] issues exactly two requests, the new purchase and
    then the stock item as it now stands in the table, and a successful
    [processSale] issues exactly two, the reduced stock item and then the new
    sale; each is posted to the endpoint under the key of its table. *)
Theorem stock_writes_are_pushed (w : World) (T : User) :
  cloud_url w <> "" ->
  getCurrentUser w = Some T ->
  (forall t_pur iso t_inv vendor category brand model quantity cost paymentType,
     let w' := snd (addStock t_pur iso t_inv vendor category brand model
                      quantity cost paymentType w) in
     exists p item,
       requests w'
         = requests w ++
           [POST (cloud_url w) (mkPayload "save_record" DB_KEYS.PURCHASES (DPurchase p));
            POST (cloud_url w) (mkPayload "save_record" DB_KEYS.INVENTORY (DItem item))] /\
       last (allPurchases w') = Some p /\
       item ∈ allInventory w' /\
       item_key item = (u_username T, JS.toLowerCase (brand +:+ " " +:+ model))) /\
  (forall now iso itemName quantity price w',
     processSale now iso itemName quantity price w = (mkResult true None, w') ->
     exists item sale,
       requests w'
         = requests w ++
           [POST (cloud_url w) (mkPayload "save_record" DB_KEYS.INVENTORY (DItem item));
            POST (cloud_url w) (mkPayload "save_record" DB_KEYS.SALES (DSale sale))] /\
       item ∈ allInventory w' /\
       item_key item = (u_username T, JS.toLowerCase itemName) /\
       last (allSales w') = Some sale).
Proof.
  intros Hurl HT. split.
  - intros t_pur iso t_inv vendor category brand model quantity cost paymentType.
    cbv zeta. unfold addStock. rewrite HT.
    destruct (JS.find _ (allInventory w)) as [[ix item] |] eqn:Hfind.
    + apply same_item_owner in Hfind as (Hix & Ho & Hkey).
      rewrite !pushRecord_online by online.
      eexists _, _. cbn [snd requests issue with_storage cloud_url].
      rewrite <- app_assoc. split; [reflexivity |].
      unfold allPurchases at 1, allInventory at 1.
      cbn [localStorage issue with_storage ims_purchases ims_inventory
           setInventory setPurchases JS.or_else].
      split; [apply last_snoc |]. split; [| exact Hkey].
      apply list_elem_of_lookup. exists ix.
      apply list_lookup_insert_eq. eapply lookup_lt_Some; eauto.
    + rewrite !pushRecord_online by online.
      eexists _, _. cbn [snd requests issue with_storage cloud_url].
      rewrite <- app_assoc. split; [reflexivity |].
      unfold allPurchases at 1, allInventory at 1.
      cbn [localStorage issue with_storage ims_purchases ims_inventory
           setInventory setPurchases JS.or_else].
      split; [apply last_snoc |]. split; [| reflexivity].
      apply list_elem_of_lookup. eexists. apply list_lookup_middle. reflexivity.
  - intros now iso itemName quantity price w'. unfold processSale. rewrite HT.
    destruct (JS.find _ (allInventory w)) as [[ix item] |] eqn:Hfind;
      [| discriminate].
    destruct (_ <? _)%float; [discriminate |].
    apply same_item_owner in Hfind as (Hix & Ho & Hkey).
    rewrite !pushRecord_online by online.
    intros [= <-]. eexists _, _. cbn [requests issue with_storage cloud_url].
    rewrite <- app_assoc. split; [reflexivity |].
    unfold allSales at 1, allInventory at 1.
    cbn [localStorage issue with_storage ims_sales ims_inventory
         setInventory setSales JS.or_else].
    split; [| split; [exact Hkey | apply last_snoc]].
    apply list_elem_of_lookup. exists ix.
    apply list_lookup_insert_eq. eapply lookup_lt_Some; eauto.
Qed.

(** X27: the stock check of [processSale] looks at the quantity as it is
    passed, and what the sale takes off is [parseInt] of it.  Whenever the
    item's quantity is not below the quantity passed, the sale goes through
    and the item is left with its quantity less [parseInt(quantity)],
    whatever that comes to. *)
Theorem processSale_checks_what_is_passed (now : Z) (iso itemName : string)
    (quantity price : JS.value) (w : World) (T : User) (ix : nat)
    (item : InventoryItem) :
  ims_current_user (localStorage w) = Some T ->
  matching_item T itemName (raw_table (ims_inventory (localStorage w))) ix item ->
  (JS.num (i_quantity item) <? JS.toNumber quantity)%float = false ->
  fst (processSale now iso itemName quantity price w) = mkResult true None /\
  ims_inventory (localStorage (snd (processSale now iso itemName quantity price w)))
    = Some (<[ix := mkItem (i_id item) (i_owner item) (i_itemName item)
                      (JS.json (JS.num (i_quantity item) - JS.parseInt quantity))
                      (i_avgCost item)]>
              (raw_table (ims_inventory (localStorage w)))).
Proof.
  intros HT Hm Hcheck.
  pose proof (processSale_result now iso itemName quantity price w T HT) as Hres.
  pose proof (processSale_store now iso itemName quantity price w T HT) as Hst.
  apply find_matching_item in Hm.
  change (raw_table (ims_inventory (localStorage w))) with (allInventory w) in *.
  rewrite Hm, Hcheck in Hres, Hst.
  split; [exact Hres |]. now rewrite Hst.
Qed.

End BusinessRecords.

Lemma writes_stay_with_owner_witness :
  filter (fun i => i_owner i = "Globex")
    (allInventory (execs (Stock <$> Sample.trading_day)
                     (Sample.offline (Some Sample.acme))))
    = [Sample.gadget].
Proof.
  destruct (writes_stay_with_owner (Stock <$> Sample.trading_day)
              (Sample.offline (Some Sample.acme)) "Globex") as (Hinv & _).
  - repeat constructor.
  - intros T [= <-]. discriminate.
  - rewrite Hinv. reflexivity.
Defined.

Lemma ledgers_are_append_only_witness :
  allInventory (execs (Stock <$> Sample.trading_day)
                  (Sample.offline (Some Sample.acme))) !! 1%nat
    = Some (mkItem "inv_1700000001000" "Acme" "Widget A" (Some 4%float)
              (Some 2.5%float)).
Proof.
  destruct (ledgers_are_append_only (Stock <$> Sample.trading_day)
              (Sample.offline (Some Sample.acme))) as (_ & _ & _ & Hinv).
  - repeat constructor.
  - destruct (Hinv 1%nat Sample.widget eq_refl) as (q & Hq).
    rewrite Hq. vm_compute in Hq. injection Hq as <-. reflexivity.
Defined.

Lemma stock_keys_stay_unique_witness :
  NoDup (item_key <$> allInventory (execs (Stock <$> Sample.trading_day)
                                      (Sample.fresh (Some Sample.acme)))).
Proof.
  apply stock_keys_stay_unique.
  - repeat constructor.
  - constructor.
Defined.

Lemma summary_follows_writes_witness :
  getFinancialSummary
    (snd (addExpense 1700000010000 "2023-11-15" "Power" Sample.two ""
            (Sample.offline (Some Sample.acme))))
    = mkSummary 10 6 4 /\
  getFinancialSummary
    (snd (addExpense 1700000010000 "2023-11-15" "Power" Sample.blank ""
            (Sample.offline (Some Sample.acme))))
    = mkSummary 10 4 6.
Proof.
  destruct (summary_follows_writes (Sample.offline (Some Sample.acme)) Sample.acme)
    as [Hexp _].
  - split; [reflexivity | discriminate].
  - rewrite !Hexp. split; reflexivity.
Defined.

Lemma stock_writes_are_pushed_witness :
  length (requests (snd (addStock 1700000007000 "2023-11-14T22:50:00.000Z"
                           1700000007001 "Vendor" "Tools" "Widget" "A"
                           Sample.five Sample.three "Cash"
                           (Sample.online (Some Sample.acme))))) = 2%nat.
Proof.
  destruct (stock_writes_are_pushed (Sample.online (Some Sample.acme)) Sample.acme)
    as [Hadd _]; [discriminate | reflexivity |].
  destruct (Hadd 1700000007000 "2023-11-14T22:50:00.000Z" 1700000007001
              "Vendor" "Tools" "Widget" "A" Sample.five Sample.three "Cash")
    as (p & item & Hlog & _).
  rewrite Hlog. reflexivity.
Defined.


(** With ten widgets in stock, a sale of [5e-7] takes five off, and a sale
    of ['12abc'] passes the check and leaves the stock at [-2]. *)
Lemma processSale_checks_what_is_passed_witness :
  ims_inventory
    (localStorage
       (snd (processSale 1700000008000 "2023-11-14T23:06:40.000Z" "widget a"
               Sample.half_a_millionth Sample.five
               (Sample.offline (Some Sample.acme)))))
    = Some [Sample.gadget;
            mkItem "inv_1700000001000" "Acme" "Widget A" (Some 5%float)
              (Some 2.5%float)] /\
  ims_inventory
    (localStorage
       (snd (processSale 1700000008000 "2023-11-14T23:06:40.000Z" "widget a"
               Sample.twelve_abc Sample.five
               (Sample.offline (Some Sample.acme)))))
    = Some [Sample.gadget;
            mkItem "inv_1700000001000" "Acme" "Widget A" (Some (-2)%float)
              (Some 2.5%float)].
Proof.
  assert (matching_item Sample.acme "widget a"
            (raw_table (ims_inventory (localStorage (Sample.offline (Some Sample.acme)))))
            1 Sample.widget) as Hmatch.
  { repeat split. intros [| j] y Hy Hj; [| lia].
    injection Hy as <-. intros [Ho _]. discriminate. }
  split.
  - destruct (processSale_checks_what_is_passed (E := Sample.engine)
                1700000008000 "2023-11-14T23:06:40.000Z" "widget a"
                Sample.half_a_millionth Sample.five
                (Sample.offline (Some Sample.acme)) Sample.acme 1%nat
                Sample.widget eq_refl Hmatch eq_refl) as [_ Hinv].
    rewrite Hinv. reflexivity.
  - destruct (processSale_checks_what_is_passed (E := Sample.engine)
                1700000008000 "2023-11-14T23:06:40.000Z" "widget a"
                Sample.twelve_abc Sample.five
                (Sample.offline (Some Sample.acme)) Sample.acme 1%nat
                Sample.widget eq_refl Hmatch eq_refl) as [_ Hinv].
    rewrite Hinv. reflexivity.
Defined.

(** ** The users table *)

Lemma find_insert_same {A : Type} (p : A -> bool) (l : list A) (i : nat) (x x' : A) :
  JS.find p l = Some (i, x) -> p x' = true ->
  JS.find p (<[i := x']> l) = Some (i, x').
Proof.
  intros Hfind Hx'. apply find_Some in Hfind as (Hi & _ & Hmin).
  apply find_Some. split; [| split; [exact Hx' |]].
  - apply list_lookup_insert_eq. eapply lookup_lt_Some; eauto.
  - intros j y Hy Hj. rewrite list_lookup_insert_ne in Hy by lia. eauto.
Qed.

Lemma find_app_middle {A : Type} (p : A -> bool) (l k : list A) (x : A) :
  JS.find p l = None -> p x = true ->
  JS.find p (l ++ x :: k) = Some (length l, x).
Proof.
  intros Hnone Hx. induction l as [| a l IH]; simpl in *.
  - now rewrite Hx.
  - destruct (p a); [discriminate |].
    destruct (JS.find p l) as [[i y] |]; [discriminate |].
    now rewrite IH.
Qed.

Section UsersTable.
Context `{E : JS.Engine}.

(** What an operation other than a pull or a reload does to the users
    table: nothing, or it appends a record with a new username key, or it
    replaces a record by one with the same id and username, or it deletes
    one record. *)
Lemma local_op_users (op : ClientOp) (w : World) :
  stays_local op ->
  getUsers (exec op w) = getUsers w \/
  (exists new, ~ (user_key new ∈ (user_key <$> getUsers w)) /\
     getUsers (exec op w) = getUsers w ++ [new]) \/
  (exists i u u', getUsers w !! i = Some u /\ user_key u' = user_key u /\
     u_id u' = u_id u /\ getUsers (exec op w) = <[i := u']> (getUsers w)) \/
  (exists i, getUsers (exec op w) = delete i (getUsers w)).
Proof.
  intros Hop.
  destruct op as [u c p | | now cn cp pw | uid pw | uid st | url | url
                 | url | sop | now today name amount date | resp | ];
    try contradiction; cbn [exec].
  - left. unfold login.
    destruct (ims_users (localStorage w)); [| reflexivity].
    destruct (JS.find _ _) as [[i x] |]; [| reflexivity].
    repeat match goal with
           | |- context [if ?b then _ else _] => destruct b
           end; reflexivity.
  - left. reflexivity.
  - unfold register.
    destruct (ims_users (localStorage w)) as [users |] eqn:Husers;
      [| left; reflexivity].
    destruct (JS.find _ users) as [[i x] |] eqn:Hfind; [left; reflexivity |].
    right; left. eexists.
    unfold getUsers. store_of_world. rewrite Husers. cbn [JS.or_else ims_users setUsers].
    split; [| reflexivity]. intros Hin.
    apply list_elem_of_fmap in Hin as (y & Hkey & Hy).
    pose proof (proj1 (find_None _ _) Hfind y Hy) as Hne.
    apply String.eqb_neq in Hne. apply Hne. symmetry. exact Hkey.
  - unfold resetPassword.
    destruct (JS.find _ (getUsers w)) as [[i x] |] eqn:Hfind; [| left; reflexivity].
    apply find_Some in Hfind as (Hi & _ & _).
    right; right; left. exists i, x, (set_password pw x).
    split; [exact Hi |]. split; [reflexivity |]. split; [reflexivity |].
    unfold getUsers at 1. store_of_world. reflexivity.
  - unfold updateUserStatus.
    destruct (JS.find _ (getUsers w)) as [[i x] |] eqn:Hfind; [| left; reflexivity].
    apply find_Some in Hfind as (Hi & _ & _).
    destruct (negb _); [| left; reflexivity].
    destruct (String.eqb st "Delete").
    + right; right; right. exists i. reflexivity.
    + right; right; left. exists i, x, (set_status st x).
      split; [exact Hi |]. split; [reflexivity |]. split; [reflexivity |].
      unfold getUsers at 1. store_of_world. reflexivity.
  - left. unfold setBanner, getUsers. store_of_world. reflexivity.
  - left. unfold setVerticalBanner, getUsers. store_of_world. reflexivity.
  - left. reflexivity.
  - left. change (step sop w) with (exec (Stock sop) w).
    destruct (getCurrentUser w) as [T |] eqn:HT.
    + now destruct (domain_write_summary (Stock sop) w T I HT) as (_ & -> & _).
    + now rewrite (domain_write_logged_out (Stock sop) w I HT).
  - left.
    change (snd (addExpense now today name amount date w))
      with (exec (AddExpense now today name amount date) w).
    destruct (getCurrentUser w) as [T |] eqn:HT.
    + now destruct (domain_write_summary (AddExpense now today name amount date)
                      w T I HT) as (_ & -> & _).
    + now rewrite (domain_write_logged_out (AddExpense now today name amount date)
                     w I HT).
Qed.

(** X22: usernames stay unique up to letter case.  If no two users of the
    table have the same lower-cased username, this is still so after any
    sequence of client operations that does not pull or reload: [register]
    appends only a new name, and [resetPassword] and [updateUserStatus]
    never change a name. *)
Theorem usernames_stay_unique (ops : list ClientOp) (w : World) :
  Forall stays_local ops ->
  NoDup (user_key <$> getUsers w) ->
  NoDup (user_key <$> getUsers (execs ops w)).
Proof.
  unfold execs. intros Hops. revert w.
  induction Hops as [| op ops Hop Hops IH]; intros w Hnd; simpl; [exact Hnd |].
  apply IH.
  destruct (local_op_users op w Hop)
    as [-> | [(new & Hfresh & ->) | [(i & u & u' & Hi & Hkey & _ & ->) | (i & ->)]]].
  - exact Hnd.
  - rewrite fmap_app. apply NoDup_app. split; [exact Hnd |]. split.
    + intros k Hk Hin. apply list_elem_of_singleton in Hin. subst k.
      now apply Hfresh.
    + apply NoDup_singleton.
  - rewrite list_fmap_insert, Hkey.
    rewrite list_insert_id; [exact Hnd |].
    rewrite list_lookup_fmap, Hi. reflexivity.
  - rewrite list_fmap_delete.
    eapply sublist_NoDup; [exact Hnd | apply sublist_delete].
Qed.

(** X24: a password reset takes effect at the next login.  For an approved
    user that is the first record with its id and the first with its
    username, and whose names and new password have no white space around
    them: after [resetPassword] the user logs in with the new password, and
    every other password is answered ['Incorrect Password.']. *)
Theorem reset_password_takes_effect (w : World) (users : list User) (i : nat)
    (u : User) (newPassword : string) :
  ims_users (localStorage w) = Some users ->
  users !! i = Some u ->
  (forall j y, users !! j = Some y -> (j < i)%nat ->
     u_id y <> u_id u /\ ~ same_up_to_case (u_username y) (u_username u)) ->
  u_status u = "Approved" ->
  JS.trim (u_username u) = u_username u ->
  JS.trim (u_contactPerson u) = u_contactPerson u ->
  JS.trim newPassword = newPassword ->
  let w1 := snd (resetPassword (u_id u) newPassword w) in
  let u' := set_password newPassword u in
  login (u_username u) (u_contactPerson u) newPassword w1
    = JS.Return (mkLoginResult true None (Some u'),
                 with_storage (setCurrentUser (Some u')) w1) /\
  (forall password, JS.trim password <> newPassword ->
     login (u_username u) (u_contactPerson u) password w1
       = JS.Return (mkLoginResult false (Some "Incorrect Password.") None, w1)).
Proof.
  intros Husers Hi Hfirst Hst Hn Hc Hpw w1 u'.
  assert (JS.find (fun y => String.eqb (u_id y) (u_id u)) users = Some (i, u))
    as Hbyid.
  { apply find_Some. split; [exact Hi |]. split; [apply String.eqb_refl |].
    intros j y Hy Hj. apply String.eqb_neq. now apply (Hfirst j y). }
  assert (JS.find (fun y => String.eqb (JS.toLowerCase (u_username y))
                              (JS.toLowerCase (u_username u))) users
          = Some (i, u)) as Hbyname.
  { apply find_Some. split; [exact Hi |]. split; [apply String.eqb_refl |].
    intros j y Hy Hj. apply String.eqb_neq. now apply (Hfirst j y). }
  assert (localStorage w1 = setUsers (Some (<[i := u']> users)) (localStorage w))
    as Hst1.
  { unfold w1, resetPassword, getUsers. rewrite Husers. cbn [JS.or_else].
    rewrite Hbyid. store_of_world. reflexivity. }
  assert (JS.find (fun y => String.eqb (JS.toLowerCase (u_username y))
                              (JS.toLowerCase (u_username u))) (<[i := u']> users)
          = Some (i, u')) as Hfind'.
  { apply find_insert_same with u; [exact Hbyname | apply String.eqb_refl]. }
  split.
  - unfold login. rewrite Hn, Hc, Hpw, Hst1. cbn [ims_users setUsers].
    rewrite Hfind'. cbn [u' set_password u_contactPerson u_password u_status].
    rewrite or_empty, !String.eqb_refl, Hst. reflexivity.
  - intros password Hother.
    unfold login. rewrite Hn, Hc, Hst1. cbn [ims_users setUsers].
    rewrite Hfind'. cbn [u' set_password u_contactPerson u_password u_status].
    rewrite or_empty, String.eqb_refl. cbn [negb].
    destruct (String.eqb_spec newPassword (JS.trim password)) as [He | _];
      [exfalso; apply Hother; now symmetry | reflexivity].
Qed.

(** X25: identifiers come from the clock and are not unique.  Two
    registrations that read the same [Date.now()] get the same id, and
    [updateUserStatus] on that id then reaches the earlier of the two only:
    the first is approved and the second stays pending. *)
Theorem same_tick_registrations_share_an_id (now : Z)
    (company1 contact1 password1 company2 contact2 password2 : string)
    (w : World) (users : list User) :
  ims_users (localStorage w) = Some users ->
  (forall u, u ∈ users ->
     ~ same_up_to_case (u_username u) company1 /\
     ~ same_up_to_case (u_username u) company2 /\
     u_id u <> "user_" +:+ JS.toString now) ->
  ~ same_up_to_case company1 company2 ->
  getUsers (execs [Register now company1 contact1 password1;
                   Register now company2 contact2 password2;
                   UpdateUserStatus ("user_" +:+ JS.toString now) "Approved"] w)
    = users ++
      [mkUser ("user_" +:+ JS.toString now) company1 company1 contact1 password1
         ROLES.USER "Approved";
       mkUser ("user_" +:+ JS.toString now) company2 company2 contact2 password2
         ROLES.USER "Pending"].
Proof.
  intros Husers Hfresh Hdiff.
  set (id := "user_" +:+ JS.toString now).
  set (u1 := mkUser id company1 company1 contact1 password1 ROLES.USER "Pending").
  set (u2 := mkUser id company2 company2 contact2 password2 ROLES.USER "Pending").
  destruct (register_fresh now company1 contact1 password1 w users Husers)
    as [_ Hst1]; [intros u Hu; now apply (Hfresh u) |].
  set (w1 := exec (Register now company1 contact1 password1) w) in *.
  assert (ims_users (localStorage w1) = Some (users ++ [u1])) as Husers1
    by now rewrite Hst1.
  destruct (register_fresh now company2 contact2 password2 w1 (users ++ [u1])
              Husers1) as [_ Hst2].
  { intros u Hu. apply elem_of_app in Hu as [Hu | Hu].
    - now apply (Hfresh u).
    - apply list_elem_of_singleton in Hu. subst u. exact Hdiff. }
  set (w2 := exec (Register now company2 contact2 password2) w1) in *.
  assert (JS.find (fun u => String.eqb (u_id u) id) users = None) as Hnoid.
  { apply find_None. intros u Hu. apply String.eqb_neq. now apply (Hfresh u). }
  unfold execs. cbn [fold_left]. fold w1. fold w2. cbn [exec].
  unfold updateUserStatus, getUsers at 2. rewrite Hst2, Hst1.
  cbn [ims_users setUsers JS.or_else]. rewrite <- app_assoc. cbn [app].
  rewrite (find_app_middle _ _ _ _ Hnoid) by (cbn [u_id u1]; apply String.eqb_refl).
  cbn [u_role u1 negb].
  replace (String.eqb ROLES.USER ROLES.ADMIN) with false by reflexivity.
  replace (String.eqb "Approved" "Delete") with false by reflexivity.
  cbn [negb snd]. unfold getUsers. store_of_world.
  rewrite Hst2, Hst1. cbn [ims_users setUsers JS.or_else].
  rewrite <- app_assoc. cbn [app].
  rewrite insert_app_r_alt, Nat.sub_diag by lia. reflexivity.
Qed.

End UsersTable.

Lemma usernames_stay_unique_witness :
  NoDup (user_key <$> getUsers
           (execs [Register 1700000006000 "Initech" "Zed" "pw";
                   Register 1700000006500 "INITECH" "Yan" "pw2";
                   UpdateUserStatus "user_1700000006000" "Approved";
                   ResetPassword "user_1700000000500" "s3cret"]
              (Sample.offline None))).
Proof.
  apply usernames_stay_unique.
  - repeat constructor.
  - apply (bool_decide_unpack _). vm_compute. exact I.
Defined.

Lemma reset_password_witness :
  exists w',
    login "Acme" "Ann" "n3w"
      (snd (resetPassword "user_1700000000000" "n3w" (Sample.offline None)))
    = JS.Return (mkLoginResult true None
                   (Some (set_password "n3w" Sample.acme)), w').
Proof.
  eexists.
  apply (reset_password_takes_effect (E := Sample.engine) (Sample.offline None)
           _ 1%nat Sample.acme "n3w" eq_refl eq_refl); try reflexivity.
  intros [| j] y Hy Hj; [| lia].
  injection Hy as <-. split; discriminate.
Defined.

Lemma same_tick_registrations_witness :
  getUsers
    (execs [Register 1700000006000 "Initech" "Zed" "pw";
            Register 1700000006000 "Hooli" "Yan" "pw2";
            UpdateUserStatus "user_1700000006000" "Approved"]
       (Sample.offline None))
    = [INITIAL_ADMIN; Sample.acme; Sample.globex;
       mkUser "user_1700000006000" "Initech" "Initech" "Zed" "pw" "User" "Approved";
       mkUser "user_1700000006000" "Hooli" "Hooli" "Yan" "pw2" "User" "Pending"].
Proof.
  apply (same_tick_registrations_share_an_id (E := Sample.engine) 1700000006000
           "Initech" "Zed" "pw" "Hooli" "Yan" "pw2" (Sample.offline None) _ eq_refl).
  - intros u Hu.
    repeat (apply elem_of_cons in Hu as [-> | Hu];
            [repeat split; discriminate |]).
    inversion Hu.
  - discriminate.
Defined.

(** X23: a deletion stays local.  [updateUserStatus] with ['Delete'] issues
    no request, whether or not it deletes and whether or not an endpoint is
    configured; so the next successful pull that brings a non-empty users
    table puts back exactly what the remote holds. *)
Theorem deletion_is_local_only (userId : string) (w : World) :
  let w1 := snd (updateUserStatus userId "Delete" w) in
  requests w1 = requests w /\
  cloud_url w1 = cloud_url w /\
  (forall data error l,
     cloud_url w <> "" -> d_users data = Array l -> l <> [] ->
     getUsers (snd (BMS_Cloud.syncDown (Json "success" data error) w1)) = l).
Proof.
  cbv zeta.
  assert (requests (snd (updateUserStatus userId "Delete" w)) = requests w /\
          cloud_url (snd (updateUserStatus userId "Delete" w)) = cloud_url w)
    as [Hlog Hurl].
  { unfold updateUserStatus.
    destruct (JS.find _ (getUsers w)) as [[i x] |]; [| auto].
    destruct (negb _); auto. }
  split; [exact Hlog |]. split; [exact Hurl |].
  intros data error l Hon Hdata Hne.
  set (w1 := snd (updateUserStatus userId "Delete" w)) in *.
  unfold getUsers. rewrite syncDown_storage, Hurl.
  apply truthy_iff in Hon. rewrite Hon.
  change (true && String.eqb "success" "success") with true. cbv iota.
  destruct (applySnapshot_tables data (localStorage w1)) as (-> & _).
  rewrite Hdata. destruct l as [| x l]; [contradiction | reflexivity].
Qed.

Lemma deletion_is_local_only_witness :
  getUsers (snd (updateUserStatus "user_1700000000500" "Delete" (Sample.online None)))
    = [INITIAL_ADMIN; Sample.acme] /\
  getUsers (snd (BMS_Cloud.syncDown
                   (Json "success"
                      (mkSnapshot (Array [Sample.acme; Sample.globex])
                         Missing Missing Missing Missing NoSetting NoSetting) "")
                   (snd (updateUserStatus "user_1700000000500" "Delete"
                           (Sample.online None)))))
    = [Sample.acme; Sample.globex].
Proof.
  split; [reflexivity |].
  destruct (deletion_is_local_only "user_1700000000500" (Sample.online None))
    as (_ & _ & Hpull).
  apply Hpull; [discriminate | reflexivity | discriminate].
Defined.

(** X26: an id that no user carries.  [resetPassword] and
    [updateUserStatus] then return [false] and change nothing: no write, no
    request. *)
Theorem unknown_user_id_is_refused (userId : string) (w : World) :
  (forall u, u ∈ getUsers w -> u_id u <> userId) ->
  (forall newPassword, resetPassword userId newPassword w = (false, w)) /\
  (forall newStatus, updateUserStatus userId newStatus w = (false, w)).
Proof.
  intros Hnone.
  assert (JS.find (fun u => String.eqb (u_id u) userId) (getUsers w) = None)
    as Hfind.
  { apply find_None. intros u Hu. apply String.eqb_neq. now apply Hnone. }
  unfold resetPassword, updateUserStatus. rewrite Hfind. split; reflexivity.
Qed.

Lemma unknown_user_id_witness :
  updateUserStatus "user_42" "Delete" (Sample.online None)
    = (false, Sample.online None).
Proof.
  apply (unknown_user_id_is_refused "user_42" (Sample.online None)).
  intros u Hu.
  repeat (apply elem_of_cons in Hu as [-> | Hu]; [discriminate |]).
  inversion Hu.
Defined.
